(** * Crypto-prediction dashboard: the rendering rules and the request handlers

    A shallow embedding of the three dashboard components of the repository
    ([src/app/home/index.tsx], [src/app/yahoo-dataset/index.tsx] and the
    first, prediction-only dashboard) together with the part of the
    ECMAScript runtime their code calls: strings, numbers and their
    formatting, dates, JSON values and [async] functions.

    Conventions.
    - A JavaScript string is a sequence of UTF-16 code units; the model keeps
      the code units below 256 (Latin-1), one [ascii] each, so [length],
      [substring], [includes] and [toLowerCase] are the runtime's on that
      range.
    - A JavaScript number is an IEEE-754 binary64 value: Rocq's primitive
      [float], whose operations are the processor's.
    - What the host decides (locale, time zone, the text of engine errors,
      date formats outside the standard) is a field of [Host]. *)

From Stdlib Require Import ZArith List Bool String Ascii Lia Floats.
From Stdlib Require Import QArith Qround Qpower Lqa.
From Stdlib Require Import DecimalString.
Import ListNotations.

Local Open Scope string_scope.
#[local] Set Warnings "-register-all,-inexact-float".

(** ** Strings *)

Module JSString.

(** [String.prototype.toLowerCase] on one code unit below 256: the
    upper-case letters A-Z, and À-Þ without the multiplication sign. *)
Definition lowerUnit (c : ascii) : ascii :=
  let n := N_of_ascii c in
  if ((65 <=? n) && (n <=? 90) ||
      (192 <=? n) && (n <=? 214) ||
      (216 <=? n) && (n <=? 222))%N
  then ascii_of_N (n + 32)
  else c.

Fixpoint toLowerCase (s : string) : string :=
  match s with
  | EmptyString => EmptyString
  | String c s' => String (lowerUnit c) (toLowerCase s')
  end.

(** [s.startsWith(p)]. *)
Fixpoint startsWith (s p : string) : bool :=
  match p, s with
  | EmptyString, _ => true
  | String _ _, EmptyString => false
  | String a p', String b s' => Ascii.eqb a b && startsWith s' p'
  end.

(** [s.includes(p)]: [p] occurs in [s] at some position. *)
Fixpoint includes (s p : string) : bool :=
  startsWith s p ||
  match s with
  | EmptyString => false
  | String _ s' => includes s' p
  end.

(** JavaScript truthiness of a string: every string but the empty one. *)
Definition truthy (s : string) : bool :=
  match s with EmptyString => false | _ => true end.

(** The occurrence relation [includes] decides. *)
Definition occursIn (p s : string) : Prop :=
  exists pre post, s = pre ++ p ++ post.

End JSString.

(** ** The signal badge of an indicator card *)

Module IndicatorCard.
Import JSString.

Definition positiveClass := "bg-green-100 text-green-800".
Definition negativeClass := "bg-red-100 text-red-800".
Definition neutralClass := "bg-gray-100 text-gray-800".

(** The colour classes the [className] template picks for [signal]; the
    three components carry the same conditional. *)
Definition signalClass (signal : string) : string :=
  if includes (toLowerCase signal) "bull" ||
     includes (toLowerCase signal) "strong" ||
     (signal =? "Overbought")
  then positiveClass
  else if includes (toLowerCase signal) "bear" ||
          includes (toLowerCase signal) "weak" ||
          (signal =? "Oversold")
  then negativeClass
  else neutralClass.

(** [{signal && (<span className=...>{signal}</span>)}]: the badge, as its
    class list and its text; an absent or empty signal renders none. *)
Definition signalBadge (signal : option string) : option (string * string) :=
  match signal with
  | None => None
  | Some s =>
      if truthy s
      then Some ("text-sm font-medium px-2 py-1 rounded " ++ signalClass s, s)
      else None
  end.

End IndicatorCard.

(** ** Numbers and their formatting *)

Module JSNumber.

(** *** The exact value of a number *)

(** [m * 2^e] as a fraction. *)
Definition dyadic (m e : Z) : Q :=
  if (0 <=? e)%Z then inject_Z (m * 2 ^ e) else Qmake m (Z.to_pos (2 ^ (- e))).

(** The absolute value of a finite number, exactly; [None] for NaN and the
    infinities. *)
Definition magnitude (x : float) : option Q :=
  match Prim2SF x with
  | S754_zero _ => Some 0%Q
  | S754_finite _ m e => Some (dyadic (Zpos m) e)
  | _ => None
  end.

(** [x < 0] on the value: false for both zeros and for NaN. *)
Definition isNegative (x : float) : bool := (x <? 0)%float.

(** The sign bit, set for [-0] too. *)
Definition signBit (x : float) : bool :=
  match Prim2SF x with
  | S754_zero s | S754_infinity s | S754_finite s _ _ => s
  | S754_nan => false
  end.

(** "Let n be an integer for which n / 10^f - v is as close to zero as
    possible; if there are two such n, pick the larger": [v >= 0]. *)
Definition nearest (v : Q) (f : nat) : Z :=
  Qfloor (v * inject_Z (10 ^ Z.of_nat f) + (1 # 2)).

(** *** Decimal digits *)

Definition digit (d : Z) : string :=
  String (ascii_of_N (48 + Z.to_N d)) "".

Fixpoint decimalFuel (fuel : nat) (n : Z) : string :=
  match fuel with
  | O => ""
  | S fuel' =>
      if (n <? 10)%Z then digit n
      else decimalFuel fuel' (n / 10) ++ digit (n mod 10)
  end.

(** The decimal representation of [n >= 0], most significant digit first
    and without leading zeros. *)
Definition decimal (n : Z) : string :=
  decimalFuel (S (Z.to_nat (Z.log2 n))) n.

(** The [f] low decimal digits of [r], zeros included. *)
Fixpoint fraction (f : nat) (r : Z) : string :=
  match f with
  | O => ""
  | S f' => fraction f' (r / 10) ++ digit (r mod 10)
  end.

Fixpoint zeros (k : nat) : string :=
  match k with O => "" | S k' => "0" ++ zeros k' end.

(** *** [Number::toString] (radix 10) *)

(** The reals that round to the number [m * 2^e] lie between the two
    half-way points to its neighbours; the interval is closed when [m] is
    even (round to nearest, ties to even).  Below a power of two the lower
    neighbour is twice as close.  Both bounds are fractions over
    [2^(2 - e)] scaled to integers: a bound is [b * 2^(e - 2)]. *)
Definition lowerBound (m : positive) (e : Z) : Z :=
  if (Zpos m =? 2 ^ 52)%Z && (-1074 <? e)%Z then 4 * Zpos m - 1
  else 4 * Zpos m - 2.

Definition upperBound (m : positive) : Z := 4 * Zpos m + 2.

(** Whether the decimal [s * 10^q] rounds to [m * 2^e]. *)
Definition roundsTo (m : positive) (e : Z) (s q : Z) : bool :=
  let c := (inject_Z s * Qpower 10 q)%Q in
  let lo := dyadic (lowerBound m e) (e - 2) in
  let hi := dyadic (upperBound m) (e - 2) in
  if Z.even (Zpos m) then Qle_bool lo c && Qle_bool c hi
  else negb (Qle_bool c lo) && negb (Qle_bool hi c).

(** The decade of [v > 0]: the [n] with [10^(n-1) <= v < 10^n], found
    around the estimate the binary exponent gives. *)
Definition decade (m : positive) (e : Z) : Z :=
  let v := dyadic (Zpos m) e in
  let n0 := ((Z.log2 (Zpos m) + e) * 30103 / 100000)%Z in
  if Qle_bool (Qpower 10 (n0 + 1)) v then n0 + 2
  else if Qle_bool (Qpower 10 n0) v then n0 + 1
  else if Qle_bool (Qpower 10 (n0 - 1)) v then n0
  else n0 - 1.

(** The candidates with [k] digits: the two neighbours of [v] among the
    multiples of [10^(n-k)]; the closer one that rounds to [v], if any. *)
Definition candidate (m : positive) (e : Z) (n : Z) (k : Z) : option Z :=
  let v := dyadic (Zpos m) e in
  let q := (n - k)%Z in
  let lo := Qfloor (v * Qpower 10 (- q)) in
  let hi := (lo + 1)%Z in
  let dlo := (v - inject_Z lo * Qpower 10 q)%Q in
  let dhi := (inject_Z hi * Qpower 10 q - v)%Q in
  match roundsTo m e lo q, roundsTo m e hi q with
  | true, true =>
      if Qle_bool dhi dlo && negb (Qle_bool dlo dhi && Z.even lo)
      then Some hi else Some lo
  | true, false => Some lo
  | false, true => Some hi
  | false, false => None
  end.

(** The shortest digits: the least [k] with a candidate, tried from
    [k] upwards; seventeen digits always suffice. *)
Fixpoint shortest (fuel : nat) (m : positive) (e : Z) (n : Z) (k : Z)
  : Z * Z * Z :=
  match candidate m e n k, fuel with
  | Some s, _ =>
      if (s =? 10 ^ k)%Z then (n + 1, k, 10 ^ (k - 1))%Z else (n, k, s)
  | None, S fuel' => shortest fuel' m e n (k + 1)
  | None, O => (n, k, Qfloor (dyadic (Zpos m) e * Qpower 10 (k - n)))
  end.

(** The digits of [s], with zeros in front up to [k] of them. *)
Definition digitsOf (s k : Z) : string := fraction (Z.to_nat k) s.

Definition exponentPart (n : Z) : string :=
  "e" ++ (if (n - 1 <? 0)%Z then "-" else "+") ++ decimal (Z.abs (n - 1)).

(** Steps 6 to 10 of [Number::toString]: fixed notation up to twenty-one
    integer digits and down to six leading zeros, scientific otherwise. *)
Definition layout (n k s : Z) : string :=
  let ds := digitsOf s k in
  if (k <=? n)%Z && (n <=? 21)%Z then ds ++ zeros (Z.to_nat (n - k))
  else if (0 <? n)%Z && (n <=? 21)%Z then
    substring 0 (Z.to_nat n) ds ++ "." ++
    substring (Z.to_nat n) (Z.to_nat (k - n)) ds
  else if (-6 <? n)%Z && (n <=? 0)%Z then
    "0." ++ zeros (Z.to_nat (- n)) ++ ds
  else if (k =? 1)%Z then ds ++ exponentPart n
  else substring 0 1 ds ++ "." ++ substring 1 (Z.to_nat (k - 1)) ds ++
       exponentPart n.

Definition toString (x : float) : string :=
  match Prim2SF x with
  | S754_nan => "NaN"
  | S754_zero _ => "0"
  | S754_infinity s => if s then "-Infinity" else "Infinity"
  | S754_finite s m e =>
      let '(n, k, d) := shortest 16 m e (decade m e) 1 in
      (if s then "-" else "") ++ layout n k d
  end.

(** *** [Number.prototype.toFixed] *)

(** The digits of [n] with [f] of them after the point: "let a be the
    first k - f code units of m and b the other f", on the quotient and
    the remainder by [10^f]. *)
Definition pointed (n : Z) (f : nat) : string :=
  decimal (n / 10 ^ Z.of_nat f) ++
  match f with
  | O => ""
  | _ => "." ++ fraction f (n mod 10 ^ Z.of_nat f)
  end.

Definition toFixed (x : float) (fractionDigits : nat) : string :=
  match magnitude x with
  | None => toString x
  | Some v =>
      (if isNegative x then "-" else "") ++
      (if Qle_bool (inject_Z (10 ^ 21)) v then toString (abs x)
       else pointed (nearest v fractionDigits) fractionDigits)
  end.

(** *** [Number.prototype.toLocaleString] *)

(** What the locale decides in a decimal number. *)
Record NumberSymbols := {
  decimalSeparator : string;
  groupSeparator : string;
  primaryGroup : nat;
  secondaryGroup : nat;
  minimumGroupingDigits : nat;
  minusSign : string;
  nanText : string;
  infinityText : string
}.

(** The integer digits in groups, the last one of [primaryGroup] digits
    and the others of [secondaryGroup], once the number has
    [minimumGroupingDigits] digits in front of the last group. *)
Fixpoint groupsFrom (fuel : nat) (sym : NumberSymbols) (ds : string)
  : string :=
  match fuel with
  | O => ds
  | S fuel' =>
      let len := String.length ds in
      if (len <=? secondaryGroup sym)%nat || (secondaryGroup sym =? 0)%nat
      then ds
      else
        groupsFrom fuel' sym (substring 0 (len - secondaryGroup sym) ds) ++
        groupSeparator sym ++
        substring (len - secondaryGroup sym) (secondaryGroup sym) ds
  end.

Definition grouped (sym : NumberSymbols) (ds : string) : string :=
  let len := String.length ds in
  if (len <? primaryGroup sym + minimumGroupingDigits sym)%nat ||
     (primaryGroup sym =? 0)%nat
  then ds
  else
    groupsFrom len sym (substring 0 (len - primaryGroup sym) ds) ++
    groupSeparator sym ++
    substring (len - primaryGroup sym) (primaryGroup sym) ds.

(** The fraction digits without the zeros at the end that
    [minimumFractionDigits] does not ask for. *)
Fixpoint trimmed (minimum : nat) (f : nat) (r : Z) : string :=
  match f with
  | O => ""
  | S f' =>
      if (minimum <? f)%nat && (r mod 10 =? 0)%Z
      then trimmed minimum f' (r / 10)
      else fraction f r
  end.

(** The options [toLocaleString] receives; without an argument the
    defaults of [Intl.NumberFormat] apply: no digit forced, at most three. *)
Record FractionDigits := {
  minimumFractionDigits : nat;
  maximumFractionDigits : nat
}.

Definition defaultFractionDigits : FractionDigits :=
  {| minimumFractionDigits := 0; maximumFractionDigits := 3 |}.

(** The decimal the formatter starts from: not the exact value of the
    number but the shortest decimal that reads back as it, the digits
    [Number::toString] prints.  [None] for NaN and the infinities. *)
Definition shortestDecimal (x : float) : option Q :=
  match Prim2SF x with
  | S754_zero _ => Some 0%Q
  | S754_finite _ m e =>
      let '(n, k, s) := shortest 16 m e (decade m e) 1 in
      Some (inject_Z s * Qpower 10 (n - k))%Q
  | _ => None
  end.

(** Decimal style, grouping on, the shortest decimal of the number rounded
    with its half-way cases away from zero, the sign shown for every
    number with the sign bit. *)
Definition toLocaleString (sym : NumberSymbols) (x : float)
    (opts : FractionDigits) : string :=
  match shortestDecimal x with
  | None =>
      match Prim2SF x with
      | S754_infinity s =>
          (if s then minusSign sym else "") ++ infinityText sym
      | _ => nanText sym
      end
  | Some v =>
      let f := maximumFractionDigits opts in
      let n := nearest v f in
      let frac :=
        trimmed (minimumFractionDigits opts) f (n mod 10 ^ Z.of_nat f) in
      (if signBit x then minusSign sym else "") ++
      grouped sym (decimal (n / 10 ^ Z.of_nat f)) ++
      (if JSString.truthy frac then decimalSeparator sym ++ frac else "")
  end.

End JSNumber.

(** ** Dates *)

Module JSDate.

Local Open Scope Z_scope.

Definition msPerDay : Z := 86400000.

Definition isLeapYear (y : Z) : bool :=
  (y mod 4 =? 0) && (negb (y mod 100 =? 0) || (y mod 400 =? 0)).

Definition daysInMonth (y m : Z) : Z :=
  if m =? 2 then (if isLeapYear y then 29 else 28)
  else if (m =? 4) || (m =? 6) || (m =? 9) || (m =? 11) then 30
  else 31.

(** [DayFromYear]: the day number of the first day of year [y], day 0
    being 1970-01-01. *)
Definition dayFromYear (y : Z) : Z :=
  365 * (y - 1970) + (y - 1969) / 4 - (y - 1901) / 100 + (y - 1601) / 400.

(** The days of year [y] before its month [m]. *)
Definition daysBeforeMonth (y m : Z) : Z :=
  let leap := if isLeapYear y then 1 else 0 in
  if m <=? 1 then 0
  else if m =? 2 then 31
  else if m =? 3 then 59 + leap
  else if m =? 4 then 90 + leap
  else if m =? 5 then 120 + leap
  else if m =? 6 then 151 + leap
  else if m =? 7 then 181 + leap
  else if m =? 8 then 212 + leap
  else if m =? 9 then 243 + leap
  else if m =? 10 then 273 + leap
  else if m =? 11 then 304 + leap
  else 334 + leap.

(** [MakeDay] on a date of the calendar: its day number. *)
Definition dayOfDate (y m d : Z) : Z :=
  dayFromYear y + daysBeforeMonth y m + d - 1.

(** [YearFromTime]: the year [y] with [dayFromYear y <= day <
    dayFromYear (y + 1)], next to the estimate of 365.2425 days a year. *)
Definition yearOfDay (day : Z) : Z :=
  let estimate := 1970 + day * 400 / 146097 in
  if day <? dayFromYear estimate then estimate - 1
  else if dayFromYear (estimate + 1) <=? day then estimate + 1
  else estimate.

(** [MonthFromTime], from 1, of the day [dayInYear] of year [y]. *)
Definition monthOfDay (y dayInYear : Z) : Z :=
  if dayInYear <? daysBeforeMonth y 2 then 1
  else if dayInYear <? daysBeforeMonth y 3 then 2
  else if dayInYear <? daysBeforeMonth y 4 then 3
  else if dayInYear <? daysBeforeMonth y 5 then 4
  else if dayInYear <? daysBeforeMonth y 6 then 5
  else if dayInYear <? daysBeforeMonth y 7 then 6
  else if dayInYear <? daysBeforeMonth y 8 then 7
  else if dayInYear <? daysBeforeMonth y 9 then 8
  else if dayInYear <? daysBeforeMonth y 10 then 9
  else if dayInYear <? daysBeforeMonth y 11 then 10
  else if dayInYear <? daysBeforeMonth y 12 then 11
  else 12.

(** The calendar date of a day number ([YearFromTime], [MonthFromTime] and
    [DateFromTime]). *)
Definition dateOfDay (day : Z) : Z * Z * Z :=
  let y := yearOfDay day in
  let dayInYear := day - dayFromYear y in
  let m := monthOfDay y dayInYear in
  (y, m, dayInYear - daysBeforeMonth y m + 1).

(** *** Reading "YYYY-MM-DD" *)

Definition digitValue (c : ascii) : option Z :=
  let n := N_of_ascii c in
  if ((48 <=? n) && (n <=? 57))%N then Some (Z.of_N n - 48) else None.

Fixpoint digitsValue (acc : Z) (s : string) : option Z :=
  match s with
  | EmptyString => Some acc
  | String c s' =>
      match digitValue c with
      | Some d => digitsValue (10 * acc + d) s'
      | None => None
      end
  end.

(** The three fields of a date-only string of the standard format: four
    digits, two digits, two digits, with hyphens and nothing else. *)
Definition dateOnlyFields (s : string) : option (Z * Z * Z) :=
  if (String.length s =? 10)%nat &&
     (substring 4 1 s =? "-")%string && (substring 7 1 s =? "-")%string
  then
    match digitsValue 0 (substring 0 4 s),
          digitsValue 0 (substring 5 2 s),
          digitsValue 0 (substring 8 2 s) with
    | Some y, Some m, Some d => Some (y, m, d)
    | _, _, _ => None
    end
  else None.

(** [Date.parse] on a date-only string: UTC midnight of a calendar date
    of the standard format, NaN ([None]) for a month or a day out of the
    bounds of the format, and what the host makes of anything else: a
    day past the end of its month, or a string in no standard format. *)
Definition parse (otherFormats : string -> option Z) (s : string)
  : option Z :=
  match dateOnlyFields s with
  | Some (y, m, d) =>
      if (1 <=? m) && (m <=? 12) && (1 <=? d) && (d <=? 31) then
        if d <=? daysInMonth y m then Some (dayOfDate y m d * msPerDay)
        else otherFormats s
      else None
  | None => otherFormats s
  end.

End JSDate.

(** ** The host *)

Record Host := {
  (** the number symbols of the default locale *)
  numberSymbols : JSNumber.NumberSymbols;
  (** the default locale's short date, of a year, a month and a day *)
  dateText : Z -> Z -> Z -> string;
  (** the offset of local time from UTC at a time value, in milliseconds *)
  localTZA : Z -> Z;
  (** the time value of a date string the standard format does not cover *)
  otherDateFormats : string -> option Z;
  (** the message of the TypeError for reading a property of [null] *)
  nullPropertyMessage : string -> string;
  (** the message of the TypeError for an object that no method turns
      into a primitive value *)
  notPrimitiveMessage : string
}.

Module Completion.

(** What a [catch] clause receives: an [Error] object with its message,
    or any other value. *)
Inductive Thrown :=
| ErrorObject (message : string)
| OtherValue.

(** The result of an expression that may throw. *)
Inductive t (A : Type) :=
| Normal (a : A)
| Abrupt (e : Thrown).
Arguments Normal {A} a.
Arguments Abrupt {A} e.

(** [try { body } catch (e) { handler }]. *)
Definition tryCatch {A} (body : t A) (handler : Thrown -> A) : A :=
  match body with
  | Normal a => a
  | Abrupt e => handler e
  end.

Definition andThen {A B} (c : t A) (f : A -> t B) : t B :=
  match c with
  | Normal a => f a
  | Abrupt e => Abrupt e
  end.

End Completion.

Module DateObject.
Import Completion.

(** [new Date(string)]: the time value [Date.parse] gives, NaN included;
    the constructor does not throw. *)
Definition ofString (host : Host) (s : string) : t (option Z) :=
  Normal (JSDate.parse (otherDateFormats host) s).

(** [toLocaleDateString()]: the local calendar date in the locale's
    format; "Invalid Date" for the NaN time value. *)
Definition toLocaleDateString (host : Host) (tv : option Z) : t string :=
  match tv with
  | None => Normal "Invalid Date"
  | Some time =>
      let '(y, m, d) :=
        JSDate.dateOfDay ((time + localTZA host time) / JSDate.msPerDay) in
      Normal (dateText host y m d)
  end.

End DateObject.

(** ** The news card ([home]) *)

Module NewsCard.
Import Completion.

(** [formatDate]: "Format date from 20250224T231000 format to readable
    date". *)
Definition formatDate (host : Host) (dateString : string) : string :=
  if negb (JSString.truthy dateString) ||
     (String.length dateString <? 8)%nat
  then "N/A"
  else
    tryCatch
      (let year := substring 0 4 dateString in
       let month := substring 4 2 dateString in
       let day := substring 6 2 dateString in
       andThen
         (DateObject.ofString host (year ++ "-" ++ month ++ "-" ++ day))
         (DateObject.toLocaleDateString host))
      (fun e => dateString).

(** [getSentimentColor]. *)
Definition getSentimentColor (label : string) : string :=
  if (label =? "Bullish") || (label =? "Somewhat-Bullish")
  then "bg-green-100 text-green-800"
  else if (label =? "Bearish") || (label =? "Somewhat-Bearish")
  then "bg-red-100 text-red-800"
  else "bg-gray-100 text-gray-800".

End NewsCard.

(** ** JSON values *)

Module JSON.
Import Completion.

(** A parsed JSON text, as [response.json()] resolves to it.  The members
    of an object are in insertion order, each key once. *)
Inductive value :=
| Null
| Bool (b : bool)
| Number (x : float)
| Str (s : string)
| Array (items : list value)
| Object (members : list (string * value)).

Fixpoint lookup (key : string) (members : list (string * value))
  : option value :=
  match members with
  | [] => None
  | (k, v) :: rest => if (k =? key)%string then Some v else lookup key rest
  end.

(** [v.key] for a key that no prototype defines and that is neither an
    index nor [length]: the member of an object, a TypeError on [null],
    [undefined] ([None]) on anything else. *)
Definition member (host : Host) (v : value) (key : string)
  : Completion.t (option value) :=
  match v with
  | Null => Abrupt (ErrorObject (nullPropertyMessage host key))
  | Object members => Normal (lookup key members)
  | _ => Normal None
  end.

(** [ToBoolean], [undefined] being [None]. *)
Definition truthy (v : option value) : bool :=
  match v with
  | None | Some Null => false
  | Some (Bool b) => b
  | Some (Number x) =>
      match Prim2SF x with
      | S754_zero _ | S754_nan => false
      | _ => true
      end
  | Some (Str s) => JSString.truthy s
  | Some (Array _) | Some (Object _) => true
  end.

(** [a || b], with a string for [b]. *)
Definition orElse (a : option value) (b : string) : option value :=
  if truthy a then a else Some (Str b).

Fixpoint join (sep : string) (parts : list string) : string :=
  match parts with
  | [] => ""
  | [x] => x
  | x :: rest => x ++ sep ++ join sep rest
  end.

(** [ToString].  An object is "[object Object]" by the method of its
    prototype, unless it has a member [toString] of its own: that hides
    the method and, coming from a JSON text, is no function, [valueOf]
    gives no primitive value either, and the conversion throws a
    TypeError.  An array joins the texts of its items, the empty text for
    [null], and throws where an item does. *)
Fixpoint toString (host : Host) (v : value) : Completion.t string :=
  match v with
  | Null => Normal "null"
  | Bool b => Normal (if b then "true" else "false")
  | Number x => Normal (JSNumber.toString x)
  | Str s => Normal s
  | Array items =>
      match
        (fix texts (l : list value) : Completion.t (list string) :=
           match l with
           | [] => Normal []
           | i :: rest =>
               match
                 match i with Null => Normal "" | _ => toString host i end
               with
               | Abrupt e => Abrupt e
               | Normal s =>
                   match texts rest with
                   | Abrupt e => Abrupt e
                   | Normal ss => Normal (s :: ss)
                   end
               end
           end) items
      with
      | Abrupt e => Abrupt e
      | Normal parts => Normal (join "," parts)
      end
  | Object members =>
      match lookup "toString" members with
      | Some _ => Abrupt (ErrorObject (notPrimitiveMessage host))
      | None => Normal "[object Object]"
      end
  end.

(** What [throw new Error(v)] throws: the new object with the text of [v]
    as its message, or the TypeError of the conversion of [v]. *)
Definition newError (host : Host) (v : option value) : Thrown :=
  match v with
  | None => ErrorObject ""
  | Some v' =>
      match toString host v' with
      | Normal s => ErrorObject s
      | Abrupt e => e
      end
  end.

(** *** [JSON.stringify] *)

Definition quotationMark : string := String (ascii_of_N 34) "".

Definition hexDigit (n : N) : string :=
  String (ascii_of_N (if (n <? 10)%N then 48 + n else 87 + n)) "".

(** [QuoteJSONString] on one code unit. *)
Definition quoteUnit (c : ascii) : string :=
  let n := N_of_ascii c in
  if (n =? 8)%N then "\b"
  else if (n =? 9)%N then "\t"
  else if (n =? 10)%N then "\n"
  else if (n =? 12)%N then "\f"
  else if (n =? 13)%N then "\r"
  else if (n =? 34)%N then "\" ++ quotationMark
  else if (n =? 92)%N then "\\"
  else if (n <? 32)%N then "\u00" ++ hexDigit (n / 16) ++ hexDigit (n mod 16)
  else String c "".

Fixpoint quoteUnits (s : string) : string :=
  match s with
  | EmptyString => ""
  | String c s' => quoteUnit c ++ quoteUnits s'
  end.

Definition quote (s : string) : string :=
  quotationMark ++ quoteUnits s ++ quotationMark.

Fixpoint stringify (v : value) : string :=
  match v with
  | Null => "null"
  | Bool b => if b then "true" else "false"
  | Number x =>
      match JSNumber.magnitude x with
      | Some _ => JSNumber.toString x
      | None => "null"
      end
  | Str s => quote s
  | Array items => "[" ++ join "," (map stringify items) ++ "]"
  | Object members =>
      "{" ++
      join "," (map (fun kv => quote (fst kv) ++ ":" ++ stringify (snd kv))
                    members) ++
      "}"
  end.

End JSON.

(** ** [fetch] *)

Module Fetch.

Record Request := {
  url : string;
  method : string;
  headers : list (string * string);
  mode : option string;
  credentials : option string;
  body : option string
}.

(** A response, with the promise [response.json()] returns: fulfilled
    with the parsed body or rejected with the parser's error. *)
Record Response := {
  ok : bool;
  json : Completion.t JSON.value
}.

(** How the promise of each request settles: fulfilled with a response
    or rejected. *)
Definition Network := Request -> Completion.t Response.

Definition get (address : string) : Request :=
  {| url := address; method := "GET"; headers := []; mode := None;
     credentials := None; body := None |}.

End Fetch.

(** ** [async] functions over the state of a component *)

Module Async.
Import Completion.

Section WithState.
Context {S : Type}.

(** The run of an [async] function over the state slots [S] of a
    component: state setters, [console.error], the two kinds of
    [await] of the handlers, and calls of [async] functions that are
    not awaited. *)
Inductive t (A : Type) : Type :=
| Return (a : A)
| Throw (e : Thrown)
| Update (f : S -> S) (k : t A)
| ConsoleError (label : string) (e : Thrown) (k : t A)
| AwaitFetch (request : Fetch.Request)
             (k : Completion.t Fetch.Response -> t A)
| AwaitJson (response : Fetch.Response)
            (k : Completion.t JSON.value -> t A)
| Call (callee : t unit) (k : t A).

Arguments Return {A} a.
Arguments Throw {A} e.
Arguments Update {A} f k.
Arguments ConsoleError {A} label e k.
Arguments AwaitFetch {A} request k.
Arguments AwaitJson {A} response k.
Arguments Call {A} callee k.

Fixpoint bind {A B} (m : t A) (f : A -> t B) : t B :=
  match m with
  | Return a => f a
  | Throw e => Throw e
  | Update g k => Update g (bind k f)
  | ConsoleError l e k => ConsoleError l e (bind k f)
  | AwaitFetch r k => AwaitFetch r (fun x => bind (k x) f)
  | AwaitJson r k => AwaitJson r (fun x => bind (k x) f)
  | Call c k => Call c (bind k f)
  end.

(** [try { m } catch (err) { handler err }]. *)
Fixpoint tryCatch {A} (m : t A) (handler : Thrown -> t A) : t A :=
  match m with
  | Return a => Return a
  | Throw e => handler e
  | Update g k => Update g (tryCatch k handler)
  | ConsoleError l e k => ConsoleError l e (tryCatch k handler)
  | AwaitFetch r k => AwaitFetch r (fun x => tryCatch (k x) handler)
  | AwaitJson r k => AwaitJson r (fun x => tryCatch (k x) handler)
  | Call c k => Call c (tryCatch k handler)
  end.

(** [try { m } finally { final }]. *)
Fixpoint tryFinally {A} (m : t A) (final : t unit) : t A :=
  match m with
  | Return a => bind final (fun _ => Return a)
  | Throw e => bind final (fun _ => Throw e)
  | Update g k => Update g (tryFinally k final)
  | ConsoleError l e k => ConsoleError l e (tryFinally k final)
  | AwaitFetch r k => AwaitFetch r (fun x => tryFinally (k x) final)
  | AwaitJson r k => AwaitJson r (fun x => tryFinally (k x) final)
  | Call c k => Call c (tryFinally k final)
  end.

Definition tryCatchFinally {A} (m : t A) (handler : Thrown -> t A)
    (final : t unit) : t A :=
  tryFinally (tryCatch m handler) final.

Definition ofCompletion {A} (c : Completion.t A) : t A :=
  match c with
  | Normal a => Return a
  | Abrupt e => Throw e
  end.

(** [await fetch(request)] and [await response.json()]: a rejection is
    thrown where the function waits. *)
Definition fetch (request : Fetch.Request) : t Fetch.Response :=
  AwaitFetch request ofCompletion.

Definition json (response : Fetch.Response) : t JSON.value :=
  AwaitJson response ofCompletion.

Definition set (f : S -> S) : t unit := Update f (Return tt).

Definition consoleError (label : string) (e : Thrown) : t unit :=
  ConsoleError label e (Return tt).

(** A call whose promise is dropped. *)
Definition call (callee : t unit) : t unit := Call callee (Return tt).

Definition when (b : bool) (m : t unit) : t unit :=
  if b then m else Return tt.

(** *** Execution *)

(** A component between two events: its state and the functions
    waiting, each at an [await]. *)
Definition Config : Type := S * list (t unit).

(** A function runs from its call to its first [await], and so does
    every function it calls on the way. *)
Fixpoint start (m : t unit) (s : S) : Config :=
  match m with
  | Return _ | Throw _ => (s, [])
  | Update f k => start k (f s)
  | ConsoleError _ _ k => start k s
  | AwaitFetch _ _ | AwaitJson _ _ => (s, [m])
  | Call c k =>
      let '(s1, waiting1) := start c s in
      let '(s2, waiting2) := start k s1 in
      (s2, (waiting1 ++ waiting2)%list)
  end.

(** What a waiting function goes on with once its promise settles. *)
Definition resume (network : Fetch.Network) (m : t unit) : t unit :=
  match m with
  | AwaitFetch request k => k (network request)
  | AwaitJson response k => k (Fetch.json response)
  | _ => m
  end.

(** The promise of the [i]-th waiting function settles. *)
Definition settle (network : Fetch.Network) (i : nat) (c : Config)
  : option Config :=
  let '(s, waiting) := c in
  match nth_error waiting i with
  | None => None
  | Some m =>
      let '(s', again) := start (resume network m) s in
      Some (s', (firstn i waiting ++ again ++
                 skipn (Datatypes.S i) waiting)%list)
  end.

(** Promises settle one after the other, oldest first, [fuel] of them
    at most. *)
Fixpoint drain (network : Fetch.Network) (fuel : nat) (c : Config)
  : Config :=
  match fuel, snd c with
  | O, _ | _, [] => c
  | Datatypes.S fuel', _ :: _ =>
      match settle network 0 c with
      | Some c' => drain network fuel' c'
      | None => c
      end
  end.

End WithState.

Arguments t : clear implicits.
Arguments Config : clear implicits.
Arguments Return {S A} a.
Arguments Throw {S A} e.
Arguments Update {S A} f k.
Arguments ConsoleError {S A} label e k.
Arguments AwaitFetch {S A} request k.
Arguments AwaitJson {S A} response k.
Arguments Call {S A} callee k.

Module Notations.
Notation "x <- m ;; k" := (bind m (fun x => k))
  (at level 61, m at next level, right associativity).
Notation "m ;; k" := (bind m (fun _ => k))
  (at level 61, right associativity).
End Notations.

(** [err instanceof Error ? err.message : "An error occurred"]. *)
Definition messageOf (err : Thrown) : string :=
  match err with
  | ErrorObject message => message
  | OtherValue => "An error occurred"
  end.

End Async.

(** ** The payloads, as the interfaces of the components declare them *)

Module Payload.

Record ForecastPoint := {
  date : string;
  predicted_price : float;
  prediction_interval_low : float;
  prediction_interval_high : float;
  direction : string;
  probability : float
}.

Record PredictionData := {
  prediction : string;
  probability_up : float;
  probability_down : float;
  current_price : float;
  accuracy : float;
  plot_base64 : string;
  forecast : list ForecastPoint
}.

Record TickerInfo := {
  ticker : string;
  price : float;
  change_amount : float;
  change_percentage : float;
  volume : float
}.

End Payload.

(** ** What the three components render alike *)

Module Widgets.
Import Payload.

Inductive Icon :=
| ArrowUp | ArrowDown | TrendingUp | TrendingDown | ChevronUp | ChevronDown.

(** An icon with its classes, and the text beside it with its own. *)
Record Direction := {
  icon : Icon;
  iconClass : string;
  label : option (string * string)
}.

(** [(x * 100).toFixed(1)] followed by a percent sign. *)
Definition percent (x : float) : string :=
  JSNumber.toFixed (x * 100) 1 ++ "%".

Definition twoDecimals : JSNumber.FractionDigits :=
  {| JSNumber.minimumFractionDigits := 2;
     JSNumber.maximumFractionDigits := 2 |}.

(** A dollar sign and [x.toLocaleString(undefined, { minimumFractionDigits:
    2, maximumFractionDigits: 2 })]. *)
Definition dollars (host : Host) (x : float) : string :=
  "$" ++ JSNumber.toLocaleString (numberSymbols host) x twoDecimals.

(** The header of the prediction card. *)
Definition predictionDirection (d : PredictionData) : Direction :=
  {| icon := if prediction d =? "UP" then TrendingUp else TrendingDown;
     iconClass :=
       if prediction d =? "UP" then "h-6 w-6 text-green-500 mr-2"
       else "h-6 w-6 text-red-500 mr-2";
     label :=
       Some ("text-2xl font-bold " ++
             (if prediction d =? "UP" then "text-green-600"
              else "text-red-600"),
             prediction d) |}.

(** A dollar sign and [prediction.current_price.toLocaleString()]. *)
Definition currentPrice (host : Host) (d : PredictionData) : string :=
  "$" ++ JSNumber.toLocaleString (numberSymbols host) (current_price d)
           JSNumber.defaultFractionDigits.

Definition upward (d : PredictionData) : string :=
  percent (probability_up d).

Definition downward (d : PredictionData) : string :=
  percent (probability_down d).

Definition modelPerformance (d : PredictionData) : string :=
  percent (accuracy d) ++ " accuracy on historical predictions".

(** A row of the forecast table. *)
Record ForecastRow := {
  dateCell : string;
  priceCell : string;
  directionCell : Direction;
  confidenceCell : string;
  rangeLow : string;
  rangeHigh : string
}.

Definition arrow (point : ForecastPoint) (withLabel : bool) : Direction :=
  {| icon := if direction point =? "UP" then ArrowUp else ArrowDown;
     iconClass :=
       if direction point =? "UP" then "text-green-500"
       else "text-red-500";
     label :=
       if withLabel then
         Some ("ml-1 " ++
               (if direction point =? "UP" then "text-green-600"
                else "text-red-600"),
               direction point)
       else None |}.

Definition forecastRow (host : Host) (withLabel : bool)
    (point : ForecastPoint) : ForecastRow :=
  {| dateCell := date point;
     priceCell := dollars host (predicted_price point);
     directionCell := arrow point withLabel;
     confidenceCell := percent (probability point);
     rangeLow := dollars host (prediction_interval_low point);
     rangeHigh := dollars host (prediction_interval_high point) |}.

(** [typeof value === "number" ? value.toFixed(2) : value], the value of
    an indicator card. *)
Definition indicatorValue (value : float + string) : string :=
  match value with
  | inl x => JSNumber.toFixed x 2
  | inr s => s
  end.

End Widgets.

(** ** The form of the two Alpha Vantage dashboards *)

Module Form.

Record FormData := {
  base_currency : string;
  quote_currency : string;
  timeframe : string;
  period : string;
  api_key : string
}.

(** The object [JSON.stringify] walks: the fields in the order of the
    initial state, which the spreads of [setFormData] keep. *)
Definition toJSON (formData : FormData) : JSON.value :=
  JSON.Object
    [("base_currency", JSON.Str (base_currency formData));
     ("quote_currency", JSON.Str (quote_currency formData));
     ("timeframe", JSON.Str (timeframe formData));
     ("period", JSON.Str (period formData));
     ("api_key", JSON.Str (api_key formData))].

Definition predictRequest (formData : FormData) : Fetch.Request :=
  {| Fetch.url := "https://portal2.incoe.astra.co.id/api-analysis/predict";
     Fetch.method := "POST";
     Fetch.headers :=
       [("Content-Type", "application/json"); ("Accept", "application/json")];
     Fetch.mode := Some "cors";
     Fetch.credentials := Some "same-origin";
     Fetch.body := Some (JSON.stringify (toJSON formData)) |}.

End Form.

(** ** The prediction dashboard (the first of the three components) *)

Module Basic.
Import Completion Async Async.Notations Form.

Record State := {
  formData : FormData;
  prediction : JSON.value;
  loading : bool;
  error : option string
}.

Definition initial : State :=
  {| formData :=
       {| base_currency := "BTC"; quote_currency := "USD";
          timeframe := "daily"; period := "30"; api_key := "" |};
     prediction := JSON.Null;
     loading := false;
     error := None |}.

Definition setFormData (v : FormData) (s : State) : State :=
  {| formData := v; prediction := prediction s; loading := loading s;
     error := error s |}.

Definition setPrediction (v : JSON.value) (s : State) : State :=
  {| formData := formData s; prediction := v; loading := loading s;
     error := error s |}.

Definition setLoading (v : bool) (s : State) : State :=
  {| formData := formData s; prediction := prediction s; loading := v;
     error := error s |}.

Definition setError (v : option string) (s : State) : State :=
  {| formData := formData s; prediction := prediction s;
     loading := loading s; error := v |}.

(** [handleSubmit], in the render whose form data is [formData]. *)
Definition handleSubmit (host : Host) (formData : FormData)
  : Async.t State unit :=
  set (setLoading true) ;;
  set (setError None) ;;
  tryCatchFinally
    (response <- fetch (predictRequest formData) ;;
     when (negb (Fetch.ok response))
       (errorData <- json response ;;
        detail <- ofCompletion (JSON.member host errorData "detail") ;;
        Throw (JSON.newError host
                 (JSON.orElse detail "Failed to fetch prediction"))) ;;
     data <- json response ;;
     set (setPrediction data))
    (fun err =>
       set (setError (Some (messageOf err))) ;;
       consoleError "Fetch error:" err)
    (set (setLoading false)).

(** The form is submitted. *)
Definition submit (host : Host) (s : State) : Config State :=
  start (handleSubmit host (formData s)) s.

(** [ForecastTable]. *)
Definition ForecastTable (host : Host)
    (forecast : list Payload.ForecastPoint) : list Widgets.ForecastRow :=
  map (Widgets.forecastRow host true) forecast.

End Basic.

(** ** The combined dashboard ([src/app/home]) *)

Module Home.
Import Completion Async Async.Notations Form Payload.

Record State := {
  formData : FormData;
  prediction : JSON.value;
  marketMovers : JSON.value;
  newsSentiment : JSON.value;
  loading : bool;
  marketLoading : bool;
  newsLoading : bool;
  error : option string
}.

Definition initial : State :=
  {| formData :=
       {| base_currency := "BTC"; quote_currency := "USD";
          timeframe := "daily"; period := "180";
          api_key := "4W0ZWSSG69XAYG4U" |};
     prediction := JSON.Null;
     marketMovers := JSON.Null;
     newsSentiment := JSON.Null;
     loading := false;
     marketLoading := false;
     newsLoading := false;
     error := None |}.

Definition setFormData (v : FormData) (s : State) : State :=
  {| formData := v; prediction := prediction s;
     marketMovers := marketMovers s; newsSentiment := newsSentiment s;
     loading := loading s; marketLoading := marketLoading s;
     newsLoading := newsLoading s; error := error s |}.

Definition setPrediction (v : JSON.value) (s : State) : State :=
  {| formData := formData s; prediction := v;
     marketMovers := marketMovers s; newsSentiment := newsSentiment s;
     loading := loading s; marketLoading := marketLoading s;
     newsLoading := newsLoading s; error := error s |}.

Definition setMarketMovers (v : JSON.value) (s : State) : State :=
  {| formData := formData s; prediction := prediction s;
     marketMovers := v; newsSentiment := newsSentiment s;
     loading := loading s; marketLoading := marketLoading s;
     newsLoading := newsLoading s; error := error s |}.

Definition setLoading (v : bool) (s : State) : State :=
  {| formData := formData s; prediction := prediction s;
     marketMovers := marketMovers s; newsSentiment := newsSentiment s;
     loading := v; marketLoading := marketLoading s;
     newsLoading := newsLoading s; error := error s |}.

Definition setMarketLoading (v : bool) (s : State) : State :=
  {| formData := formData s; prediction := prediction s;
     marketMovers := marketMovers s; newsSentiment := newsSentiment s;
     loading := loading s; marketLoading := v;
     newsLoading := newsLoading s; error := error s |}.

Definition setError (v : option string) (s : State) : State :=
  {| formData := formData s; prediction := prediction s;
     marketMovers := marketMovers s; newsSentiment := newsSentiment s;
     loading := loading s; marketLoading := marketLoading s;
     newsLoading := newsLoading s; error := v |}.

Definition marketMoversRequest (apiKey : string) : Fetch.Request :=
  Fetch.get
    ("https://portal2.incoe.astra.co.id/api-analysis/market-movers?api_key="
     ++ apiKey).

(** [fetchMarketMovers]. *)
Definition fetchMarketMovers (apiKey : string) : Async.t State unit :=
  set (setMarketLoading true) ;;
  tryCatchFinally
    (response <- fetch (marketMoversRequest apiKey) ;;
     when (negb (Fetch.ok response))
       (Throw (ErrorObject "Failed to fetch market data")) ;;
     data <- json response ;;
     set (setMarketMovers data))
    (fun err =>
       consoleError "Error fetching market data:" err ;;
       set (setError (Some (messageOf err))))
    (set (setMarketLoading false)).

(** [handleSubmit], in the render whose form data is [formData]. *)
Definition handleSubmit (host : Host) (formData : FormData)
  : Async.t State unit :=
  set (setLoading true) ;;
  set (setError None) ;;
  tryCatchFinally
    (response <- fetch (predictRequest formData) ;;
     when (negb (Fetch.ok response))
       (errorData <- json response ;;
        detail <- ofCompletion (JSON.member host errorData "detail") ;;
        Throw (JSON.newError host
                 (JSON.orElse detail "Failed to fetch prediction"))) ;;
     data <- json response ;;
     set (setPrediction data) ;;
     when (JSString.truthy (api_key formData))
       (call (fetchMarketMovers (api_key formData))))
    (fun err =>
       set (setError (Some (messageOf err))) ;;
       consoleError "Fetch error:" err)
    (set (setLoading false)).

Definition submit (host : Host) (s : State) : Config State :=
  start (handleSubmit host (formData s)) s.

(** The price beside a ticker in [MarketMoversCard]: a dollar sign and the
    number as a template prints it. *)
Definition tickerPrice (item : TickerInfo) : string :=
  "$" ++ JSNumber.toString (price item).

(** [ForecastTable]. *)
Definition ForecastTable (host : Host) (forecast : list ForecastPoint)
  : list Widgets.ForecastRow :=
  map (Widgets.forecastRow host true) forecast.

End Home.

(** ** The Yahoo dashboard ([src/app/yahoo-dataset]) *)

Module Yahoo.
Import Completion Async Async.Notations Payload.

Record FormData := {
  symbol : string;
  timeframe : string;
  period : string
}.

Record State := {
  formData : FormData;
  prediction : JSON.value;
  marketMovers : JSON.value;
  news : JSON.value;
  loading : bool;
  error : option string
}.

Definition initial : State :=
  {| formData :=
       {| symbol := "BTC-USD"; timeframe := "1d"; period := "30d" |};
     prediction := JSON.Null;
     marketMovers := JSON.Null;
     news := JSON.Null;
     loading := false;
     error := None |}.

Definition setFormData (v : FormData) (s : State) : State :=
  {| formData := v; prediction := prediction s;
     marketMovers := marketMovers s; news := news s;
     loading := loading s; error := error s |}.

Definition setPrediction (v : JSON.value) (s : State) : State :=
  {| formData := formData s; prediction := v;
     marketMovers := marketMovers s; news := news s;
     loading := loading s; error := error s |}.

Definition setMarketMovers (v : JSON.value) (s : State) : State :=
  {| formData := formData s; prediction := prediction s;
     marketMovers := v; news := news s;
     loading := loading s; error := error s |}.

Definition setNews (v : JSON.value) (s : State) : State :=
  {| formData := formData s; prediction := prediction s;
     marketMovers := marketMovers s; news := v;
     loading := loading s; error := error s |}.

Definition setLoading (v : bool) (s : State) : State :=
  {| formData := formData s; prediction := prediction s;
     marketMovers := marketMovers s; news := news s;
     loading := v; error := error s |}.

Definition setError (v : option string) (s : State) : State :=
  {| formData := formData s; prediction := prediction s;
     marketMovers := marketMovers s; news := news s;
     loading := loading s; error := v |}.

Definition toJSON (formData : FormData) : JSON.value :=
  JSON.Object
    [("symbol", JSON.Str (symbol formData));
     ("timeframe", JSON.Str (timeframe formData));
     ("period", JSON.Str (period formData))].

Definition predictRequest (formData : FormData) : Fetch.Request :=
  {| Fetch.url :=
       "https://portal2.incoe.astra.co.id/api-analysis-yahoo/predict";
     Fetch.method := "POST";
     Fetch.headers := [("Content-Type", "application/json")];
     Fetch.mode := None;
     Fetch.credentials := None;
     Fetch.body := Some (JSON.stringify (toJSON formData)) |}.

Definition marketMoversRequest : Fetch.Request :=
  Fetch.get
    "https://portal2.incoe.astra.co.id/api-analysis-yahoo/market-movers".

Definition newsRequest (formData : FormData) : Fetch.Request :=
  Fetch.get
    ("https://portal2.incoe.astra.co.id/api-analysis-yahoo/news?symbol="
     ++ symbol formData).

(** [handleSubmit], in the render whose form data is [formData]. *)
Definition handleSubmit (host : Host) (formData : FormData)
  : Async.t State unit :=
  set (setLoading true) ;;
  set (setError None) ;;
  tryCatchFinally
    (predictionResponse <- fetch (predictRequest formData) ;;
     when (negb (Fetch.ok predictionResponse))
       (errorData <- json predictionResponse ;;
        detail <- ofCompletion (JSON.member host errorData "detail") ;;
        Throw (JSON.newError host
                 (JSON.orElse detail "Failed to fetch prediction"))) ;;
     predictionData <- json predictionResponse ;;
     set (setPrediction predictionData) ;;
     marketResponse <- fetch marketMoversRequest ;;
     when (Fetch.ok marketResponse)
       (marketData <- json marketResponse ;;
        set (setMarketMovers marketData)) ;;
     newsResponse <- fetch (newsRequest formData) ;;
     when (Fetch.ok newsResponse)
       (newsData <- json newsResponse ;;
        set (setNews newsData)))
    (fun err =>
       set (setError (Some (messageOf err))) ;;
       consoleError "Fetch error:" err)
    (set (setLoading false)).

Definition submit (host : Host) (s : State) : Config State :=
  start (handleSubmit host (formData s)) s.

(** The price beside a ticker: a dollar sign and [item.price.toFixed(2)]. *)
Definition tickerPrice (item : TickerInfo) : string :=
  "$" ++ JSNumber.toFixed (price item) 2.

(** The rows of the forecast table, whose direction cell is the arrow
    alone. *)
Definition forecastRows (host : Host) (forecast : list ForecastPoint)
  : list Widgets.ForecastRow :=
  map (Widgets.forecastRow host false) forecast.

End Yahoo.

(** ** A host to compute with *)

Module Hosts.

Definition enUS : JSNumber.NumberSymbols :=
  {| JSNumber.decimalSeparator := ".";
     JSNumber.groupSeparator := ",";
     JSNumber.primaryGroup := 3;
     JSNumber.secondaryGroup := 3;
     JSNumber.minimumGroupingDigits := 1;
     JSNumber.minusSign := "-";
     JSNumber.nanText := "NaN";
     (* the infinity sign U+221E, here in its UTF-8 bytes *)
     JSNumber.infinityText := "∞" |}.

(** V8 with the locale en-US, [offset] milliseconds from UTC. *)
Definition v8 (offset : Z) : Host :=
  {| numberSymbols := enUS;
     (* month/day/year, for the years of the common era *)
     dateText := fun y m d =>
       JSNumber.decimal m ++ "/" ++ JSNumber.decimal d ++ "/" ++
       JSNumber.decimal y;
     localTZA := fun _ => offset;
     (* a day up to 31 past the end of its month runs over into the
        next one; the further formats the engine reads are left out *)
     otherDateFormats := fun s =>
       match JSDate.dateOnlyFields s with
       | Some (y, m, d) =>
           if ((1 <=? m) && (m <=? 12) && (1 <=? d) && (d <=? 31))%Z
           then Some (JSDate.dayOfDate y m d * JSDate.msPerDay)%Z
           else None
       | None => None
       end;
     nullPropertyMessage := fun key =>
       "Cannot read properties of null (reading '" ++ key ++ "')";
     notPrimitiveMessage := "Cannot convert object to primitive value" |}.

Definition utc : Host := v8 0.
Definition newYorkWinter : Host := v8 (-18000000).
Definition jakarta : Host := v8 25200000.

End Hosts.

(** ** The market movers lists *)

Module MarketMovers.
Import Payload Widgets.

(** The change of a ticker: the classes of its text, the chevron and the
    text. *)
Record Change := {
  changeClass : string;
  changeIcon : Icon;
  changeText : string
}.

(** [MarketMoversCard] of the combined dashboard: green and up from zero
    on, red and down below, beside [Math.abs(item.change_percentage)] as a
    template prints it. *)
Definition homeChange (item : TickerInfo) : Change :=
  {| changeClass :=
       "text-sm font-medium " ++
       (if (0 <=? change_percentage item)%float then "text-green-600"
        else "text-red-600");
     changeIcon :=
       if (0 <=? change_percentage item)%float then ChevronUp
       else ChevronDown;
     changeText := JSNumber.toString (abs (change_percentage item)) ++ "%" |}.

(** [(item.volume / 1000000).toFixed(1)] between "Vol: " and "M". *)
Definition homeVolume (item : TickerInfo) : string :=
  "Vol: " ++ JSNumber.toFixed (volume item / 1000000) 1 ++ "M".

(** The three lists of the Yahoo dashboard.  A gainer is green and up
    whatever its change, shown as it is to two decimal places. *)
Definition gainerChange (item : TickerInfo) : Change :=
  {| changeClass := "text-green-600 text-sm font-medium";
     changeIcon := ChevronUp;
     changeText := JSNumber.toFixed (change_percentage item) 2 ++ "%" |}.

(** A loser is red and down, beside the magnitude of its change. *)
Definition loserChange (item : TickerInfo) : Change :=
  {| changeClass := "text-red-600 text-sm font-medium";
     changeIcon := ChevronDown;
     changeText :=
       JSNumber.toFixed (abs (change_percentage item)) 2 ++ "%" |}.

(** A most active ticker takes its colour from the sign. *)
Definition activeChange (item : TickerInfo) : Change :=
  {| changeClass :=
       "text-sm font-medium " ++
       (if (0 <=? change_percentage item)%float then "text-green-600"
        else "text-red-600");
     changeIcon :=
       if (0 <=? change_percentage item)%float then ChevronUp
       else ChevronDown;
     changeText :=
       JSNumber.toFixed (abs (change_percentage item)) 2 ++ "%" |}.

End MarketMovers.

(** ** The sentiment overview of the combined dashboard *)

Module SentimentOverviewCard.

Record Summary := {
  positive : float;
  neutral : float;
  negative : float;
  average_score : float
}.

(** [sentimentSummary.average_score.toFixed(2)]. *)
Definition averageText (sentimentSummary : Summary) : string :=
  JSNumber.toFixed (average_score sentimentSummary) 2.

(** The word under the average: above 0.15, below -0.15, or between. *)
Definition trend (sentimentSummary : Summary) : string :=
  if (0.15 <? average_score sentimentSummary)%float then "Bullish"
  else if (average_score sentimentSummary <? -0.15)%float then "Bearish"
  else "Neutral".

End SentimentOverviewCard.

(** ** A page over time *)

Module Page.
Import Async.

Section Machine.
Context {S FD : Type}.
Variable loading : S -> bool.
Variable formData : S -> FD.
Variable setFormData : FD -> S -> S.
Variable handleSubmit : FD -> Async.t S unit.
Variable network : Fetch.Network.

(** What happens to a page: the form is submitted, a field is edited, or
    the promise a function waits for settles. *)
Inductive Event :=
| Submit
| Edit (v : FD)
| Settle (i : nat).

(** The submit button is [disabled={loading}]: a submission takes a page
    that is not loading, and calls [handleSubmit] with the form data of
    the state on the page.  An edit stores new form data.  [None]: the
    event cannot happen. *)
Definition dispatch (event : Event) (c : Config S) : option (Config S) :=
  match event with
  | Submit =>
      if loading (fst c) then None
      else
        let '(s', waiting) := start (handleSubmit (formData (fst c))) (fst c) in
        Some (s', (snd c ++ waiting)%list)
  | Edit v => Some (setFormData v (fst c), snd c)
  | Settle i => settle network i c
  end.

Fixpoint run (events : list Event) (c : Config S) : option (Config S) :=
  match events with
  | [] => Some c
  | event :: rest =>
      match dispatch event c with
      | Some c' => run rest c'
      | None => None
      end
  end.

End Machine.

Arguments Submit {FD}.
Arguments Edit {FD} v.
Arguments Settle {FD} i.

(** The three pages. *)
Definition basic (host : Host) (network : Fetch.Network)
  : list (@Event Form.FormData) -> Config Basic.State ->
    option (Config Basic.State) :=
  run Basic.loading Basic.formData Basic.setFormData
      (Basic.handleSubmit host) network.

Definition home (host : Host) (network : Fetch.Network)
  : list (@Event Form.FormData) -> Config Home.State ->
    option (Config Home.State) :=
  run Home.loading Home.formData Home.setFormData
      (Home.handleSubmit host) network.

Definition yahoo (host : Host) (network : Fetch.Network)
  : list (@Event Yahoo.FormData) -> Config Yahoo.State ->
    option (Config Yahoo.State) :=
  run Yahoo.loading Yahoo.formData Yahoo.setFormData
      (Yahoo.handleSubmit host) network.

End Page.

(** ** What the claims say, in the terms of the model *)

Module IndicatorSpec.
Import JSString.



End IndicatorSpec.

Module NumberSpec.
Import JSNumber.

(** [n] is the integer nearest to [scale] times the magnitude of [x], the
    upper one when two are as near. *)
Definition RoundedTo (scale : Z) (x : float) (n : Z) : Prop :=
  exists v,
    magnitude x = Some v /\
    (inject_Z n - (1 # 2) <= v * inject_Z scale)%Q /\
    (v * inject_Z scale < inject_Z n + (1 # 2))%Q /\
    (0 <= n)%Z.

Definition isFinite (x : float) : bool :=
  match magnitude x with Some _ => true | None => false end.

(** [n] is the integer nearest to [scale] times the shortest decimal of
    [x], the one [Number::toString] prints without its sign, and the upper
    one when two are as near. *)
Definition DecimalRoundedTo (scale : Z) (x : float) (n : Z) : Prop :=
  exists v,
    shortestDecimal x = Some v /\
    (inject_Z n - (1 # 2) <= v * inject_Z scale)%Q /\
    (v * inject_Z scale < inject_Z n + (1 # 2))%Q /\
    (0 <= n)%Z.

(** The text of a percentage: the tenths [n] of [x], one digit after the
    point, and the sign. *)
Definition OneDecimalPercent (x : float) (text : string) : Prop :=
  exists n,
    RoundedTo 10 x n /\
    text = decimal (n / 10) ++ "." ++ digit (n mod 10) ++ "%".

End NumberSpec.

Module RenderingSpec.
Import JSNumber NumberSpec Payload Widgets.

(** A probability: a number from 0 to 1. *)
Definition inUnit (p : float) : bool := ((0 <=? p) && (p <=? 1))%float.

(** What the claim on percentages says of a value [p] wherever it is shown:
    the text is the tenths of [p * 100] with one digit after the point and
    a percent sign. *)
Definition PercentRendering (p : float) : Prop :=
  exists n,
    RoundedTo 10 (p * 100) n /\
    let text := decimal (n / 10) ++ "." ++ digit (n mod 10) ++ "%" in
    percent p = text /\
    (forall host withLabel point,
        probability point = p ->
        confidenceCell (forecastRow host withLabel point) = text) /\
    (forall d, probability_up d = p -> upward d = text) /\
    (forall d, probability_down d = p -> downward d = text) /\
    (forall d, accuracy d = p ->
               modelPerformance d =
                 text ++ " accuracy on historical predictions").

(** A dollar sign, the sign, the integer digits in the groups of the
    locale, its decimal separator and two digits: the hundredths [n] of
    the decimal the number is printed as. *)
Definition TwoDecimalDollars (host : Host) (x : float) (text : string)
  : Prop :=
  exists n,
    DecimalRoundedTo 100 x n /\
    String.length (fraction 2 (n mod 100)) = 2%nat /\
    text =
      "$" ++ (if signBit x then minusSign (numberSymbols host) else "") ++
      grouped (numberSymbols host) (decimal (n / 100)) ++
      decimalSeparator (numberSymbols host) ++ fraction 2 (n mod 100).

(** The same with the digits the thousandths [n] need and no more: up to
    three, and no separator without a digit. *)
Definition DefaultDollars (host : Host) (x : float) (text : string) : Prop :=
  exists n,
    DecimalRoundedTo 1000 x n /\
    let digits := trimmed 0 3 (n mod 1000) in
    (String.length digits <= 3)%nat /\
    text =
      "$" ++ (if signBit x then minusSign (numberSymbols host) else "") ++
      grouped (numberSymbols host) (decimal (n / 1000)) ++
      (if JSString.truthy digits
       then decimalSeparator (numberSymbols host) ++ digits else "").

(** A dollar sign, the sign and the hundredths [n] with a point and no
    groups. *)
Definition FixedDollars (x : float) (text : string) : Prop :=
  exists n,
    RoundedTo 100 x n /\
    text =
      "$" ++ (if isNegative x then "-" else "") ++
      decimal (n / 100) ++ "." ++ fraction 2 (n mod 100).

(** [toFixed] keeps the fixed notation below [10^21]. *)
Definition belowCutoff (x : float) : bool :=
  match magnitude x with
  | Some v => negb (Qle_bool (inject_Z (10 ^ 21)) v)
  | None => false
  end.

Definition samplePoint : ForecastPoint :=
  {| date := "2025-02-25"; predicted_price := 95432.1;
     prediction_interval_low := 94000; prediction_interval_high := 97000.456;
     direction := "UP"; probability := 0.8234 |}.

Definition samplePrediction : PredictionData :=
  {| prediction := "DOWN"; probability_up := 0.25; probability_down := 0.75;
     current_price := 1234.5; accuracy := 0.5; plot_base64 := "";
     forecast := [samplePoint] |}.

Definition sampleTicker : TickerInfo :=
  {| ticker := "AAPL"; price := 1234.5; change_amount := 1;
     change_percentage := 0.5; volume := 1000000 |}.

(** *** Directions *)

Definition upArrow (withLabel : bool) : Direction :=
  {| icon := ArrowUp; iconClass := "text-green-500";
     label := if withLabel then Some ("ml-1 text-green-600", "UP") else None |}.

Definition downArrow (withLabel : bool) : Direction :=
  {| icon := ArrowDown; iconClass := "text-red-500";
     label :=
       if withLabel then Some ("ml-1 text-red-600", "DOWN") else None |}.

Definition upTrend : Direction :=
  {| icon := TrendingUp; iconClass := "h-6 w-6 text-green-500 mr-2";
     label := Some ("text-2xl font-bold text-green-600", "UP") |}.

Definition downTrend : Direction :=
  {| icon := TrendingDown; iconClass := "h-6 w-6 text-red-500 mr-2";
     label := Some ("text-2xl font-bold text-red-600", "DOWN") |}.

(** The direction cell of the [i]-th row of a table. *)
Definition directionAt (rows : list ForecastRow) (i : nat)
  : option Direction :=
  option_map directionCell (nth_error rows i).

End RenderingSpec.

Module DateSpec.

(** The year, month and day the first eight code units of a timestamp
    spell, when they are digits. *)
Definition prefixDate (s : string) : option (Z * Z * Z) :=
  JSDate.dateOnlyFields
    (substring 0 4 s ++ "-" ++ substring 4 2 s ++ "-" ++ substring 6 2 s).

(** A date of the calendar. *)
Definition validDate (y m d : Z) : bool :=
  ((1 <=? m) && (m <=? 12) && (1 <=? d) && (d <=? JSDate.daysInMonth y m))%Z.

(** [DaysInYear]. *)
Definition daysInYear (y : Z) : Z :=
  if JSDate.isLeapYear y then 366 else 365.

End DateSpec.

Module RequestSpec.
Import Completion.

(** How a request ends: the promise of [fetch] is rejected, or the response
    is outside the 2xx range, or its body is no JSON text, or it is. *)
Inductive Outcome :=
| Rejected (e : Thrown)
| BadStatus (response : Fetch.Response)
| Unparsed (e : Thrown)
| Parsed (data : JSON.value).

Definition outcome (network : Fetch.Network) (request : Fetch.Request)
  : Outcome :=
  match network request with
  | Abrupt e => Rejected e
  | Normal response =>
      if Fetch.ok response then
        match Fetch.json response with
        | Normal data => Parsed data
        | Abrupt e => Unparsed e
        end
      else BadStatus response
  end.

(** The request failed: every outcome but a parsed 2xx body. *)
Definition failed (o : Outcome) : bool :=
  match o with Parsed _ => false | _ => true end.

Definition isBadStatus (o : Outcome) : bool :=
  match o with BadStatus _ => true | _ => false end.

(** The exception of a request, if it ended in one. *)
Definition raised (o : Outcome) : option Thrown :=
  match o with
  | Rejected e | Unparsed e => Some e
  | BadStatus _ | Parsed _ => None
  end.

(** The [detail] member of the body of an error response. *)
Definition detailOf (errorData : JSON.value) : option JSON.value :=
  match errorData with
  | JSON.Object members => JSON.lookup "detail" members
  | _ => None
  end.

Definition isNull (v : JSON.value) : bool :=
  match v with JSON.Null => true | _ => false end.

(** The message the combined dashboard reports for a market-movers request
    that failed. *)
Definition marketFailure (o : Outcome) : option string :=
  match o with
  | Rejected e | Unparsed e => Some (Async.messageOf e)
  | BadStatus _ => Some "Failed to fetch market data"
  | Parsed _ => None
  end.

(** The parsed body of a response outside the 2xx range. *)
Definition errorBody (network : Fetch.Network) (request : Fetch.Request)
  : option JSON.value :=
  match outcome network request with
  | BadStatus response =>
      match Fetch.json response with
      | Normal errorData => Some errorData
      | Abrupt _ => None
      end
  | _ => None
  end.

(** What a secondary request of the Yahoo dashboard leaves in its slot. *)
Definition stored (o : Outcome) (old : JSON.value) : JSON.value :=
  match o with Parsed data => data | _ => old end.

(** The state of the Yahoo dashboard once a submission whose prediction
    arrived as [data] is through, by the outcomes of the two secondary
    requests: an exception ends the handler and is reported, a status
    outside 2xx is passed over. *)
Definition yahooSettled (s : Yahoo.State) (data : JSON.value)
    (market news : Outcome) : Yahoo.State :=
  match raised market with
  | Some e =>
      {| Yahoo.formData := Yahoo.formData s;
         Yahoo.prediction := data;
         Yahoo.marketMovers := Yahoo.marketMovers s;
         Yahoo.news := Yahoo.news s;
         Yahoo.loading := false;
         Yahoo.error := Some (Async.messageOf e) |}
  | None =>
      {| Yahoo.formData := Yahoo.formData s;
         Yahoo.prediction := data;
         Yahoo.marketMovers := stored market (Yahoo.marketMovers s);
         Yahoo.news := stored news (Yahoo.news s);
         Yahoo.loading := false;
         Yahoo.error := option_map Async.messageOf (raised news) |}
  end.

(** The requests the waiting functions wait for. *)
Definition awaited {S : Type} (waiting : list (Async.t S unit))
  : list (option Fetch.Request) :=
  map (fun m => match m with
                | Async.AwaitFetch request _ => Some request
                | _ => None
                end) waiting.

(** A network that answers every request alike. *)
Definition always (answer : Completion.t Fetch.Response) : Fetch.Network :=
  fun _ => answer.

Definition status (isOk : bool) (body : JSON.value)
  : Completion.t Fetch.Response :=
  Normal {| Fetch.ok := isOk; Fetch.json := Normal body |}.

(** A network that answers the POST with one response and every GET with
    another. *)
Definition byMethod (post get : Completion.t Fetch.Response)
  : Fetch.Network :=
  fun request => if (Fetch.method request =? "POST")%string then post else get.

End RequestSpec.

(** ** Further notions the properties are stated with *)

Module KeywordSpec.
Import JSString.

(** The two signals [signalClass] compares as they are written. *)
Definition exactWord (signal : string) : bool :=
  (signal =? "Overbought") || (signal =? "Oversold").

(** [w] is one of two words, in whatever case. *)
Definition isWord (w a b : string) : bool :=
  (toLowerCase w =? a) || (toLowerCase w =? b).

End KeywordSpec.

Module TrendSpec.
Import SentimentOverviewCard.

Definition mirror (word : string) : string :=
  if word =? "Bullish" then "Bearish"
  else if word =? "Bearish" then "Bullish"
  else word.

(** The summary of the opposite mood. *)
Definition negated (s : Summary) : Summary :=
  {| positive := negative s; neutral := neutral s; negative := positive s;
     average_score := - average_score s |}.

End TrendSpec.

(** *** Settled pages *)

Module PageSpec.
Import Completion RequestSpec.

(** The combined dashboard once a call of [fetchMarketMovers] from the
    state [s] is through: the flag of the market tab is down, a parsed
    body is stored, and a failure leaves its message in the error slot. *)
Definition marketSettled (s : Home.State) (market : Outcome) : Home.State :=
  {| Home.formData := Home.formData s;
     Home.prediction := Home.prediction s;
     Home.marketMovers := stored market (Home.marketMovers s);
     Home.newsSentiment := Home.newsSentiment s;
     Home.loading := Home.loading s;
     Home.marketLoading := false;
     Home.newsLoading := Home.newsLoading s;
     Home.error :=
       match marketFailure market with
       | Some message => Some message
       | None => Home.error s
       end |}.

(** The combined dashboard when the prediction [data] has arrived. *)
Definition predicted (s : Home.State) (data : JSON.value) : Home.State :=
  {| Home.formData := Home.formData s;
     Home.prediction := data;
     Home.marketMovers := Home.marketMovers s;
     Home.newsSentiment := Home.newsSentiment s;
     Home.loading := false;
     Home.marketLoading := Home.marketLoading s;
     Home.newsLoading := Home.newsLoading s;
     Home.error := None |}.

(** The combined dashboard once a submission whose prediction arrived as
    [data] is through: with a key in the form the market movers were
    fetched, without one they were not. *)
Definition homeSettled (s : Home.State) (data : JSON.value)
    (market : Outcome) : Home.State :=
  if JSString.truthy (Form.api_key (Home.formData s))
  then marketSettled (predicted s data) market
  else predicted s data.

(** The message of what [throw new Error(errorData.detail || "Failed to
    fetch prediction")] throws for a [detail] that is there: the text of a
    truthy one, or the message of the TypeError where it has none. *)
Definition detailMessage (host : Host) (detail : JSON.value) : string :=
  if JSON.truthy (Some detail) then
    match JSON.toString host detail with
    | Completion.Normal text => text
    | Completion.Abrupt e => Async.messageOf e
    end
  else "Failed to fetch prediction".

(** Induction on a JSON value through the items of its arrays. *)
Section ValueInduction.
Variable P : JSON.value -> Prop.
Hypothesis null_case : P JSON.Null.
Hypothesis bool_case : forall b, P (JSON.Bool b).
Hypothesis number_case : forall x, P (JSON.Number x).
Hypothesis string_case : forall s, P (JSON.Str s).
Hypothesis array_case : forall items, Forall P items -> P (JSON.Array items).
Hypothesis object_case : forall members, P (JSON.Object members).

Fixpoint value_induction (v : JSON.value) : P v :=
  match v with
  | JSON.Null => null_case
  | JSON.Bool b => bool_case b
  | JSON.Number x => number_case x
  | JSON.Str s => string_case s
  | JSON.Array items =>
      array_case items
        ((fix each (l : list JSON.value) : Forall P l :=
            match l with
            | [] => Forall_nil P
            | i :: rest => Forall_cons i (value_induction i) (each rest)
            end) items)
  | JSON.Object members => object_case members
  end.

End ValueInduction.

(** An object that has no member [toString] of its own. *)
Definition plainObject (v : JSON.value) : Prop :=
  exists members,
    v = JSON.Object members /\ JSON.lookup "toString" members = None.

(** The requests a page has waited for by the time [fuel] promises have
    settled, oldest first. *)
Fixpoint requested {S : Type} (network : Fetch.Network) (fuel : nat)
    (c : Async.Config S) : list Fetch.Request :=
  let now :=
    flat_map (fun r => match r with Some request => [request] | None => [] end)
             (awaited (snd c)) in
  match fuel with
  | O => now
  | Datatypes.S fuel' =>
      match Async.settle network 0 c with
      | Some c' => (now ++ requested network fuel' c')%list
      | None => now
      end
  end.

Section OneAtATime.
Context {S : Type}.
Variable loading : S -> bool.
Variable network : Fetch.Network.

(** A waiting function that is through after [n] promises at most, and
    keeps the loading flag up until it takes it down at its end, with
    nothing left waiting. *)
Fixpoint Busy (n : nat) (m : Async.t S unit) : Prop :=
  match n with
  | O => False
  | Datatypes.S n' =>
      forall s, loading s = true ->
        match Async.start (Async.resume network m) s with
        | (s', []) => loading s' = false
        | (s', [m']) => loading s' = true /\ Busy n' m'
        | _ => False
        end
  end.

(** The loading flag is up exactly while one function waits, and no
    second one ever does. *)
Definition OneInFlight (c : Async.Config S) : Prop :=
  match snd c with
  | [] => loading (fst c) = false
  | [m] => loading (fst c) = true /\ exists n, Busy n m
  | _ => False
  end.

End OneAtATime.

End PageSpec.

(** *** Reading a request body back *)

Module BodySpec.
Local Open Scope N_scope.

(** The value of a hexadecimal digit as [JSON.stringify] writes one. *)
Definition hexValue (c : ascii) : option N :=
  let n := N_of_ascii c in
  if (48 <=? n) && (n <=? 57) then Some (n - 48)
  else if (97 <=? n) && (n <=? 102) then Some (n - 87)
  else None.

Definition prepend (c : ascii) (r : option (string * string))
  : option (string * string) :=
  match r with
  | Some (s, rest) => Some (String c s, rest)
  | None => None
  end.

(** The code units of a JSON string up to its closing quotation mark, and
    the text after the mark. *)
Fixpoint unquoteUnits (s : string) : option (string * string) :=
  match s with
  | EmptyString => None
  | String c rest =>
      if N_of_ascii c =? 34 then Some (EmptyString, rest)
      else if N_of_ascii c =? 92 then
        match rest with
        | EmptyString => None
        | String e rest1 =>
            let n := N_of_ascii e in
            if n =? 98 then prepend (ascii_of_N 8) (unquoteUnits rest1)
            else if n =? 116 then prepend (ascii_of_N 9) (unquoteUnits rest1)
            else if n =? 110 then prepend (ascii_of_N 10) (unquoteUnits rest1)
            else if n =? 102 then prepend (ascii_of_N 12) (unquoteUnits rest1)
            else if n =? 114 then prepend (ascii_of_N 13) (unquoteUnits rest1)
            else if n =? 34 then prepend (ascii_of_N 34) (unquoteUnits rest1)
            else if n =? 92 then prepend (ascii_of_N 92) (unquoteUnits rest1)
            else if n =? 117 then
              match rest1 with
              | String h1 (String h2 (String h3 (String h4 rest5))) =>
                  match hexValue h1, hexValue h2, hexValue h3, hexValue h4 with
                  | Some 0, Some 0, Some high, Some low =>
                      prepend (ascii_of_N (16 * high + low))
                              (unquoteUnits rest5)
                  | _, _, _, _ => None
                  end
              | _ => None
              end
            else None
        end
      else prepend c (unquoteUnits rest)
  end.

(** A JSON string at the start of a text. *)
Definition unquote (s : string) : option (string * string) :=
  match s with
  | String c rest => if N_of_ascii c =? 34 then unquoteUnits rest else None
  | EmptyString => None
  end.

(** A member whose value is a string: its key, its value and the text
    after it. *)
Definition readMember (s : string) : option (string * string * string) :=
  match unquote s with
  | Some (key, String c rest) =>
      if N_of_ascii c =? 58 then
        match unquote rest with
        | Some (v, rest') => Some (key, v, rest')
        | None => None
        end
      else None
  | _ => None
  end.

(** [count] members between commas, closed by a brace at the end of the
    text. *)
Fixpoint readMembers (count : nat) (s : string)
  : option (list (string * string)) :=
  match count with
  | O => None
  | S count' =>
      match readMember s with
      | Some (key, v, String c rest) =>
          if N_of_ascii c =? 125 then
            match count', rest with
            | O, EmptyString => Some [(key, v)]
            | _, _ => None
            end
          else if N_of_ascii c =? 44 then
            option_map (cons (key, v)) (readMembers count' rest)
          else None
      | _ => None
      end
  end.

Definition readObject (count : nat) (body : string)
  : option (list (string * string)) :=
  match body with
  | String c rest =>
      if N_of_ascii c =? 123 then readMembers count rest else None
  | EmptyString => None
  end.

(** A member as [JSON.stringify] writes it. *)
Definition written (member : string * string) : string :=
  (JSON.quote (fst member) ++ ":" ++ JSON.quote (snd member))%string.

(** The form data of a request body of the prediction endpoint. *)
Definition readForm (body : string) : option Form.FormData :=
  match readObject 5 body with
  | Some [(k1, v1); (k2, v2); (k3, v3); (k4, v4); (k5, v5)] =>
      if ((k1 =? "base_currency") && (k2 =? "quote_currency") &&
          (k3 =? "timeframe") && (k4 =? "period") &&
          (k5 =? "api_key"))%string
      then Some {| Form.base_currency := v1; Form.quote_currency := v2;
                   Form.timeframe := v3; Form.period := v4;
                   Form.api_key := v5 |}
      else None
  | _ => None
  end.

Definition readYahooForm (body : string) : option Yahoo.FormData :=
  match readObject 3 body with
  | Some [(k1, v1); (k2, v2); (k3, v3)] =>
      if ((k1 =? "symbol") && (k2 =? "timeframe") &&
          (k3 =? "period"))%string
      then Some {| Yahoo.symbol := v1; Yahoo.timeframe := v2;
                   Yahoo.period := v3 |}
      else None
  | _ => None
  end.

End BodySpec.

(** ** Properties *)

Module JSStringFacts.
Import JSString.

Lemma startsWith_spec s p :
  startsWith s p = true <-> exists post, s = p ++ post.
Proof.
  revert s; induction p as [|a p IH]; intros s; simpl.
  - split; [intros _; now exists s | now destruct s].
  - destruct s as [|b s]; simpl.
    + split; [discriminate | intros [post H]; discriminate].
    + rewrite andb_true_iff, IH. split.
      * intros [Hab [post ->]]. apply Ascii.eqb_eq in Hab. subst b.
        now exists post.
      * intros [post H]. injection H as -> ->. split.
        -- apply Ascii.eqb_refl.
        -- now exists post.
Qed.

Lemma includes_spec s p : includes s p = true <-> occursIn p s.
Proof.
  unfold occursIn. induction s as [|c s IH].
  - cbn [includes]. rewrite orb_false_r, startsWith_spec. split.
    + intros [post H]. now exists "", post.
    + intros [pre [post H]]. destruct pre; [|discriminate].
      now exists post.
  - cbn [includes]. rewrite orb_true_iff, startsWith_spec, IH. split.
    + intros [[post H] | [pre [post H]]].
      * now exists "", post.
      * exists (String c pre), post. simpl. now rewrite H.
    + intros [pre [post H]]. destruct pre as [|c' pre].
      * left. now exists post.
      * right. simpl in H. injection H as _ ->. now exists pre, post.
Qed.

Lemma length_append (a b : string) :
  String.length (a ++ b) = (String.length a + String.length b)%nat.
Proof. induction a as [|c a IH]; cbn; [reflexivity | now rewrite IH]. Qed.

Lemma append_assoc (a b c : string) : (a ++ b) ++ c = a ++ b ++ c.
Proof. induction a as [|x a IH]; cbn; [reflexivity | now rewrite IH]. Qed.

Lemma includes_false s p : includes s p = false <-> ~ occursIn p s.
Proof.
  rewrite <- includes_spec. destruct (includes s p); split; congruence.
Qed.

End JSStringFacts.

Module IndicatorCardFacts.
Import JSString JSStringFacts IndicatorCard IndicatorSpec.




(** The badge shows the signal in those classes whenever there is a
    signal to show. *)
Lemma signalBadge_shown s :
  s <> "" ->
  signalBadge (Some s) =
    Some ("text-sm font-medium px-2 py-1 rounded " ++ signalClass s, s).
Proof. destruct s; [congruence | reflexivity]. Qed.

Lemma signalBadge_hidden :
  signalBadge None = None /\ signalBadge (Some "") = None.
Proof. split; reflexivity. Qed.

End IndicatorCardFacts.

(** *** Binary64 arithmetic *)

Module FloatFacts.

Local Open Scope Z_scope.

Lemma digits2_lt p : Zpos p < 2 ^ Zpos (digits2_pos p).
Proof.
  induction p as [p IH|p IH|]; cbn [digits2_pos];
    rewrite ?Pos2Z.inj_succ, ?Z.pow_succ_r by lia; lia.
Qed.

Lemma digits2_ge p : 2 ^ (Zpos (digits2_pos p) - 1) <= Zpos p.
Proof.
  induction p as [p IH|p IH|]; cbn [digits2_pos];
    rewrite ?Pos2Z.inj_succ;
    try (replace (Z.succ (Zpos (digits2_pos p)) - 1)
           with (Z.succ (Zpos (digits2_pos p) - 1)) by lia;
         rewrite Z.pow_succ_r by lia); try lia.
  all: simpl; lia.
Qed.

Lemma shr_1_m mrs : 0 <= shr_m mrs -> shr_m (shr_1 mrs) = shr_m mrs / 2.
Proof.
  destruct mrs as [m r s]. cbn [shr_m]. intros Hm.
  destruct m as [|[p|p|]|p]; cbn [shr_1 shr_m]; try lia.
  all: try reflexivity.
  - apply Z.div_unique with 1; lia.
  - apply Z.div_unique with 0; lia.
Qed.

Lemma pow2_xO p : 2 ^ Zpos p~0 = 2 ^ Zpos p * 2 ^ Zpos p.
Proof. rewrite <- Z.pow_add_r by lia. f_equal. lia. Qed.

Lemma pow2_xI p : 2 ^ Zpos p~1 = 2 * (2 ^ Zpos p * 2 ^ Zpos p).
Proof.
  rewrite <- Z.pow_add_r, <- Z.pow_succ_r by lia. f_equal. lia.
Qed.

Lemma iter_shr_m p : forall mrs, 0 <= shr_m mrs ->
  shr_m (SpecFloat.iter_pos shr_1 p mrs) = shr_m mrs / 2 ^ Zpos p.
Proof.
  assert (Hnn : forall mrs, 0 <= shr_m mrs -> 0 <= shr_m (shr_1 mrs)).
  { intros mrs H. rewrite shr_1_m by assumption. apply Z.div_pos; lia. }
  induction p as [p IH|p IH|]; intros mrs Hm; cbn [SpecFloat.iter_pos].
  - assert (H1 := Hnn _ Hm).
    assert (H2 : 0 <= shr_m (SpecFloat.iter_pos shr_1 p (shr_1 mrs))).
    { rewrite IH by assumption. apply Z.div_pos; lia. }
    rewrite IH, IH, shr_1_m by assumption.
    rewrite !Z.div_div by lia. now rewrite pow2_xI.
  - assert (H2 : 0 <= shr_m (SpecFloat.iter_pos shr_1 p mrs)).
    { rewrite IH by assumption. apply Z.div_pos; lia. }
    rewrite IH, IH by assumption.
    rewrite !Z.div_div by lia. now rewrite pow2_xO.
  - rewrite shr_1_m by assumption. reflexivity.
Qed.

(** What [shr_fexp] leaves of a mantissa [0 <= m]: [m] divided by a power
    of two, below [2^53] when [m] is in its place, at an exponent that
    [fexp] bounds. *)
Lemma shr_fexp_bounds m e l :
  0 <= m ->
  let '(mrs, e') := shr_fexp prec emax m e l in
  0 <= shr_m mrs <= m /\ shr_m mrs < 2 ^ 53 /\
  e' = Z.max e (fexp prec emax (Zdigits2 m + e)).
Proof.
  intros Hm. unfold shr_fexp, shr.
  assert (Hrec : shr_m (shr_record_of_loc m l) = m).
  { destruct l as [|[]]; reflexivity. }
  assert (Hdig : m < 2 ^ Zdigits2 m \/ m = 0).
  { destruct m as [|p|p]; [now right | left | lia]. apply digits2_lt. }
  destruct (fexp prec emax (Zdigits2 m + e) - e) as [|n|n] eqn:En.
  - rewrite Hrec. repeat split; try lia.
    destruct Hdig as [Hd| ->]; [|reflexivity].
    unfold fexp, prec in En.
    apply Z.lt_le_trans with (1 := Hd). apply Z.pow_le_mono_r; lia.
  - rewrite iter_shr_m by (rewrite Hrec; assumption). rewrite Hrec.
    assert (Hp : 0 < 2 ^ Zpos n) by (apply Z.pow_pos_nonneg; lia).
    repeat split; try lia.
    + apply Z.div_pos; lia.
    + apply Z.div_le_upper_bound; nia.
    + apply Z.div_lt_upper_bound; [lia|].
      destruct Hdig as [Hd| ->]; [|lia].
      apply Z.lt_le_trans with (1 := Hd).
      rewrite <- Z.pow_add_r by lia.
      apply Z.pow_le_mono_r; [lia|]. unfold fexp, prec in En. lia.
  - rewrite Hrec. repeat split; try lia.
    destruct Hdig as [Hd| ->]; [|reflexivity].
    unfold fexp, prec in En.
    apply Z.lt_le_trans with (1 := Hd). apply Z.pow_le_mono_r; lia.
Qed.

(** Rounding a product that is small enough gives a zero or a finite number
    with a negative exponent. *)
Lemma binary_round_aux_small s (M : positive) E :
  Zpos (digits2_pos M) + E <= 51 -> E < -1 ->
  binary_round_aux prec emax s (Zpos M) E loc_Exact = S754_zero s \/
  exists m e,
    binary_round_aux prec emax s (Zpos M) E loc_Exact = S754_finite s m e /\
    e < 0 /\ Zpos m <= 2 ^ 53.
Proof.
  intros Hd HE. unfold binary_round_aux.
  pose proof (shr_fexp_bounds (Zpos M) E loc_Exact ltac:(lia)) as H1.
  destruct (shr_fexp prec emax (Zpos M) E loc_Exact) as [mrs1 e1].
  destruct H1 as [[H1a H1b] [H1c H1d]].
  set (m1 := round_nearest_even (shr_m mrs1) (loc_of_shr_record mrs1)).
  assert (Hm1 : 0 <= m1 <= 2 ^ 53).
  { unfold m1, round_nearest_even.
    destruct (loc_of_shr_record mrs1) as [|[]]; try lia.
    destruct (Z.even (shr_m mrs1)); lia. }
  pose proof (shr_fexp_bounds m1 e1 loc_Exact ltac:(lia)) as H2.
  destruct (shr_fexp prec emax m1 e1 loc_Exact) as [mrs2 e2].
  destruct H2 as [[H2a H2b] [H2c H2d]].
  assert (He1 : e1 < -1).
  { subst e1. unfold fexp, emin, prec, emax. cbn [Zdigits2]. lia. }
  assert (He2 : e2 < 0).
  { subst e2. unfold fexp, emin, prec, emax.
    assert (Zdigits2 m1 <= 54); [|lia].
    destruct m1 as [|p|p]; cbn [Zdigits2]; try lia.
    pose proof (digits2_ge p) as Hg.
    destruct (Z_le_gt_dec (Zpos (digits2_pos p)) 54) as [?|Hgt]; [assumption|].
    exfalso. assert (2 ^ 54 <= 2 ^ (Zpos (digits2_pos p) - 1))
      by (apply Z.pow_le_mono_r; lia). lia. }
  destruct (shr_m mrs2) as [|p|p] eqn:Em2; [now left | right | lia].
  exists p, e2. replace (e2 <=? emax - prec) with true
    by (symmetry; apply Z.leb_le; unfold emax, prec; lia).
  repeat split; lia.
Qed.

Lemma digits2_mul a b :
  Zpos (digits2_pos (a * b)) <= Zpos (digits2_pos a) + Zpos (digits2_pos b).
Proof.
  pose proof (digits2_lt a) as Ha. pose proof (digits2_lt b) as Hb.
  pose proof (digits2_ge (a * b)) as Hab.
  destruct (Z_le_gt_dec (Zpos (digits2_pos (a * b)))
              (Zpos (digits2_pos a) + Zpos (digits2_pos b))) as [?|Hgt];
    [assumption | exfalso].
  assert (2 ^ (Zpos (digits2_pos a) + Zpos (digits2_pos b))
          <= 2 ^ (Zpos (digits2_pos (a * b)) - 1))
    by (apply Z.pow_le_mono_r; lia).
  rewrite Z.pow_add_r in H by lia. rewrite Pos2Z.inj_mul in Hab.
  assert (Zpos a * Zpos b
          < 2 ^ Zpos (digits2_pos a) * 2 ^ Zpos (digits2_pos b))
    by (apply Z.mul_lt_mono_nonneg; lia).
  lia.
Qed.

(** A number between 0 and 1: a zero, or positive with an exponent of at
    most -52 and a mantissa of at most 53 bits. *)
Lemma unit_interval_SF p :
  (0 <=? p)%float = true -> (p <=? 1)%float = true ->
  (exists s, Prim2SF p = S754_zero s) \/
  exists m e, Prim2SF p = S754_finite false m e /\ e <= -52 /\
              Zpos (digits2_pos m) <= 53.
Proof.
  rewrite !leb_spec. pose proof (Prim2SF_valid p) as Hv.
  change (Prim2SF 0) with (S754_zero false).
  change (Prim2SF 1) with (S754_finite false 4503599627370496 (-52)).
  destruct (Prim2SF p) as [s|s| |s m e]; cbn [SFleb SFcompare].
  - intros _ _. left. now exists s.
  - destruct s; discriminate.
  - discriminate.
  - destruct s; [discriminate|]. intros _ H1. right. exists m, e.
    split; [reflexivity|].
    cbn [SpecFloat.valid_binary] in Hv.
    unfold bounded, canonical_mantissa, fexp, emin, prec, emax in Hv.
    apply andb_true_iff in Hv. destruct Hv as [Hc _].
    apply Z.eqb_eq in Hc.
    change (Z.max (Zpos (digits2_pos m) + e - 53) (3 - 1024 - 53) = e) in Hc.
    split; [|lia].
    destruct (Z.compare_spec e (-52)) as [Ec|Ec|Ec]; try discriminate; lia.
Qed.

(** A hundred times a number between 0 and 1 is a zero or a positive
    finite number with a negative exponent and a mantissa up to [2^53]. *)
Lemma percent_SF p :
  (0 <=? p)%float = true -> (p <=? 1)%float = true ->
  (exists s, Prim2SF (p * 100) = S754_zero s) \/
  exists m e, Prim2SF (p * 100) = S754_finite false m e /\ e < 0 /\
              Zpos m <= 2 ^ 53.
Proof.
  intros H0 H1. rewrite mul_spec.
  change (Prim2SF 100) with (S754_finite false 7036874417766400 (-46)).
  destruct (unit_interval_SF p H0 H1) as [[s ->]|[m [e [-> [He Hm]]]]].
  - left. now exists (xorb s false).
  - unfold SF64mul, SFmul. cbn [xorb].
    assert (Hd : Zpos (digits2_pos (m * 7036874417766400)) + (e + -46) <= 51).
    { pose proof (digits2_mul m 7036874417766400) as Hmul.
      change (Zpos (digits2_pos 7036874417766400)) with 53 in Hmul. lia. }
    destruct (binary_round_aux_small false _ _ Hd ltac:(lia))
      as [Hz|[m' [e' [Hf Hb]]]].
    + left. exists false. exact Hz.
    + right. now exists m', e'.
Qed.

End FloatFacts.

(** *** Formatted numbers *)

Module NumberFacts.
Import JSNumber FloatFacts NumberSpec.

(** The printed forms of some numbers, as every engine prints them. *)
Lemma toString_examples :
  map toString
    [5; 0.1; 1234.5; 100; 0.000001; 1e-7; 1e21; 1e23; 5e-324;
     123456789012345680000; 0.30000000000000004; 1.7976931348623157e308;
     (-0.5); 4.35]%float
  = ["5"; "0.1"; "1234.5"; "100"; "0.000001"; "1e-7"; "1e+21"; "1e+23";
     "5e-324"; "123456789012345680000"; "0.30000000000000004";
     "1.7976931348623157e+308"; "-0.5"; "4.35"].
Proof. vm_compute. reflexivity. Qed.

Lemma toFixed_examples :
  toFixed 1.005 2 = "1.00" /\ toFixed 2.5 0 = "3" /\ toFixed 0 1 = "0.0" /\
  toFixed (-0.01) 1 = "-0.0" /\ toFixed 1e21 2 = "1e+21" /\
  toFixed 1234.5 2 = "1234.50" /\ toFixed nan 1 = "NaN".
Proof. repeat split; vm_compute; reflexivity. Qed.

Lemma toLocaleString_examples :
  map (fun x => toLocaleString Hosts.enUS x defaultFractionDigits)
    [1234.5; 12; 1234; 0.0004; 1.0005; 1234567.891; 1e21]%float
  = ["1,234.5"; "12"; "1,234"; "0"; "1.001"; "1,234,567.891";
     "1,000,000,000,000,000,000,000"].
Proof. vm_compute. reflexivity. Qed.

Lemma dyadic_nonneg m e : (0 <= dyadic (Zpos m) e)%Q.
Proof.
  unfold dyadic. destruct (0 <=? e)%Z eqn:He.
  - apply Z.leb_le in He. unfold Qle. cbn [Qnum Qden inject_Z].
    assert (0 < 2 ^ e)%Z by (apply Z.pow_pos_nonneg; lia). nia.
  - unfold Qle. cbn [Qnum Qden]. lia.
Qed.

Lemma magnitude_nonneg x v : magnitude x = Some v -> (0 <= v)%Q.
Proof.
  unfold magnitude. destruct (Prim2SF x) as [s|s| |s m e]; try discriminate.
  - intros [= <-]. apply Qle_refl.
  - intros [= <-]. apply dyadic_nonneg.
Qed.

Lemma nearest_spec v f :
  (inject_Z (nearest v f) - (1 # 2) <= v * inject_Z (10 ^ Z.of_nat f) /\
   v * inject_Z (10 ^ Z.of_nat f) < inject_Z (nearest v f) + (1 # 2))%Q.
Proof.
  unfold nearest.
  pose proof (Qfloor_le (v * inject_Z (10 ^ Z.of_nat f) + (1 # 2))) as Hl.
  pose proof (Qlt_floor (v * inject_Z (10 ^ Z.of_nat f) + (1 # 2))) as Hu.
  rewrite inject_Z_plus in Hu. change (inject_Z 1) with 1%Q in Hu.
  split; lra.
Qed.

Lemma nearest_nonneg v f : (0 <= v)%Q -> (0 <= nearest v f)%Z.
Proof.
  intros Hv. unfold nearest. change 0%Z with (Qfloor 0).
  apply Qfloor_resp_le.
  assert (0 <= inject_Z (10 ^ Z.of_nat f))%Q.
  { unfold Qle. cbn [Qnum Qden inject_Z].
    assert (0 < 10 ^ Z.of_nat f)%Z by (apply Z.pow_pos_nonneg; lia). lia. }
  pose proof (Qmult_le_0_compat _ _ Hv H). lra.
Qed.

Lemma nearest_rounded x v f :
  magnitude x = Some v -> RoundedTo (10 ^ Z.of_nat f) x (nearest v f).
Proof.
  intros Hm. exists v. split; [assumption|].
  pose proof (nearest_spec v f) as [Hl Hu].
  repeat split; try assumption.
  apply nearest_nonneg. eapply magnitude_nonneg; eassumption.
Qed.

(** The digits of the shortest decimal make a number that is not
    negative. *)
Lemma candidate_nonneg m e n k s :
  candidate m e n k = Some s -> (0 <= s)%Z.
Proof.
  unfold candidate.
  set (lo := Qfloor (dyadic (Zpos m) e * Qpower 10 (- (n - k)))).
  assert (Hlo : (0 <= lo)%Z).
  { unfold lo. change 0%Z with (Qfloor 0). apply Qfloor_resp_le.
    apply Qmult_le_0_compat; [apply dyadic_nonneg|].
    apply Qpower_0_le. discriminate. }
  destruct (roundsTo m e lo (n - k)), (roundsTo m e (lo + 1) (n - k));
    try discriminate;
    try (destruct (_ && _)); intros [= <-]; lia.
Qed.

Lemma shortest_nonneg fuel m e n : forall k,
  let '(_, _, s) := shortest fuel m e n k in (0 <= s)%Z.
Proof.
  induction fuel as [|fuel IH]; intros k; cbn [shortest];
    destruct (candidate m e n k) as [s|] eqn:Hc.
  - destruct (s =? 10 ^ k)%Z; [apply Z.pow_nonneg; lia|].
    eapply candidate_nonneg; eassumption.
  - change 0%Z with (Qfloor 0). apply Qfloor_resp_le.
    apply Qmult_le_0_compat; [apply dyadic_nonneg|].
    apply Qpower_0_le. discriminate.
  - destruct (s =? 10 ^ k)%Z; [apply Z.pow_nonneg; lia|].
    eapply candidate_nonneg; eassumption.
  - apply IH.
Qed.

Lemma shortestDecimal_nonneg x v : shortestDecimal x = Some v -> (0 <= v)%Q.
Proof.
  unfold shortestDecimal.
  destruct (Prim2SF x) as [s|s| |s m e]; try discriminate.
  - intros [= <-]. apply Qle_refl.
  - pose proof (shortest_nonneg 16 m e (decade m e) 1%Z) as Hs.
    destruct (shortest 16 m e (decade m e) 1) as [[n k] d].
    intros [= <-]. apply Qmult_le_0_compat.
    + unfold Qle. cbn [Qnum Qden inject_Z]. lia.
    + apply Qpower_0_le. discriminate.
Qed.

Lemma shortestDecimal_finite x :
  isFinite x = true -> exists v, shortestDecimal x = Some v.
Proof.
  unfold isFinite, magnitude, shortestDecimal.
  destruct (Prim2SF x) as [s|s| |s m e]; try discriminate; intros _.
  - now exists 0%Q.
  - destruct (shortest 16 m e (decade m e) 1) as [[n k] d]. eauto.
Qed.

(** The shortest decimal is the one [Number::toString] prints: its digits
    in the layout of the number without its sign. *)
Lemma shortestDecimal_printed x m e :
  Prim2SF (abs x) = S754_finite false m e ->
  exists n k s,
    shortestDecimal (abs x) = Some (inject_Z s * Qpower 10 (n - k))%Q /\
    toString (abs x) = layout n k s.
Proof.
  intros H. unfold shortestDecimal, toString. rewrite H.
  destruct (shortest 16 m e (decade m e) 1) as [[n k] s].
  now exists n, k, s.
Qed.

Lemma nearest_decimal x v f :
  shortestDecimal x = Some v ->
  DecimalRoundedTo (10 ^ Z.of_nat f) x (nearest v f).
Proof.
  intros Hm. exists v. split; [assumption|].
  pose proof (nearest_spec v f) as [Hl Hu].
  repeat split; try assumption.
  apply nearest_nonneg. eapply shortestDecimal_nonneg; eassumption.
Qed.

Lemma fraction_length f : forall r, String.length (fraction f r) = f.
Proof.
  induction f as [|f IH]; intros r; [reflexivity|].
  cbn [fraction]. unfold digit.
  rewrite JSStringFacts.length_append, IH. cbn [String.length]. lia.
Qed.

(** Below [10^21] in magnitude: a mantissa of at most 54 bits at a negative
    exponent. *)
Lemma small_dyadic m e :
  (e < 0)%Z -> (Zpos m <= 2 ^ 53)%Z ->
  Qle_bool (inject_Z (10 ^ 21)) (dyadic (Zpos m) e) = false.
Proof.
  intros He Hm. destruct (Qle_bool _ _) eqn:Hq; [|reflexivity].
  apply Qle_bool_iff in Hq. unfold dyadic in Hq.
  replace (0 <=? e)%Z with false in Hq by (symmetry; apply Z.leb_gt; lia).
  unfold Qle in Hq. cbn [Qnum Qden inject_Z] in Hq.
  assert (0 < 2 ^ (- e))%Z by (apply Z.pow_pos_nonneg; lia).
  rewrite Z2Pos.id in Hq by assumption.
  change (2 ^ 53)%Z with 9007199254740992%Z in Hm.
  change (10 ^ 21)%Z with 1000000000000000000000%Z in Hq. nia.
Qed.

Lemma pointed_one n : pointed n 1 = decimal (n / 10) ++ "." ++ digit (n mod 10).
Proof.
  unfold pointed. change (10 ^ Z.of_nat 1)%Z with 10%Z.
  cbn [fraction]. now rewrite Z.mod_mod by lia.
Qed.

Lemma percent_of_unit p :
  (0 <=? p)%float = true -> (p <=? 1)%float = true ->
  OneDecimalPercent (p * 100) (Widgets.percent p).
Proof.
  intros H0 H1. unfold Widgets.percent, toFixed, isNegative.
  rewrite ltb_spec. change (Prim2SF 0) with (S754_zero false).
  pose proof (nearest_rounded (p * 100)) as Hr. unfold magnitude in *.
  destruct (percent_SF p H0 H1) as [[s Hs]|[m [e [Hs [He Hm]]]]];
    rewrite Hs in *; cbn [SFltb SFcompare].
  - change (Qle_bool (inject_Z (10 ^ 21)) 0) with false. cbn iota.
    exists (nearest 0 1). split; [now apply (Hr 0%Q 1%nat)|].
    rewrite pointed_one. cbn [append].
    now rewrite !JSStringFacts.append_assoc.
  - rewrite small_dyadic by assumption. cbn iota.
    exists (nearest (dyadic (Zpos m) e) 1).
    split; [now apply (Hr _ 1%nat)|].
    rewrite pointed_one. cbn [append].
    now rewrite !JSStringFacts.append_assoc.
Qed.

End NumberFacts.

(** *** Percentages, prices and directions on the page *)

Module RenderingFacts.
Import JSNumber FloatFacts NumberSpec NumberFacts Payload Widgets RenderingSpec.

(** C5. For every probability [p] from 0 to 1 the percentage shown is
    [p * 100] to one decimal place, the upper neighbour on a tie, followed
    by a percent sign: for the probability of a forecast point, for
    [probability_up], [probability_down] and [accuracy]. *)
Theorem percent_one_decimal (p : float) :
  inUnit p = true -> PercentRendering p.
Proof.
  unfold inUnit. intros H. apply andb_true_iff in H. destruct H as [H0 H1].
  destruct (percent_of_unit p H0 H1) as [n [Hn Htext]].
  exists n. split; [assumption|]. cbn zeta.
  split; [assumption|].
  unfold upward, downward, modelPerformance, forecastRow. cbn [confidenceCell].
  repeat split; intros; subst p; now rewrite Htext.
Qed.

Lemma percent_one_decimal_witness :
  inUnit 0.8234 = true /\ PercentRendering 0.8234 /\
  percent 0.8234 = "82.3%".
Proof.
  split; [reflexivity|]. split; [|vm_compute; reflexivity].
  apply (percent_one_decimal 0.8234). reflexivity.
Defined.

(** *** Prices *)

Lemma trimmed_length minimum f :
  forall r, (String.length (trimmed minimum f r) <= f)%nat.
Proof.
  induction f as [|f IH]; intros r; cbn [trimmed]; [apply Nat.le_refl|].
  destruct ((minimum <? S f)%nat && (r mod 10 =? 0)%Z).
  - specialize (IH (r / 10)%Z). lia.
  - rewrite fraction_length. lia.
Qed.

Lemma dollars_two_decimals host x :
  isFinite x = true -> TwoDecimalDollars host x (dollars host x).
Proof.
  intros Hf. destruct (shortestDecimal_finite x Hf) as [v Hv].
  unfold dollars, toLocaleString. rewrite Hv.
  exists (nearest v 2). split; [apply (nearest_decimal x v 2 Hv)|].
  split; [apply fraction_length|].
  cbn [maximumFractionDigits minimumFractionDigits twoDecimals].
  change (10 ^ Z.of_nat 2)%Z with 100%Z.
  set (r := (nearest v 2 mod 100)%Z).
  assert (Ht : trimmed 2 2 r = fraction 2 r) by reflexivity.
  rewrite Ht.
  assert (Hne : JSString.truthy (fraction 2 r) = true) by reflexivity.
  now rewrite Hne.
Qed.

Lemma currentPrice_default host d :
  isFinite (current_price d) = true ->
  DefaultDollars host (current_price d) (currentPrice host d).
Proof.
  intros Hf. destruct (shortestDecimal_finite _ Hf) as [v Hv].
  unfold currentPrice, toLocaleString. rewrite Hv.
  exists (nearest v 3). split; [apply (nearest_decimal _ v 3 Hv)|].
  cbn zeta. split; [apply trimmed_length|].
  reflexivity.
Qed.

Lemma toFixed_two x :
  belowCutoff x = true -> FixedDollars x ("$" ++ toFixed x 2).
Proof.
  unfold belowCutoff, toFixed.
  destruct (magnitude x) as [v|] eqn:Hm; [|discriminate].
  intros Hc. apply negb_true_iff in Hc. rewrite Hc.
  exists (nearest v 2). split; [apply (nearest_rounded x v 2 Hm)|].
  reflexivity.
Qed.

(** The two roundings apart: 1.005 is the number 1.00499999999999989...,
    which the table shows as the hundredths of the decimal 1.005 and the
    Yahoo dashboard as the hundredths of the exact value. *)
Lemma rounding_examples :
  dollars Hosts.utc 1.005 = "$1.01" /\
  toFixed 1.005 2 = "1.00" /\
  toLocaleString Hosts.enUS 1.0005 defaultFractionDigits = "1.001".
Proof. repeat split; vm_compute; reflexivity. Qed.

(** C8, as the components have it.  A finite predicted price and the two
    finite bounds of a forecast row are a dollar sign and the number in
    the locale's groups with exactly two decimal places; a finite current
    price is a dollar sign and the number in the locale's groups with the
    decimal places it needs, three at most; both round the decimal the
    number is printed as, half-way cases away from zero.  The price of a
    ticker of the Yahoo dashboard, below [10^21] in magnitude, is a dollar
    sign and the number without groups with exactly two decimal places,
    which round its exact value. *)
Theorem currency_rendering (host : Host) (withLabel : bool)
    (point : ForecastPoint) (d : PredictionData) (item : TickerInfo) :
  isFinite (predicted_price point) = true ->
  isFinite (prediction_interval_low point) = true ->
  isFinite (prediction_interval_high point) = true ->
  isFinite (current_price d) = true ->
  belowCutoff (price item) = true ->
  TwoDecimalDollars host (predicted_price point)
    (priceCell (forecastRow host withLabel point)) /\
  TwoDecimalDollars host (prediction_interval_low point)
    (rangeLow (forecastRow host withLabel point)) /\
  TwoDecimalDollars host (prediction_interval_high point)
    (rangeHigh (forecastRow host withLabel point)) /\
  DefaultDollars host (current_price d) (currentPrice host d) /\
  FixedDollars (price item) (Yahoo.tickerPrice item).
Proof.
  intros Hp Hl Hh Hc Hi. cbn [priceCell rangeLow rangeHigh forecastRow].
  repeat split.
  - now apply dollars_two_decimals.
  - now apply dollars_two_decimals.
  - now apply dollars_two_decimals.
  - now apply currentPrice_default.
  - now apply toFixed_two.
Qed.

Lemma currency_rendering_witness :
  TwoDecimalDollars Hosts.utc 95432.1 "$95,432.10" /\
  DefaultDollars Hosts.utc 1234.5 "$1,234.5" /\
  FixedDollars 1234.5 "$1234.50".
Proof.
  pose proof (currency_rendering Hosts.utc true samplePoint samplePrediction
                sampleTicker eq_refl eq_refl eq_refl eq_refl eq_refl)
    as [Hp [_ [_ [Hc Hi]]]].
  repeat split.
  - replace "$95,432.10"
      with (priceCell (forecastRow Hosts.utc true samplePoint))
      by (vm_compute; reflexivity).
    exact Hp.
  - replace "$1,234.5" with (currentPrice Hosts.utc samplePrediction)
      by (vm_compute; reflexivity).
    exact Hc.
  - replace "$1234.50" with (Yahoo.tickerPrice sampleTicker)
      by (vm_compute; reflexivity).
    exact Hi.
Defined.

(** C8 as stated fails: the current price 1234.5 shows one decimal place,
    and the ticker price 1234.5 shows no separator of thousands in either
    dashboard and one decimal place in the combined one, where two decimal
    places in groups would read "$1,234.50". *)
Lemma currency_not_uniform :
  dollars Hosts.utc 1234.5 = "$1,234.50" /\
  currentPrice Hosts.utc samplePrediction = "$1,234.5" /\
  currentPrice Hosts.utc samplePrediction
    <> dollars Hosts.utc (current_price samplePrediction) /\
  Home.tickerPrice sampleTicker = "$1234.5" /\
  Home.tickerPrice sampleTicker <> dollars Hosts.utc (price sampleTicker) /\
  Yahoo.tickerPrice sampleTicker = "$1234.50" /\
  Yahoo.tickerPrice sampleTicker <> dollars Hosts.utc (price sampleTicker).
Proof.
  repeat split; try (vm_compute; reflexivity); vm_compute; discriminate.
Qed.

(** C6. A prediction, and a forecast point of any row of the forecast
    table of any of the components, shows the upward glyph in green when
    its direction is "UP" and the downward glyph in red when it is
    "DOWN". *)
Theorem direction_rendering (host : Host) (d : PredictionData)
    (forecast : list ForecastPoint) (i : nat) (point : ForecastPoint) :
  nth_error forecast i = Some point ->
  (direction point = "UP" ->
     directionAt (Home.ForecastTable host forecast) i = Some (upArrow true) /\
     directionAt (Basic.ForecastTable host forecast) i
       = Some (upArrow true) /\
     directionAt (Yahoo.forecastRows host forecast) i
       = Some (upArrow false)) /\
  (direction point = "DOWN" ->
     directionAt (Home.ForecastTable host forecast) i
       = Some (downArrow true) /\
     directionAt (Basic.ForecastTable host forecast) i
       = Some (downArrow true) /\
     directionAt (Yahoo.forecastRows host forecast) i
       = Some (downArrow false)) /\
  (prediction d = "UP" -> predictionDirection d = upTrend) /\
  (prediction d = "DOWN" -> predictionDirection d = downTrend).
Proof.
  intros Hi.
  unfold directionAt, Home.ForecastTable, Basic.ForecastTable,
    Yahoo.forecastRows.
  rewrite !nth_error_map, Hi. cbn [option_map directionCell forecastRow].
  unfold arrow, predictionDirection.
  split; [intros ->; repeat split; reflexivity|].
  split; [intros ->; repeat split; reflexivity|].
  split; intros ->; reflexivity.
Qed.

Lemma direction_rendering_witness :
  directionAt (Home.ForecastTable Hosts.utc [samplePoint]) 0
    = Some (upArrow true) /\
  predictionDirection samplePrediction = downTrend.
Proof.
  pose proof (direction_rendering Hosts.utc samplePrediction [samplePoint]
                0 samplePoint eq_refl) as [Hup [_ [_ Hdown]]].
  split.
  - exact (proj1 (Hup eq_refl)).
  - exact (Hdown eq_refl).
Defined.

End RenderingFacts.

(** *** The calendar *)

Module DateFacts.
Import JSDate DateSpec.

Local Open Scope Z_scope.

Ltac leap_cases y :=
  unfold isLeapYear in *;
  destruct (Z.eqb_spec (y mod 4) 0); destruct (Z.eqb_spec (y mod 100) 0);
  destruct (Z.eqb_spec (y mod 400) 0);
  cbn [andb orb negb] in *.

Lemma dayFromYear_next y : dayFromYear (y + 1) = dayFromYear y + daysInYear y.
Proof.
  unfold dayFromYear, daysInYear. leap_cases y;
    Z.div_mod_to_equations; lia.
Qed.

Lemma dayFromYear_previous y :
  dayFromYear y = dayFromYear (y - 1) + daysInYear (y - 1).
Proof.
  rewrite <- dayFromYear_next. f_equal. lia.
Qed.

Lemma daysInYear_bounds y : 365 <= daysInYear y <= 366.
Proof. unfold daysInYear. destruct (isLeapYear y); lia. Qed.

(** The year of a day is found next to the estimate. *)
Lemma yearOfDay_in_year y offset :
  0 <= offset < daysInYear y -> yearOfDay (dayFromYear y + offset) = y.
Proof.
  intros Ho. unfold yearOfDay.
  set (day := dayFromYear y + offset).
  set (estimate := 1970 + day * 400 / 146097).
  pose proof (daysInYear_bounds y) as By.
  assert (He : y - 1 <= estimate <= y + 1).
  { subst estimate day. unfold dayFromYear in *.
    Z.div_mod_to_equations. lia. }
  pose proof (dayFromYear_next y) as Hn.
  pose proof (dayFromYear_previous y) as Hp.
  pose proof (daysInYear_bounds (y - 1)) as Bp.
  pose proof (dayFromYear_next (y + 1)) as Hnn.
  pose proof (daysInYear_bounds (y + 1)) as Bn.
  assert (Hc : estimate = y - 1 \/ estimate = y \/ estimate = y + 1) by lia.
  clearbody estimate. clear He.
  destruct Hc as [-> | [-> | ->]].
  - replace (y - 1 + 1) with y by lia.
    destruct (Z.ltb_spec day (dayFromYear (y - 1))); [subst day; lia|].
    destruct (Z.leb_spec (dayFromYear y) day); [lia | subst day; lia].
  - destruct (Z.ltb_spec day (dayFromYear y)); [subst day; lia|].
    destruct (Z.leb_spec (dayFromYear (y + 1)) day); [subst day; lia | lia].
  - destruct (Z.ltb_spec day (dayFromYear (y + 1))); [lia | subst day; lia].
Qed.

Ltac month_cases m :=
  let H := fresh in
  assert (H : m = 1 \/ m = 2 \/ m = 3 \/ m = 4 \/ m = 5 \/ m = 6 \/
              m = 7 \/ m = 8 \/ m = 9 \/ m = 10 \/ m = 11 \/ m = 12) by lia;
  destruct H as [-> | [-> | [-> | [-> | [-> | [-> |
                [-> | [-> | [-> | [-> | [-> | ->]]]]]]]]]]].

(** The tests on the number of a month, once it is known. *)
Ltac closed_tests :=
  cbn [Z.leb Z.eqb Z.compare Pos.compare Pos.compare_cont Pos.eqb
       orb andb negb] in *.

Lemma validDate_bounds y m d :
  validDate y m d = true -> 1 <= m <= 12 /\ 1 <= d <= daysInMonth y m.
Proof.
  unfold validDate. rewrite !andb_true_iff, !Z.leb_le. lia.
Qed.

Lemma offset_in_year y m d :
  validDate y m d = true ->
  0 <= daysBeforeMonth y m + d - 1 < daysInYear y.
Proof.
  intros H. apply validDate_bounds in H. destruct H as [Hm Hd].
  unfold daysInYear. month_cases m;
    unfold daysBeforeMonth, daysInMonth in *;
    destruct (isLeapYear y); closed_tests; lia.
Qed.

Lemma monthOfDay_in_month y m d :
  validDate y m d = true ->
  monthOfDay y (daysBeforeMonth y m + d - 1) = m.
Proof.
  intros H. apply validDate_bounds in H. destruct H as [Hm Hd].
  unfold monthOfDay.
  month_cases m;
    unfold daysBeforeMonth, daysInMonth in *;
    destruct (isLeapYear y); closed_tests;
    repeat match goal with
           | |- context [?a <? ?b] => destruct (Z.ltb_spec a b); try lia
           end;
    reflexivity.
Qed.

(** The calendar date of the day number of a date of the calendar is that
    date. *)
Lemma dateOfDay_dayOfDate y m d :
  validDate y m d = true -> dateOfDay (dayOfDate y m d) = (y, m, d).
Proof.
  intros H. unfold dateOfDay, dayOfDate.
  pose proof (offset_in_year y m d H) as Ho.
  replace (dayFromYear y + daysBeforeMonth y m + d - 1)
    with (dayFromYear y + (daysBeforeMonth y m + d - 1)) by lia.
  rewrite yearOfDay_in_year by assumption.
  replace (dayFromYear y + (daysBeforeMonth y m + d - 1) - dayFromYear y)
    with (daysBeforeMonth y m + d - 1) by lia.
  rewrite monthOfDay_in_month by assumption.
  f_equal. lia.
Qed.

End DateFacts.

(** *** The news card *)

Module NewsCardFacts.
Import NewsCard DateSpec.

Lemma formatDate_short host s :
  (String.length s < 8)%nat -> formatDate host s = "N/A".
Proof.
  intros H. unfold formatDate.
  replace (String.length s <? 8)%nat with true
    by (symmetry; now apply Nat.ltb_lt).
  now rewrite orb_true_r.
Qed.

(** From eight code units on the date is what [toLocaleDateString] gives
    for the parsed prefix: the [catch] clause is never entered. *)
Lemma formatDate_long host s :
  (8 <= String.length s)%nat ->
  formatDate host s =
    match JSDate.parse (otherDateFormats host)
            (substring 0 4 s ++ "-" ++ substring 4 2 s ++ "-" ++
             substring 6 2 s) with
    | None => "Invalid Date"
    | Some time =>
        let '(y, m, d) :=
          JSDate.dateOfDay ((time + localTZA host time) / JSDate.msPerDay) in
        dateText host y m d
    end.
Proof.
  intros H. unfold formatDate.
  replace (String.length s <? 8)%nat with false
    by (symmetry; apply Nat.ltb_ge; assumption).
  destruct s as [|c s]; [cbn in H; lia|].
  cbn [JSString.truthy negb orb].
  unfold DateObject.ofString, Completion.andThen, Completion.tryCatch,
    DateObject.toLocaleDateString.
  destruct (JSDate.parse _ _) as [time|]; [|reflexivity].
  now destruct (JSDate.dateOfDay _) as [[y m] d].
Qed.

(** Where local time is not behind UTC, a timestamp that starts with a
    date of the calendar shows that date. *)
Lemma formatDate_valid host s y m d :
  (8 <= String.length s)%nat ->
  prefixDate s = Some (y, m, d) ->
  validDate y m d = true ->
  (forall time, 0 <= localTZA host time < JSDate.msPerDay)%Z ->
  formatDate host s = dateText host y m d.
Proof.
  intros Hlen Hfields Hvalid Hzone.
  rewrite formatDate_long by assumption.
  unfold prefixDate in Hfields. unfold JSDate.parse. rewrite Hfields.
  pose proof (DateFacts.validDate_bounds y m d Hvalid) as [Hm Hd].
  assert (Hb : ((1 <=? m) && (m <=? 12) && (1 <=? d) && (d <=? 31))%Z = true).
  { rewrite !andb_true_iff, !Z.leb_le.
    assert (JSDate.daysInMonth y m <= 31)%Z; [|lia].
    unfold JSDate.daysInMonth.
    repeat match goal with |- context [if ?b then _ else _] => destruct b end;
      lia. }
  rewrite Hb.
  replace (d <=? JSDate.daysInMonth y m)%Z with true
    by (symmetry; apply Z.leb_le; lia).
  set (time := (JSDate.dayOfDate y m d * JSDate.msPerDay)%Z).
  specialize (Hzone time).
  replace ((time + localTZA host time) / JSDate.msPerDay)%Z
    with (JSDate.dayOfDate y m d).
  - now rewrite DateFacts.dateOfDay_dayOfDate.
  - subst time. unfold JSDate.msPerDay in *.
    apply Z.div_unique with (localTZA host
      (JSDate.dayOfDate y m d * 86400000)%Z); lia.
Qed.

Lemma formatDate_examples :

  formatDate Hosts.utc "20250224T231000" = "2/24/2025" /\
  formatDate Hosts.jakarta "20250224T231000" = "2/24/2025" /\
  formatDate Hosts.utc "2025" = "N/A" /\
  formatDate Hosts.utc "" = "N/A".
Proof. repeat split; vm_compute; reflexivity. Qed.

(** C3 at its failing inputs.  A prefix that is no calendar date, here with
    the month 13, makes an invalid date, which [toLocaleDateString] prints
    as "Invalid Date" on every host: the raw string does not come back.
    And a valid prefix is read as midnight UTC and shown in local time:
    west of Greenwich the day before comes out. *)
Theorem formatDate_invalid_and_shifted :
  (forall host,
      formatDate host "20251301" = "Invalid Date" /\
      formatDate host "20251301" <> "20251301") /\
  prefixDate "20250224T231000" = Some (2025, 2, 24)%Z /\
  formatDate Hosts.newYorkWinter "20250224T231000" = "2/23/2025" /\
  dateText Hosts.newYorkWinter 2025 2 24 = "2/24/2025".
Proof.
  split; [intros host; split; [reflexivity | discriminate]|].
  repeat split; vm_compute; reflexivity.
Qed.

End NewsCardFacts.

(** *** The body of the prediction request *)

Module BodyFacts.
Import BodySpec JSStringFacts.

Lemma unquote_unit c rest :
  unquoteUnits (JSON.quoteUnit c ++ rest) = prepend c (unquoteUnits rest).
Proof.
  destruct c as [[] [] [] [] [] [] [] []]; reflexivity.
Qed.

Lemma unquoteUnits_quoteUnits s : forall rest,
  unquoteUnits (JSON.quoteUnits s ++ JSON.quotationMark ++ rest)
    = Some (s, rest).
Proof.
  induction s as [|c s IH]; intros rest; [reflexivity|].
  cbn [JSON.quoteUnits]. rewrite append_assoc, unquote_unit, IH.
  reflexivity.
Qed.

Lemma unquote_quote s rest : unquote (JSON.quote s ++ rest) = Some (s, rest).
Proof.
  unfold JSON.quote. rewrite !append_assoc.
  change (unquoteUnits (JSON.quoteUnits s ++ JSON.quotationMark ++ rest)
          = Some (s, rest)).
  apply unquoteUnits_quoteUnits.
Qed.

Lemma readMember_member key v rest :
  readMember (JSON.quote key ++ ":" ++ JSON.quote v ++ rest)
    = Some (key, v, rest).
Proof.
  unfold readMember. rewrite unquote_quote.
  cbn [append]. change (N_of_ascii ":" =? 58)%N with true. cbv iota.
  now rewrite unquote_quote.
Qed.

Lemma join_cons sep x y rest :
  JSON.join sep (x :: y :: rest) = x ++ sep ++ JSON.join sep (y :: rest).
Proof. reflexivity. Qed.

Lemma readMembers_last key v :
  readMembers 1 (written (key, v) ++ "}") = Some [(key, v)].
Proof.
  unfold written. cbn [fst snd readMembers].
  now rewrite !append_assoc, readMember_member.
Qed.

Lemma readMembers_next count key v rest :
  readMembers (S count) (written (key, v) ++ "," ++ rest) =
    option_map (cons (key, v)) (readMembers count rest).
Proof.
  unfold written. cbn [fst snd readMembers].
  now rewrite !append_assoc, readMember_member.
Qed.

Lemma readMembers_written members : forall member,
  readMembers (S (List.length members))
    (JSON.join "," (map written (member :: members)) ++ "}")
    = Some (member :: members).
Proof.
  induction members as [|next members IH]; intros [key v].
  - apply readMembers_last.
  - specialize (IH next). cbn [map] in IH |- *.
    rewrite join_cons, !append_assoc.
    cbn [List.length]. rewrite readMembers_next, IH. reflexivity.
Qed.

Lemma readForm_body formData :
  readForm (JSON.stringify (Form.toJSON formData)) = Some formData.
Proof.
  destruct formData as [v1 v2 v3 v4 v5].
  unfold readForm, readObject.
  change (JSON.stringify (Form.toJSON _))
    with ("{" ++ JSON.join ","
                   (map written
                      [("base_currency", v1); ("quote_currency", v2);
                       ("timeframe", v3); ("period", v4);
                       ("api_key", v5)]) ++ "}").
  cbn [append]. change (N_of_ascii "{" =? 123)%N with true. cbv iota.
  pose proof (readMembers_written
                [("quote_currency", v2); ("timeframe", v3); ("period", v4);
                 ("api_key", v5)] ("base_currency", v1)) as H.
  cbn [List.length] in H. now rewrite H.
Qed.

Lemma readYahooForm_body formData :
  readYahooForm (JSON.stringify (Yahoo.toJSON formData)) = Some formData.
Proof.
  destruct formData as [v1 v2 v3].
  unfold readYahooForm, readObject.
  change (JSON.stringify (Yahoo.toJSON _))
    with ("{" ++ JSON.join ","
                   (map written
                      [("symbol", v1); ("timeframe", v2); ("period", v3)])
              ++ "}").
  cbn [append]. change (N_of_ascii "{" =? 123)%N with true. cbv iota.
  pose proof (readMembers_written
                [("timeframe", v2); ("period", v3)] ("symbol", v1)) as H.
  cbn [List.length] in H. now rewrite H.
Qed.

Lemma readForm_request formData :
  option_map readForm (Fetch.body (Form.predictRequest formData))
    = Some (Some formData).
Proof.
  cbn [Form.predictRequest Fetch.body option_map].
  now rewrite readForm_body.
Qed.

Lemma readYahooForm_request formData :
  option_map readYahooForm (Fetch.body (Yahoo.predictRequest formData))
    = Some (Some formData).
Proof.
  cbn [Yahoo.predictRequest Fetch.body option_map].
  now rewrite readYahooForm_body.
Qed.

(** The body as text: the five fields in the order of the form, each
    key and each value a JSON string. *)
Lemma form_body_text formData :
  Fetch.body (Form.predictRequest formData) =
    Some ("{" ++
          JSON.quote "base_currency" ++ ":" ++
          JSON.quote (Form.base_currency formData) ++ "," ++
          JSON.quote "quote_currency" ++ ":" ++
          JSON.quote (Form.quote_currency formData) ++ "," ++
          JSON.quote "timeframe" ++ ":" ++
          JSON.quote (Form.timeframe formData) ++ "," ++
          JSON.quote "period" ++ ":" ++
          JSON.quote (Form.period formData) ++ "," ++
          JSON.quote "api_key" ++ ":" ++
          JSON.quote (Form.api_key formData) ++ "}").
Proof.
  destruct formData as [v1 v2 v3 v4 v5].
  cbn [Form.predictRequest Fetch.body Form.toJSON JSON.stringify map
       JSON.join fst snd Form.base_currency Form.quote_currency
       Form.timeframe Form.period Form.api_key].
  now rewrite !append_assoc.
Qed.

(** The body of a prediction request can be read back: a reader of JSON
    strings finds every field of the form in it, whatever code units the
    values hold, quotation marks, backslashes and control characters
    included; a string as [JSON.stringify] quotes it ends where its value
    ends.  So two forms that differ in a field never send the same
    request. *)
Theorem request_body_round_trip :
  (forall s rest, unquote (JSON.quote s ++ rest) = Some (s, rest)) /\
  (forall formData,
      option_map readForm (Fetch.body (Form.predictRequest formData))
        = Some (Some formData)) /\
  (forall formData,
      option_map readYahooForm
                 (Fetch.body (Yahoo.predictRequest formData))
        = Some (Some formData)) /\
  (forall a b, Form.predictRequest a = Form.predictRequest b -> a = b) /\
  (forall a b, Yahoo.predictRequest a = Yahoo.predictRequest b -> a = b).
Proof.
  split; [exact unquote_quote|].
  split; [exact readForm_request|].
  split; [exact readYahooForm_request|].
  split; intros a b H.
  - pose proof (readForm_request a) as Ha.
    rewrite H, readForm_request in Ha. now injection Ha.
  - pose proof (readYahooForm_request a) as Ha.
    rewrite H, readYahooForm_request in Ha. now injection Ha.
Qed.

End BodyFacts.

(** *** The request handlers *)

Module HandlerFacts.
Import Completion Async RequestSpec.

#[local] Arguments Form.predictRequest : simpl never.
#[local] Arguments Home.marketMoversRequest : simpl never.
#[local] Arguments Yahoo.predictRequest : simpl never.
#[local] Arguments Yahoo.marketMoversRequest : simpl never.
#[local] Arguments Yahoo.newsRequest : simpl never.

Lemma drain_idle {S : Type} network fuel (s : S) :
  drain network fuel (s, []) = (s, []).
Proof. destruct fuel; reflexivity. Qed.

Lemma member_detail host v :
  isNull v = false -> JSON.member host v "detail" = Normal (detailOf v).
Proof. destruct v; try reflexivity. discriminate. Qed.

(** One step of a proof by execution: compute, and use what is known of
    the network. *)
Ltac known :=
  match goal with
  | H : ?network ?request = _ |- context [?network ?request] => rewrite H
  | H : JSON.member _ _ _ = _ |- _ => rewrite H
  | H : JSON.lookup _ _ = _ |- _ => rewrite H
  | H : JSString.truthy _ = _ |- _ => rewrite H
  | |- context [drain _ _ (_, [])] => rewrite drain_idle
  end.

Ltac execute :=
  repeat (cbn -[JSON.member JSON.lookup JSString.truthy];
          try (progress (repeat known))).

(** The outcome of a request, case by case, with the response taken
    apart. *)
Ltac outcomes network request :=
  unfold outcome in *;
  let response := fresh "response" in
  let e := fresh "e" in
  let Enet := fresh "Enet" in
  destruct (network request) as [response|e] eqn:Enet;
  [ let isOk := fresh "isOk" in
    let body := fresh "body" in
    destruct response as [isOk body];
    destruct isOk; [destruct body|]
  | ];
  cbn [Fetch.ok Fetch.json] in *;
  try discriminate.

(** **** A submission that fails *)

Lemma basic_failure host network s :
  failed (outcome network (Form.predictRequest (Basic.formData s))) = true ->
  exists message, forall fuel,
    drain network (2 + fuel) (Basic.submit host s) =
      ({| Basic.formData := Basic.formData s;
          Basic.prediction := Basic.prediction s;
          Basic.loading := false;
          Basic.error := Some message |}, []).
Proof.
  intros H. unfold Basic.submit, Basic.handleSubmit.
  outcomes network (Form.predictRequest (Basic.formData s)).
  - eexists. intros fuel. execute. reflexivity.
  - destruct body as [errorData|e].
    + destruct (JSON.member host errorData "detail") as [detail|e] eqn:Em;
        eexists; intros fuel; execute; reflexivity.
    + eexists. intros fuel. execute. reflexivity.
  - eexists. intros fuel. execute. reflexivity.
Qed.

Lemma home_failure host network s :
  failed (outcome network (Form.predictRequest (Home.formData s))) = true ->
  exists message, forall fuel,
    drain network (2 + fuel) (Home.submit host s) =
      ({| Home.formData := Home.formData s;
          Home.prediction := Home.prediction s;
          Home.marketMovers := Home.marketMovers s;
          Home.newsSentiment := Home.newsSentiment s;
          Home.loading := false;
          Home.marketLoading := Home.marketLoading s;
          Home.newsLoading := Home.newsLoading s;
          Home.error := Some message |}, []).
Proof.
  intros H. unfold Home.submit, Home.handleSubmit.
  outcomes network (Form.predictRequest (Home.formData s)).
  - eexists. intros fuel. execute. reflexivity.
  - destruct body as [errorData|e].
    + destruct (JSON.member host errorData "detail") as [detail|e] eqn:Em;
        eexists; intros fuel; execute; reflexivity.
    + eexists. intros fuel. execute. reflexivity.
  - eexists. intros fuel. execute. reflexivity.
Qed.

Lemma yahoo_failure host network s :
  failed (outcome network (Yahoo.predictRequest (Yahoo.formData s))) = true ->
  exists message, forall fuel,
    drain network (2 + fuel) (Yahoo.submit host s) =
      ({| Yahoo.formData := Yahoo.formData s;
          Yahoo.prediction := Yahoo.prediction s;
          Yahoo.marketMovers := Yahoo.marketMovers s;
          Yahoo.news := Yahoo.news s;
          Yahoo.loading := false;
          Yahoo.error := Some message |}, []).
Proof.
  intros H. unfold Yahoo.submit, Yahoo.handleSubmit.
  outcomes network (Yahoo.predictRequest (Yahoo.formData s)).
  - eexists. intros fuel. execute. reflexivity.
  - destruct body as [errorData|e].
    + destruct (JSON.member host errorData "detail") as [detail|e] eqn:Em;
        eexists; intros fuel; execute; reflexivity.
    + eexists. intros fuel. execute. reflexivity.
  - eexists. intros fuel. execute. reflexivity.
Qed.

(** C9. When the prediction request fails, by a network error, a status
    outside 2xx or a body that is no JSON, the submission ends with an
    error message and the loading flag down, and every other slot as it
    was: the prediction stored before stays.  In each of the three
    components. *)
Theorem failed_submission_keeps_payload (host : Host)
    (network : Fetch.Network) :
  (forall s,
      failed (outcome network (Form.predictRequest (Basic.formData s)))
        = true ->
      exists message, forall fuel,
        drain network (2 + fuel) (Basic.submit host s) =
          ({| Basic.formData := Basic.formData s;
              Basic.prediction := Basic.prediction s;
              Basic.loading := false;
              Basic.error := Some message |}, [])) /\
  (forall s,
      failed (outcome network (Form.predictRequest (Home.formData s)))
        = true ->
      exists message, forall fuel,
        drain network (2 + fuel) (Home.submit host s) =
          ({| Home.formData := Home.formData s;
              Home.prediction := Home.prediction s;
              Home.marketMovers := Home.marketMovers s;
              Home.newsSentiment := Home.newsSentiment s;
              Home.loading := false;
              Home.marketLoading := Home.marketLoading s;
              Home.newsLoading := Home.newsLoading s;
              Home.error := Some message |}, [])) /\
  (forall s,
      failed (outcome network (Yahoo.predictRequest (Yahoo.formData s)))
        = true ->
      exists message, forall fuel,
        drain network (2 + fuel) (Yahoo.submit host s) =
          ({| Yahoo.formData := Yahoo.formData s;
              Yahoo.prediction := Yahoo.prediction s;
              Yahoo.marketMovers := Yahoo.marketMovers s;
              Yahoo.news := Yahoo.news s;
              Yahoo.loading := false;
              Yahoo.error := Some message |}, [])).
Proof.
  split; [|split]; intros s H.
  - now apply basic_failure.
  - now apply home_failure.
  - now apply yahoo_failure.
Qed.

Lemma failed_submission_keeps_payload_witness :
  exists message, forall fuel,
    drain (always (status false (JSON.Object [])))
          (2 + fuel)
          (Home.submit Hosts.utc
             (Home.setPrediction (JSON.Str "earlier") Home.initial)) =
      ({| Home.formData := Home.formData Home.initial;
          Home.prediction := JSON.Str "earlier";
          Home.marketMovers := JSON.Null;
          Home.newsSentiment := JSON.Null;
          Home.loading := false;
          Home.marketLoading := false;
          Home.newsLoading := false;
          Home.error := Some message |}, []).
Proof.
  apply (proj1 (proj2 (failed_submission_keeps_payload Hosts.utc
                         (always (status false (JSON.Object [])))))
           (Home.setPrediction (JSON.Str "earlier") Home.initial)).
  reflexivity.
Defined.

(** **** The message of an error response *)

Ltac error_response network request H :=
  unfold errorBody in H;
  outcomes network request;
  match type of H with
  | match ?body with _ => _ end = Some _ =>
      destruct body; [injection H as -> | discriminate H]
  end.

Lemma basic_error_message host network s errorData fuel :
  errorBody network (Form.predictRequest (Basic.formData s))
    = Some errorData ->
  (forall detail,
      detailOf errorData = Some (JSON.Str detail) ->
      JSString.truthy detail = true ->
      Basic.error (fst (drain network (2 + fuel) (Basic.submit host s)))
        = Some detail) /\
  (detailOf errorData = None -> isNull errorData = false ->
   Basic.error (fst (drain network (2 + fuel) (Basic.submit host s)))
     = Some "Failed to fetch prediction").
Proof.
  intros H. unfold Basic.submit, Basic.handleSubmit.
  error_response network (Form.predictRequest (Basic.formData s)) H.
  split.
  - intros detail Hd Ht.
    assert (Hm : JSON.member host errorData "detail"
                 = Normal (Some (JSON.Str detail)))
      by (rewrite member_detail, Hd;
          [reflexivity | destruct errorData; try reflexivity; discriminate]).
    execute. unfold JSON.orElse, JSON.truthy. now rewrite Ht.
  - intros Hd Hn.
    assert (Hm : JSON.member host errorData "detail" = Normal None)
      by (now rewrite member_detail, Hd).
    execute. reflexivity.
Qed.

Lemma home_error_message host network s errorData fuel :
  errorBody network (Form.predictRequest (Home.formData s))
    = Some errorData ->
  (forall detail,
      detailOf errorData = Some (JSON.Str detail) ->
      JSString.truthy detail = true ->
      Home.error (fst (drain network (2 + fuel) (Home.submit host s)))
        = Some detail) /\
  (detailOf errorData = None -> isNull errorData = false ->
   Home.error (fst (drain network (2 + fuel) (Home.submit host s)))
     = Some "Failed to fetch prediction").
Proof.
  intros H. unfold Home.submit, Home.handleSubmit.
  error_response network (Form.predictRequest (Home.formData s)) H.
  split.
  - intros detail Hd Ht.
    assert (Hm : JSON.member host errorData "detail"
                 = Normal (Some (JSON.Str detail)))
      by (rewrite member_detail, Hd;
          [reflexivity | destruct errorData; try reflexivity; discriminate]).
    execute. unfold JSON.orElse, JSON.truthy. now rewrite Ht.
  - intros Hd Hn.
    assert (Hm : JSON.member host errorData "detail" = Normal None)
      by (now rewrite member_detail, Hd).
    execute. reflexivity.
Qed.

Lemma yahoo_error_message host network s errorData fuel :
  errorBody network (Yahoo.predictRequest (Yahoo.formData s))
    = Some errorData ->
  (forall detail,
      detailOf errorData = Some (JSON.Str detail) ->
      JSString.truthy detail = true ->
      Yahoo.error (fst (drain network (2 + fuel) (Yahoo.submit host s)))
        = Some detail) /\
  (detailOf errorData = None -> isNull errorData = false ->
   Yahoo.error (fst (drain network (2 + fuel) (Yahoo.submit host s)))
     = Some "Failed to fetch prediction").
Proof.
  intros H. unfold Yahoo.submit, Yahoo.handleSubmit.
  error_response network (Yahoo.predictRequest (Yahoo.formData s)) H.
  split.
  - intros detail Hd Ht.
    assert (Hm : JSON.member host errorData "detail"
                 = Normal (Some (JSON.Str detail)))
      by (rewrite member_detail, Hd;
          [reflexivity | destruct errorData; try reflexivity; discriminate]).
    execute. unfold JSON.orElse, JSON.truthy. now rewrite Ht.
  - intros Hd Hn.
    assert (Hm : JSON.member host errorData "detail" = Normal None)
      by (now rewrite member_detail, Hd).
    execute. reflexivity.
Qed.

(** C1, as the handlers have it.  After a response outside 2xx with a JSON
    body, the error state is the [detail] of the body when that is a
    string and not empty, and "Failed to fetch prediction" when the body
    is not [null] and has no [detail].  In each of the three components,
    whatever else the page holds. *)
Theorem error_detail_or_fallback (host : Host) (network : Fetch.Network)
    (errorData : JSON.value) (fuel : nat) :
  (forall s,
      errorBody network (Form.predictRequest (Home.formData s))
        = Some errorData ->
      (forall detail,
          detailOf errorData = Some (JSON.Str detail) ->
          JSString.truthy detail = true ->
          Home.error (fst (drain network (2 + fuel) (Home.submit host s)))
            = Some detail) /\
      (detailOf errorData = None -> isNull errorData = false ->
       Home.error (fst (drain network (2 + fuel) (Home.submit host s)))
         = Some "Failed to fetch prediction")) /\
  (forall s,
      errorBody network (Yahoo.predictRequest (Yahoo.formData s))
        = Some errorData ->
      (forall detail,
          detailOf errorData = Some (JSON.Str detail) ->
          JSString.truthy detail = true ->
          Yahoo.error (fst (drain network (2 + fuel) (Yahoo.submit host s)))
            = Some detail) /\
      (detailOf errorData = None -> isNull errorData = false ->
       Yahoo.error (fst (drain network (2 + fuel) (Yahoo.submit host s)))
         = Some "Failed to fetch prediction")) /\
  (forall s,
      errorBody network (Form.predictRequest (Basic.formData s))
        = Some errorData ->
      (forall detail,
          detailOf errorData = Some (JSON.Str detail) ->
          JSString.truthy detail = true ->
          Basic.error (fst (drain network (2 + fuel) (Basic.submit host s)))
            = Some detail) /\
      (detailOf errorData = None -> isNull errorData = false ->
       Basic.error (fst (drain network (2 + fuel) (Basic.submit host s)))
         = Some "Failed to fetch prediction")).
Proof.
  split; [|split]; intros s H.
  - now apply home_error_message.
  - now apply yahoo_error_message.
  - now apply basic_error_message.
Qed.

Lemma error_detail_or_fallback_witness :
  Home.error
    (fst (drain (always (status false
                           (JSON.Object
                              [("detail", JSON.Str "Invalid symbol")])))
                2 (Home.submit Hosts.utc Home.initial)))
    = Some "Invalid symbol" /\
  Yahoo.error
    (fst (drain (always (status false (JSON.Object [])))
                2 (Yahoo.submit Hosts.utc Yahoo.initial)))
    = Some "Failed to fetch prediction".
Proof.
  split.
  - apply (proj1 (proj1 (error_detail_or_fallback Hosts.utc
                           (always (status false
                                      (JSON.Object
                                         [("detail",
                                           JSON.Str "Invalid symbol")])))
                           (JSON.Object
                              [("detail", JSON.Str "Invalid symbol")]) 0)
                    Home.initial eq_refl) "Invalid symbol");
      reflexivity.
  - apply (proj2 (proj1 (proj2 (error_detail_or_fallback Hosts.utc
                                  (always (status false (JSON.Object [])))
                                  (JSON.Object []) 0))
                    Yahoo.initial eq_refl));
      reflexivity.
Defined.

(** C1 as stated fails twice.  A body whose [detail] is the empty string
    leaves the fallback message, not that string; and the body [null],
    which has no [detail], leaves the message of the engine's TypeError,
    not the fallback. *)
Lemma empty_detail_and_null_body :
  detailOf (JSON.Object [("detail", JSON.Str "")]) = Some (JSON.Str "") /\
  Home.error
    (fst (drain (always (status false
                           (JSON.Object [("detail", JSON.Str "")])))
                2 (Home.submit Hosts.utc Home.initial)))
    = Some "Failed to fetch prediction" /\
  Home.error
    (fst (drain (always (status false
                           (JSON.Object [("detail", JSON.Str "")])))
                2 (Home.submit Hosts.utc Home.initial)))
    <> Some "" /\
  detailOf JSON.Null = None /\
  Home.error
    (fst (drain (always (status false JSON.Null))
                2 (Home.submit Hosts.utc Home.initial)))
    = Some "Cannot read properties of null (reading 'detail')" /\
  Home.error
    (fst (drain (always (status false JSON.Null))
                2 (Home.submit Hosts.utc Home.initial)))
    <> Some "Failed to fetch prediction".
Proof.
  repeat split; try reflexivity; vm_compute; discriminate.
Qed.

(** **** The market movers of the combined dashboard *)

(** C4. In the combined dashboard, when the prediction request succeeds
    with an API key in the form, the payload is stored with no error; and
    when the market-movers request issued next fails, its message goes
    into the one error slot while the stored payload stays. *)
Theorem market_failure_overwrites_error (host : Host)
    (network : Fetch.Network) (s : Home.State) (data : JSON.value)
    (message : string) (fuel : nat) :
  outcome network (Form.predictRequest (Home.formData s)) = Parsed data ->
  JSString.truthy (Form.api_key (Home.formData s)) = true ->
  marketFailure
    (outcome network
       (Home.marketMoversRequest (Form.api_key (Home.formData s))))
    = Some message ->
  let settled := drain network 2 (Home.submit host s) in
  let final := drain network (4 + fuel) (Home.submit host s) in
  Home.prediction (fst settled) = data /\
  Home.error (fst settled) = None /\
  awaited (snd settled)
    = [Some (Home.marketMoversRequest (Form.api_key (Home.formData s)))] /\
  Home.error (fst final) = Some message /\
  Home.prediction (fst final) = data /\
  snd final = [].
Proof.
  intros Hp Hk Hm. unfold Home.submit, Home.handleSubmit.
  outcomes network (Form.predictRequest (Home.formData s)).
  injection Hp as ->.
  unfold Home.fetchMarketMovers.
  outcomes network
    (Home.marketMoversRequest (Form.api_key (Home.formData s)));
    injection Hm as <-; execute; repeat split; reflexivity.
Qed.

Lemma market_failure_overwrites_error_witness :
  Home.error
    (fst (drain (byMethod (status true (JSON.Str "payload"))
                          (status false JSON.Null))
                4 (Home.submit Hosts.utc Home.initial)))
    = Some "Failed to fetch market data" /\
  Home.prediction
    (fst (drain (byMethod (status true (JSON.Str "payload"))
                          (status false JSON.Null))
                4 (Home.submit Hosts.utc Home.initial)))
    = JSON.Str "payload".
Proof.
  pose proof (market_failure_overwrites_error Hosts.utc
                (byMethod (status true (JSON.Str "payload"))
                          (status false JSON.Null))
                Home.initial (JSON.Str "payload")
                "Failed to fetch market data" 0
                eq_refl eq_refl eq_refl) as [_ [_ [_ [He [Hp _]]]]].
  split; [exact He | exact Hp].
Defined.

(** **** A submission from its start to its end *)

Lemma basic_lifecycle host network s :
  let started := Basic.submit host s in
  fst started =
    {| Basic.formData := Basic.formData s;
       Basic.prediction := Basic.prediction s;
       Basic.loading := true;
       Basic.error := None |} /\
  awaited (snd started) = [Some (Form.predictRequest (Basic.formData s))] /\
  Basic.loading (fst (drain network 2 started)) = false /\
  snd (drain network 2 started) = [] /\
  (forall data,
      outcome network (Form.predictRequest (Basic.formData s)) = Parsed data ->
      Basic.prediction (fst (drain network 2 started)) = data).
Proof.
  cbn zeta. split; [reflexivity|]. split; [reflexivity|].
  unfold Basic.submit, Basic.handleSubmit.
  outcomes network (Form.predictRequest (Basic.formData s)).
  - execute. repeat split. now intros data [= ->].
  - execute. repeat split. discriminate.
  - destruct body as [errorData|e];
      [destruct (JSON.member host errorData "detail") as [detail|e] eqn:Em|];
      execute; repeat split; discriminate.
  - execute. repeat split. discriminate.
Qed.

Lemma home_lifecycle host network s :
  let started := Home.submit host s in
  fst started =
    {| Home.formData := Home.formData s;
       Home.prediction := Home.prediction s;
       Home.marketMovers := Home.marketMovers s;
       Home.newsSentiment := Home.newsSentiment s;
       Home.loading := true;
       Home.marketLoading := Home.marketLoading s;
       Home.newsLoading := Home.newsLoading s;
       Home.error := None |} /\
  awaited (snd started) = [Some (Form.predictRequest (Home.formData s))] /\
  Home.loading (fst (drain network 2 started)) = false /\
  (awaited (snd (drain network 2 started)) = [] \/
   awaited (snd (drain network 2 started))
     = [Some (Home.marketMoversRequest (Form.api_key (Home.formData s)))]) /\
  (forall data,
      outcome network (Form.predictRequest (Home.formData s)) = Parsed data ->
      Home.prediction (fst (drain network 2 started)) = data).
Proof.
  cbn zeta. split; [reflexivity|]. split; [reflexivity|].
  unfold Home.submit, Home.handleSubmit.
  outcomes network (Form.predictRequest (Home.formData s)).
  - destruct (JSString.truthy (Form.api_key (Home.formData s))) eqn:Hk;
      execute; (split; [reflexivity|]); (split; [auto|]);
      now intros data [= ->].
  - execute. split; [reflexivity|]. split; [auto|]. discriminate.
  - destruct body as [errorData|e];
      [destruct (JSON.member host errorData "detail") as [detail|e] eqn:Em|];
      execute; (split; [reflexivity|]); (split; [auto|]); discriminate.
  - execute. split; [reflexivity|]. split; [auto|]. discriminate.
Qed.

(** The handler goes on with the form data of the render it was called
    in: a field edited while the request is on its way changes neither
    what is stored nor the key of the market-movers request. *)
Lemma home_frozen host network s edited :
  let started := Home.submit host s in
  let resumed :=
    drain network 2 (Home.setFormData edited (fst started), snd started) in
  Home.formData (fst resumed) = edited /\
  (awaited (snd resumed) = [] \/
   awaited (snd resumed)
     = [Some (Home.marketMoversRequest (Form.api_key (Home.formData s)))]) /\
  (forall data,
      outcome network (Form.predictRequest (Home.formData s)) = Parsed data ->
      Home.prediction (fst resumed) = data).
Proof.
  cbn zeta. unfold Home.submit, Home.handleSubmit.
  outcomes network (Form.predictRequest (Home.formData s)).
  - destruct (JSString.truthy (Form.api_key (Home.formData s))) eqn:Hk;
      execute; (split; [reflexivity|]); (split; [auto|]);
      now intros data [= ->].
  - execute. split; [reflexivity|]. split; [auto|]. discriminate.
  - destruct body as [errorData|e];
      [destruct (JSON.member host errorData "detail") as [detail|e] eqn:Em|];
      execute; (split; [reflexivity|]); (split; [auto|]); discriminate.
  - execute. split; [reflexivity|]. split; [auto|]. discriminate.
Qed.

(** C7. A submission raises the loading flag, clears the error and sends
    the form data of that moment as a JSON text: an object of the five
    fields in the order of the form, each value a JSON string, from which
    a reader of JSON gets every field back; a 2xx response with a
    JSON body is stored as the prediction; and when the request has
    settled, in whatever way, the loading flag is down and the handler
    waits for nothing more.  In the prediction dashboard and in the
    combined one, where a market-movers request may be on its way, and
    where editing the form meanwhile changes nothing of this. *)
Theorem submission_lifecycle (host : Host) (network : Fetch.Network) :
  (forall s,
      let started := Home.submit host s in
      fst started =
        {| Home.formData := Home.formData s;
           Home.prediction := Home.prediction s;
           Home.marketMovers := Home.marketMovers s;
           Home.newsSentiment := Home.newsSentiment s;
           Home.loading := true;
           Home.marketLoading := Home.marketLoading s;
           Home.newsLoading := Home.newsLoading s;
           Home.error := None |} /\
      awaited (snd started)
        = [Some (Form.predictRequest (Home.formData s))] /\
      Home.loading (fst (drain network 2 started)) = false /\
      (awaited (snd (drain network 2 started)) = [] \/
       awaited (snd (drain network 2 started))
         = [Some (Home.marketMoversRequest
                    (Form.api_key (Home.formData s)))]) /\
      (forall data,
          outcome network (Form.predictRequest (Home.formData s))
            = Parsed data ->
          Home.prediction (fst (drain network 2 started)) = data)) /\
  (forall s,
      let started := Basic.submit host s in
      fst started =
        {| Basic.formData := Basic.formData s;
           Basic.prediction := Basic.prediction s;
           Basic.loading := true;
           Basic.error := None |} /\
      awaited (snd started)
        = [Some (Form.predictRequest (Basic.formData s))] /\
      Basic.loading (fst (drain network 2 started)) = false /\
      snd (drain network 2 started) = [] /\
      (forall data,
          outcome network (Form.predictRequest (Basic.formData s))
            = Parsed data ->
          Basic.prediction (fst (drain network 2 started)) = data)) /\
  (forall formData,
      Fetch.method (Form.predictRequest formData) = "POST" /\
      In ("Content-Type", "application/json")
         (Fetch.headers (Form.predictRequest formData)) /\
      Fetch.body (Form.predictRequest formData) =
        Some ("{" ++
              JSON.quote "base_currency" ++ ":" ++
              JSON.quote (Form.base_currency formData) ++ "," ++
              JSON.quote "quote_currency" ++ ":" ++
              JSON.quote (Form.quote_currency formData) ++ "," ++
              JSON.quote "timeframe" ++ ":" ++
              JSON.quote (Form.timeframe formData) ++ "," ++
              JSON.quote "period" ++ ":" ++
              JSON.quote (Form.period formData) ++ "," ++
              JSON.quote "api_key" ++ ":" ++
              JSON.quote (Form.api_key formData) ++ "}") /\
      option_map BodySpec.readForm (Fetch.body (Form.predictRequest formData))
        = Some (Some formData)) /\
  (forall s edited,
      let started := Home.submit host s in
      let resumed :=
        drain network 2
          (Home.setFormData edited (fst started), snd started) in
      Home.formData (fst resumed) = edited /\
      (awaited (snd resumed) = [] \/
       awaited (snd resumed)
         = [Some (Home.marketMoversRequest
                    (Form.api_key (Home.formData s)))]) /\
      (forall data,
          outcome network (Form.predictRequest (Home.formData s))
            = Parsed data ->
          Home.prediction (fst resumed) = data)).
Proof.
  split; [|split; [|split]].
  - intros s. apply home_lifecycle.
  - intros s. apply basic_lifecycle.
  - intros formData. split; [reflexivity|]. split; [now left|].
    split; [apply BodyFacts.form_body_text|].
    apply BodyFacts.readForm_request.
  - intros s edited. apply home_frozen.
Qed.

Lemma submission_lifecycle_witness :
  Home.prediction
    (fst (drain (byMethod (status true (JSON.Str "payload"))
                          (status false JSON.Null))
                2 (Home.submit Hosts.utc Home.initial)))
    = JSON.Str "payload".
Proof.
  apply (proj2 (proj2 (proj2 (proj2
           (proj1 (submission_lifecycle Hosts.utc
                     (byMethod (status true (JSON.Str "payload"))
                               (status false JSON.Null)))
              Home.initial))))).
  reflexivity.
Defined.

(** The body of the request of the initial form, as text. *)
Lemma request_body_example :
  Fetch.body (Form.predictRequest (Basic.formData Basic.initial)) =
    Some ("{" ++ JSON.quote "base_currency" ++ ":" ++ JSON.quote "BTC" ++ ","
          ++ JSON.quote "quote_currency" ++ ":" ++ JSON.quote "USD" ++ ","
          ++ JSON.quote "timeframe" ++ ":" ++ JSON.quote "daily" ++ ","
          ++ JSON.quote "period" ++ ":" ++ JSON.quote "30" ++ ","
          ++ JSON.quote "api_key" ++ ":" ++ JSON.quote "" ++ "}").
Proof. vm_compute. reflexivity. Qed.

(** **** The secondary requests of the Yahoo dashboard *)

Lemma yahoo_settled host network s data fuel :
  outcome network (Yahoo.predictRequest (Yahoo.formData s)) = Parsed data ->
  drain network (6 + fuel) (Yahoo.submit host s) =
    (yahooSettled s data
       (outcome network Yahoo.marketMoversRequest)
       (outcome network (Yahoo.newsRequest (Yahoo.formData s))),
     []).
Proof.
  intros Hp. unfold Yahoo.submit, Yahoo.handleSubmit, yahooSettled.
  outcomes network (Yahoo.predictRequest (Yahoo.formData s)).
  injection Hp as ->.
  outcomes network Yahoo.marketMoversRequest;
    outcomes network (Yahoo.newsRequest (Yahoo.formData s));
    execute; reflexivity.
Qed.

(** C10. In the Yahoo dashboard, once the prediction is stored, a
    market-movers or news response outside 2xx is passed over: it sets no
    error and leaves the payload stored before.  The error slot is filled
    only by an exception of one of these requests, a rejected [fetch] or a
    body that is no JSON. *)
Theorem yahoo_bad_status_is_skipped (host : Host) (network : Fetch.Network)
    (s : Yahoo.State) (data : JSON.value) (fuel : nat) :
  outcome network (Yahoo.predictRequest (Yahoo.formData s)) = Parsed data ->
  let market := outcome network Yahoo.marketMoversRequest in
  let news := outcome network (Yahoo.newsRequest (Yahoo.formData s)) in
  let final := fst (drain network (6 + fuel) (Yahoo.submit host s)) in
  snd (drain network (6 + fuel) (Yahoo.submit host s)) = [] /\
  final = yahooSettled s data market news /\
  (isBadStatus market = true ->
   Yahoo.marketMovers final = Yahoo.marketMovers s /\
   Yahoo.error final = option_map messageOf (raised news)) /\
  (raised market = None -> isBadStatus news = true ->
   Yahoo.news final = Yahoo.news s /\ Yahoo.error final = None) /\
  (isBadStatus market = true -> isBadStatus news = true ->
   final =
     {| Yahoo.formData := Yahoo.formData s;
        Yahoo.prediction := data;
        Yahoo.marketMovers := Yahoo.marketMovers s;
        Yahoo.news := Yahoo.news s;
        Yahoo.loading := false;
        Yahoo.error := None |}) /\
  (forall e, raised market = Some e ->
             Yahoo.error final = Some (messageOf e)) /\
  (forall e, raised market = None -> raised news = Some e ->
             Yahoo.error final = Some (messageOf e)) /\
  (forall message, Yahoo.error final = Some message ->
                   exists e, message = messageOf e /\
                             (raised market = Some e \/
                              raised news = Some e)).
Proof.
  intros Hp. cbn zeta. rewrite (yahoo_settled host network s data fuel Hp).
  cbn [fst snd]. unfold yahooSettled.
  destruct (outcome network Yahoo.marketMoversRequest) as [em|rm|em|dm];
    destruct (outcome network (Yahoo.newsRequest (Yahoo.formData s)))
      as [en|rn|en|dn];
    cbn [raised isBadStatus stored option_map Yahoo.marketMovers Yahoo.news
         Yahoo.error];
    repeat split; try discriminate; try reflexivity;
    try (intros e [= ->]; reflexivity);
    try (intros e _ [= ->]; reflexivity);
    try (intros message [= <-]; eexists; split; [reflexivity | auto]).
Qed.

Lemma yahoo_bad_status_is_skipped_witness :
  fst (drain (byMethod (status true (JSON.Str "payload"))
                       (status false JSON.Null))
             6 (Yahoo.submit Hosts.utc Yahoo.initial))
    = {| Yahoo.formData := Yahoo.formData Yahoo.initial;
         Yahoo.prediction := JSON.Str "payload";
         Yahoo.marketMovers := JSON.Null;
         Yahoo.news := JSON.Null;
         Yahoo.loading := false;
         Yahoo.error := None |}.
Proof.
  pose proof (yahoo_bad_status_is_skipped Hosts.utc
                (byMethod (status true (JSON.Str "payload"))
                          (status false JSON.Null))
                Yahoo.initial (JSON.Str "payload") 0 eq_refl)
    as [_ [_ [_ [_ [H _]]]]].
  exact (H eq_refl eq_refl).
Defined.

End HandlerFacts.

(** *** Keywords of a signal *)

Module SignalFacts.
Import JSString IndicatorCard KeywordSpec JSStringFacts.

Lemma toLowerCase_append a b :
  toLowerCase (a ++ b) = toLowerCase a ++ toLowerCase b.
Proof. induction a as [|c a IH]; cbn; [reflexivity | now rewrite IH]. Qed.

Lemma includes_embedded pre w post :
  includes (pre ++ w ++ post) w = true.
Proof. apply includes_spec. now exists pre, post. Qed.

(** The colour of a signal does not depend on the case of its letters:
    two signals that are equal in lower case get the same classes, unless
    one of them is "Overbought" or "Oversold" written exactly so, the two
    words that are compared with their case. *)
Theorem signalClass_case_insensitive (a b : string) :
  toLowerCase a = toLowerCase b ->
  exactWord a = false -> exactWord b = false ->
  signalClass a = signalClass b.
Proof.
  unfold exactWord, signalClass. intros E Ha Hb.
  apply orb_false_iff in Ha, Hb. destruct Ha as [-> ->], Hb as [-> ->].
  now rewrite E.
Qed.

Lemma signalClass_case_insensitive_witness :
  signalClass "STRONG Buy" = signalClass "strong buy" /\
  signalClass "OVERSOLD" = signalClass "oversold".
Proof.
  split.
  - apply (signalClass_case_insensitive "STRONG Buy" "strong buy");
      reflexivity.
  - apply (signalClass_case_insensitive "OVERSOLD" "oversold"); reflexivity.
Defined.

(** A keyword counts wherever it stands in the signal and in whatever
    case.  With "bull" or "strong" anywhere the badge is green, also when
    "bear" or "weak" is there too; with "bear" or "weak" anywhere the
    badge is never gray. *)
Theorem signalClass_keyword_anywhere (pre w post : string) :
  (isWord w "bull" "strong" = true ->
   signalClass (pre ++ w ++ post) = positiveClass) /\
  (isWord w "bear" "weak" = true ->
   signalClass (pre ++ w ++ post) <> neutralClass).
Proof.
  unfold isWord, signalClass.
  rewrite !toLowerCase_append.
  split; intros H; apply orb_true_iff in H;
    destruct H as [H|H]; apply String.eqb_eq in H; rewrite H.
  - now rewrite includes_embedded.
  - rewrite includes_embedded. now rewrite orb_true_r.
  - rewrite includes_embedded.
    destruct (_ || _ || _); cbn; discriminate.
  - rewrite includes_embedded.
    destruct (_ || _ || _); cbn; [discriminate|].
    rewrite orb_true_r. cbn. discriminate.
Qed.

End SignalFacts.

(** *** The sentiment of an article *)

Module SentimentFacts.
Import JSString IndicatorCard NewsCard.

(** The badge of an article is green for exactly the labels "Bullish" and
    "Somewhat-Bullish", red for exactly "Bearish" and "Somewhat-Bearish",
    compared as they are written; and whenever it is green or red, an
    indicator card gives a signal of the same text the same classes. *)
Theorem sentiment_color (label : string) :
  (getSentimentColor label = positiveClass <->
     label = "Bullish" \/ label = "Somewhat-Bullish") /\
  (getSentimentColor label = negativeClass <->
     label = "Bearish" \/ label = "Somewhat-Bearish") /\
  (getSentimentColor label <> neutralClass ->
     signalClass label = getSentimentColor label).
Proof.
  unfold getSentimentColor.
  destruct (String.eqb_spec label "Bullish") as [->|H1].
  { repeat split; try (intros; now left); try discriminate.
    intuition discriminate. }
  destruct (String.eqb_spec label "Somewhat-Bullish") as [->|H2].
  { repeat split; try (intros; now right); try discriminate.
    intuition discriminate. }
  destruct (String.eqb_spec label "Bearish") as [->|H3].
  { repeat split; try (intros; now left); try discriminate.
    intuition discriminate. }
  destruct (String.eqb_spec label "Somewhat-Bearish") as [->|H4].
  { repeat split; try (intros; now right); try discriminate.
    intuition discriminate. }
  cbn [orb]. repeat split; try discriminate; tauto.
Qed.

End SentimentFacts.

(** *** The date of an article, east and west of Greenwich *)

Module CalendarFacts.
Import JSDate DateSpec NewsCard.
Local Open Scope Z_scope.

Lemma dayOfDate_dateOfDay day :
  let '(y, m, d) := dateOfDay day in dayOfDate y m d = day.
Proof.
  unfold dateOfDay. cbv beta iota zeta. unfold dayOfDate. ring.
Qed.

Lemma formatDate_valid_witness :
  formatDate Hosts.jakarta "20250224T231000" = "2/24/2025".
Proof.
  apply (NewsCardFacts.formatDate_valid Hosts.jakarta "20250224T231000"
           2025 2 24).
  - cbn. lia.
  - reflexivity.
  - reflexivity.
  - intros time. unfold msPerDay. simpl. lia.
Defined.

(** Where local time is behind UTC, by a day at most, a timestamp that
    starts with a date of the calendar shows the day before it, which is
    another date. *)
Theorem formatDate_day_before (host : Host) (s : string) (y m d : Z) :
  (8 <= String.length s)%nat ->
  prefixDate s = Some (y, m, d) ->
  validDate y m d = true ->
  (forall time, - msPerDay <= localTZA host time < 0) ->
  exists y' m' d',
    dateOfDay (dayOfDate y m d - 1) = (y', m', d') /\
    (y', m', d') <> (y, m, d) /\
    formatDate host s = dateText host y' m' d'.
Proof.
  intros Hlen Hfields Hvalid Hzone.
  rewrite NewsCardFacts.formatDate_long by assumption.
  unfold prefixDate in Hfields. unfold JSDate.parse. rewrite Hfields.
  pose proof (DateFacts.validDate_bounds y m d Hvalid) as [Hm Hd].
  assert (Hb : ((1 <=? m) && (m <=? 12) && (1 <=? d) && (d <=? 31))%Z = true).
  { rewrite !andb_true_iff, !Z.leb_le.
    assert (JSDate.daysInMonth y m <= 31)%Z; [|lia].
    unfold JSDate.daysInMonth.
    repeat match goal with |- context [if ?b then _ else _] => destruct b end;
      lia. }
  rewrite Hb.
  replace (d <=? JSDate.daysInMonth y m)%Z with true
    by (symmetry; apply Z.leb_le; lia).
  set (time := (JSDate.dayOfDate y m d * JSDate.msPerDay)%Z).
  specialize (Hzone time).
  replace ((time + localTZA host time) / JSDate.msPerDay)%Z
    with (JSDate.dayOfDate y m d - 1).
  - pose proof (dayOfDate_dateOfDay (dayOfDate y m d - 1)) as Hback.
    destruct (dateOfDay (dayOfDate y m d - 1)) as [[y' m'] d'].
    exists y', m', d'. split; [reflexivity|]. split; [|reflexivity].
    intros [= -> -> ->]. lia.
  - subst time. unfold JSDate.msPerDay in *.
    apply Z.div_unique with (86400000 + localTZA host
      (JSDate.dayOfDate y m d * 86400000)%Z); lia.
Qed.

Lemma formatDate_day_before_witness :
  exists y' m' d',
    dateOfDay (dayOfDate 2025 3 1 - 1) = (y', m', d') /\
    (y', m', d') <> (2025, 3, 1) /\
    formatDate Hosts.newYorkWinter "20250301T000000" =
      dateText Hosts.newYorkWinter y' m' d'.
Proof.
  apply (formatDate_day_before Hosts.newYorkWinter "20250301T000000"
           2025 3 1).
  - cbn. lia.
  - reflexivity.
  - reflexivity.
  - intros time. unfold msPerDay. simpl. lia.
Defined.

End CalendarFacts.

(** *** Signs and magnitudes *)

Module SignFacts.
Import JSNumber NumberSpec Payload Widgets MarketMovers.

Lemma negative_not_nonneg x :
  (x <? 0)%float = true -> (0 <=? x)%float = false.
Proof.
  rewrite ltb_spec, leb_spec. change (Prim2SF 0) with (S754_zero false).
  destruct (Prim2SF x) as [s|[]| |[] m e]; cbn [SFltb SFleb SFcompare];
    try discriminate; reflexivity.
Qed.

Lemma toString_nonneg x :
  (0 <=? x)%float = true -> toString (abs x) = toString x.
Proof.
  rewrite leb_spec. change (Prim2SF 0) with (S754_zero false).
  unfold toString. rewrite abs_spec.
  destruct (Prim2SF x) as [s|[]| |[] m e]; cbn [SFleb SFcompare SFabs];
    try discriminate; reflexivity.
Qed.

Lemma toString_negative x :
  (x <? 0)%float = true -> toString x = "-" ++ toString (abs x).
Proof.
  rewrite ltb_spec. change (Prim2SF 0) with (S754_zero false).
  unfold toString. rewrite abs_spec.
  destruct (Prim2SF x) as [s|[]| |[] m e]; cbn [SFltb SFcompare SFabs];
    try discriminate; try reflexivity.
  intros _. now destruct (shortest 16 m e (decade m e) 1) as [[n k] d].
Qed.

Lemma toString_unordered x :
  (0 <=? x)%float = false -> (x <? 0)%float = false ->
  toString (abs x) = "NaN".
Proof.
  rewrite ltb_spec, leb_spec. change (Prim2SF 0) with (S754_zero false).
  unfold toString. rewrite abs_spec.
  destruct (Prim2SF x) as [s|[]| |[] m e];
    cbn [SFltb SFleb SFcompare SFabs]; try discriminate; reflexivity.
Qed.

(** [toFixed] writes the sign of a number below zero and then what it
    writes for the magnitude. *)
Lemma toFixed_abs x f :
  toFixed x f = (if isNegative x then "-" else "") ++ toFixed (abs x) f.
Proof.
  unfold toFixed, magnitude, isNegative, toString.
  rewrite !ltb_spec, !abs_spec. change (Prim2SF 0) with (S754_zero false).
  destruct (Prim2SF x) as [s|[]| |[] m e];
    cbn [SFltb SFcompare SFabs]; try reflexivity.
  all: destruct (Qle_bool _ _); try reflexivity.
Qed.

(** The change of a ticker in the combined dashboard.  From zero on it is
    green with the chevron up beside the number as printed; below zero it
    is red with the chevron down beside the number without its minus
    sign; and a change that is not a number is red, down and "NaN%". *)
Theorem home_change_by_sign (item : TickerInfo) :
  let x := change_percentage item in
  let cell := homeChange item in
  ((0 <=? x)%float = true ->
     changeIcon cell = ChevronUp /\
     changeClass cell = "text-sm font-medium text-green-600" /\
     changeText cell = toString x ++ "%") /\
  ((x <? 0)%float = true ->
     changeIcon cell = ChevronDown /\
     changeClass cell = "text-sm font-medium text-red-600" /\
     "-" ++ changeText cell = toString x ++ "%") /\
  ((0 <=? x)%float = false -> (x <? 0)%float = false ->
     changeIcon cell = ChevronDown /\
     changeClass cell = "text-sm font-medium text-red-600" /\
     changeText cell = "NaN%").
Proof.
  cbv zeta. unfold homeChange. cbn [changeIcon changeClass changeText].
  split; [|split].
  - intros H. rewrite H, toString_nonneg by assumption. now repeat split.
  - intros H. rewrite (negative_not_nonneg _ H), (toString_negative _ H).
    now repeat split.
  - intros H0 H1. rewrite H0, toString_unordered by assumption.
    now repeat split.
Qed.

Lemma toFixed_magnitude x v f :
  magnitude x = Some v ->
  Qle_bool (inject_Z (10 ^ 21)) v = false ->
  toFixed (abs x) f = pointed (nearest v f) f.
Proof.
  unfold toFixed, magnitude, isNegative.
  rewrite ltb_spec, abs_spec. change (Prim2SF 0) with (S754_zero false).
  destruct (Prim2SF x) as [s|[]| |[] m e];
    cbn [SFltb SFcompare SFabs]; try discriminate;
    intros [= <-] Hc; rewrite Hc; reflexivity.
Qed.

(** The three lists of the Yahoo dashboard, for a change below [10^21] in
    magnitude.  A loser is red with the chevron down beside the magnitude
    of the change: its hundredths, the upper neighbour on a tie, with
    exactly two digits after the point, and no sign.  A gainer is green
    with the chevron up beside the same text, after a minus sign when the
    change is below zero.  A most active ticker shows the magnitude as a
    loser does, green and up from zero on, red and down otherwise. *)
Theorem yahoo_change_lists (item : TickerInfo) :
  RenderingSpec.belowCutoff (change_percentage item) = true ->
  exists n,
    RoundedTo 100 (change_percentage item) n /\
    String.length (fraction 2 (n mod 100)) = 2%nat /\
    let shown := decimal (n / 100) ++ "." ++ fraction 2 (n mod 100) ++ "%" in
    loserChange item =
      {| changeClass := "text-red-600 text-sm font-medium";
         changeIcon := ChevronDown;
         changeText := shown |} /\
    gainerChange item =
      {| changeClass := "text-green-600 text-sm font-medium";
         changeIcon := ChevronUp;
         changeText :=
           (if (change_percentage item <? 0)%float then "-" else "") ++
           shown |} /\
    ((0 <=? change_percentage item)%float = true ->
     activeChange item =
       {| changeClass := "text-sm font-medium text-green-600";
          changeIcon := ChevronUp;
          changeText := shown |}) /\
    ((0 <=? change_percentage item)%float = false ->
     activeChange item =
       {| changeClass := "text-sm font-medium text-red-600";
          changeIcon := ChevronDown;
          changeText := shown |}).
Proof.
  intros H. unfold RenderingSpec.belowCutoff in H.
  destruct (magnitude (change_percentage item)) as [v|] eqn:Hm;
    [|discriminate].
  apply negb_true_iff in H.
  pose proof (toFixed_magnitude _ v 2 Hm H) as Habs.
  exists (nearest v 2).
  split; [apply (NumberFacts.nearest_rounded _ v 2 Hm)|].
  split; [apply NumberFacts.fraction_length|].
  cbv zeta. unfold gainerChange, loserChange, activeChange.
  rewrite (toFixed_abs (change_percentage item) 2), Habs.
  unfold isNegative, pointed. change (10 ^ Z.of_nat 2)%Z with 100%Z.
  rewrite !JSStringFacts.append_assoc.
  split; [reflexivity|]. split; [reflexivity|].
  split; intros ->; reflexivity.
Qed.

Lemma yahoo_change_lists_witness :
  exists n,
    RoundedTo 100 (-12.345) n /\
    changeText
      (loserChange {| ticker := "XYZ"; price := 10; change_amount := -1;
                      change_percentage := -12.345; volume := 5 |})
      = decimal (n / 100) ++ "." ++ fraction 2 (n mod 100) ++ "%" /\
    changeText
      (loserChange {| ticker := "XYZ"; price := 10; change_amount := -1;
                      change_percentage := -12.345; volume := 5 |})
      = "12.35%" /\
    changeText
      (gainerChange {| ticker := "XYZ"; price := 10; change_amount := -1;
                       change_percentage := -12.345; volume := 5 |})
      = "-12.35%".
Proof.
  destruct (yahoo_change_lists
              {| ticker := "XYZ"; price := 10; change_amount := -1;
                 change_percentage := -12.345; volume := 5 |} eq_refl)
    as [n [Hr [_ [Hl _]]]].
  exists n. split; [exact Hr|]. split; [now rewrite Hl|].
  split; vm_compute; reflexivity.
Defined.

(** The value of an indicator card: a number below [10^21] in magnitude
    is shown as its hundredths, the upper neighbour on a tie, with the
    minus sign of a number below zero and exactly two digits after the
    point; a string is shown as it is. *)
Theorem indicator_value (x : float) (text : string) :
  RenderingSpec.belowCutoff x = true ->
  (exists n,
     RoundedTo 100 x n /\
     String.length (fraction 2 (n mod 100)) = 2%nat /\
     indicatorValue (inl x) =
       (if isNegative x then "-" else "") ++
       decimal (n / 100) ++ "." ++ fraction 2 (n mod 100)) /\
  indicatorValue (inr text) = text.
Proof.
  intros H. split; [|reflexivity].
  unfold RenderingSpec.belowCutoff in H. unfold indicatorValue, toFixed.
  destruct (magnitude x) as [v|] eqn:Hm; [|discriminate].
  apply negb_true_iff in H. rewrite H.
  exists (nearest v 2). split; [apply (NumberFacts.nearest_rounded x v 2 Hm)|].
  split; [apply NumberFacts.fraction_length | reflexivity].
Qed.

Lemma indicator_value_witness :
  RenderingSpec.belowCutoff (-45.678) = true /\
  indicatorValue (inl (-45.678)%float) = "-45.68" /\
  indicatorValue (inr "Overbought") = "Overbought".
Proof.
  split; [reflexivity|]. split; [vm_compute; reflexivity|].
  apply (indicator_value (-45.678) "Overbought"). reflexivity.
Defined.

End SignFacts.

(** *** The word under the average sentiment *)

Module TrendFacts.
Import SentimentOverviewCard TrendSpec.

Lemma SFcompare_opp a b :
  SFcompare (SFopp a) (SFopp b) = SFcompare b a.
Proof.
  destruct a as [[]|[]| |[] m1 e1], b as [[]|[]| |[] m2 e2];
    cbn [SFopp SFcompare negb]; try reflexivity.
  all: rewrite (Z.compare_antisym e1 e2);
    destruct (e1 ?= e2)%Z; cbn [CompOpp]; try reflexivity;
    rewrite Pos.compare_cont_antisym; reflexivity.
Qed.

Lemma ltb_opp x y : (- x <? - y)%float = (y <? x)%float.
Proof.
  rewrite !ltb_spec, !opp_spec. unfold SFltb. now rewrite SFcompare_opp.
Qed.

Lemma above_not_below x :
  (0.15 <? x)%float = true -> (x <? -0.15)%float = false.
Proof.
  rewrite !ltb_spec.
  let v := eval vm_compute in (Prim2SF 0.15) in change (Prim2SF 0.15) with v.
  let v := eval vm_compute in (Prim2SF (-0.15)) in
    change (Prim2SF (-0.15)) with v.
  destruct (Prim2SF x) as [[]|[]| |[] m e]; cbn [SFltb SFcompare];
    try discriminate; reflexivity.
Qed.

(** The word under the average score is "Bullish" exactly above 0.15 and
    "Bearish" exactly below -0.15, and the two bounds mirror each other:
    the opposite score gives the opposite word, and "Neutral" stays. *)
Theorem trend_mirror (s : Summary) :
  trend (negated s) = mirror (trend s) /\
  (trend s = "Bullish" <-> (0.15 <? average_score s)%float = true) /\
  (trend s = "Bearish" <-> (average_score s <? -0.15)%float = true).
Proof.
  unfold trend, negated. cbn [average_score].
  change (0.15 <? - average_score s)%float
    with (- (-0.15) <? - average_score s)%float.
  change (- average_score s <? -0.15)%float
    with (- average_score s <? PrimFloat.opp 0.15)%float.
  rewrite !ltb_opp.
  destruct (0.15 <? average_score s)%float eqn:Hup.
  - rewrite (above_not_below _ Hup).
    repeat split; cbv beta iota; intros; (reflexivity || congruence).
  - destruct (average_score s <? -0.15)%float;
      repeat split; cbv beta iota; intros; (reflexivity || congruence).
Qed.

End TrendFacts.

(** *** Submissions to their end *)

Module SettledFacts.
Import Completion Async RequestSpec PageSpec HandlerFacts.

#[local] Arguments Form.predictRequest : simpl never.
#[local] Arguments Home.marketMoversRequest : simpl never.
#[local] Arguments Yahoo.predictRequest : simpl never.
#[local] Arguments Yahoo.marketMoversRequest : simpl never.
#[local] Arguments Yahoo.newsRequest : simpl never.

Lemma market_drained network s apiKey fuel :
  drain network (2 + fuel) (start (Home.fetchMarketMovers apiKey) s) =
    (marketSettled s (outcome network (Home.marketMoversRequest apiKey)),
     []).
Proof.
  unfold Home.fetchMarketMovers, marketSettled.
  outcomes network (Home.marketMoversRequest apiKey);
    execute; reflexivity.
Qed.

(** [fetchMarketMovers] on its own, from any state.  It raises the flag of
    the market tab, leaves the error slot as it is, and asks for the
    market movers with the key in the address.  Once the request has
    settled the flag is down and nothing waits; a 2xx JSON body is
    stored and the error slot is still as it was; any failure leaves the
    market movers stored before, and its message in the error slot. *)
Theorem market_movers_fetched (network : Fetch.Network) (s : Home.State)
    (apiKey : string) (fuel : nat) :
  let market := outcome network (Home.marketMoversRequest apiKey) in
  let started := start (Home.fetchMarketMovers apiKey) s in
  let final := drain network (2 + fuel) started in
  fst started = Home.setMarketLoading true s /\
  awaited (snd started) = [Some (Home.marketMoversRequest apiKey)] /\
  final = (marketSettled s market, []) /\
  Home.marketLoading (fst final) = false /\
  (forall data, market = Parsed data ->
     Home.marketMovers (fst final) = data /\
     Home.error (fst final) = Home.error s) /\
  (failed market = true ->
     Home.marketMovers (fst final) = Home.marketMovers s /\
     Home.error (fst final) = marketFailure market /\
     marketFailure market <> None).
Proof.
  cbn zeta. rewrite market_drained.
  split; [reflexivity|]. split; [reflexivity|]. split; [reflexivity|].
  split; [reflexivity|]. cbn [fst].
  destruct (outcome network (Home.marketMoversRequest apiKey));
    cbn [marketSettled failed stored marketFailure Home.marketMovers
         Home.error];
    (split; [intros data' H; try discriminate H;
             injection H as ->; now split|]);
    intros H; try discriminate H; repeat split; discriminate.
Qed.

Lemma home_drained host network s data fuel :
  outcome network (Form.predictRequest (Home.formData s)) = Parsed data ->
  drain network (4 + fuel) (Home.submit host s) =
    (homeSettled s data
       (outcome network
          (Home.marketMoversRequest (Form.api_key (Home.formData s)))),
     []).
Proof.
  intros Hp. unfold Home.submit, Home.handleSubmit, homeSettled.
  outcomes network (Form.predictRequest (Home.formData s)).
  injection Hp as ->.
  destruct (JSString.truthy (Form.api_key (Home.formData s))) eqn:Hk.
  - unfold Home.fetchMarketMovers, marketSettled, predicted.
    outcomes network
      (Home.marketMoversRequest (Form.api_key (Home.formData s)));
      execute; reflexivity.
  - execute. reflexivity.
Qed.

(** A submission of the combined dashboard whose prediction arrives, to
    its end.  Nothing waits any more and both loading flags the handlers
    raise are down.  With a key in the form and the market movers
    arriving too, both payloads are stored and there is no error; with an
    empty key the market movers and the flag of their tab are as before
    the submission and there is no error. *)
Theorem home_submission_settled (host : Host) (network : Fetch.Network)
    (s : Home.State) (data : JSON.value) (fuel : nat) :
  outcome network (Form.predictRequest (Home.formData s)) = Parsed data ->
  let market :=
    outcome network
      (Home.marketMoversRequest (Form.api_key (Home.formData s))) in
  let final := drain network (4 + fuel) (Home.submit host s) in
  final = (homeSettled s data market, []) /\
  Home.prediction (fst final) = data /\
  Home.loading (fst final) = false /\
  (JSString.truthy (Form.api_key (Home.formData s)) = true ->
   Home.marketLoading (fst final) = false /\
   forall marketData, market = Parsed marketData ->
     Home.marketMovers (fst final) = marketData /\
     Home.error (fst final) = None) /\
  (JSString.truthy (Form.api_key (Home.formData s)) = false ->
   Home.marketMovers (fst final) = Home.marketMovers s /\
   Home.marketLoading (fst final) = Home.marketLoading s /\
   Home.error (fst final) = None).
Proof.
  intros Hp. cbn zeta. rewrite (home_drained host network s data fuel Hp).
  split; [reflexivity|]. cbn [fst]. unfold homeSettled.
  destruct (JSString.truthy (Form.api_key (Home.formData s))).
  - split; [reflexivity|]. split; [reflexivity|].
    split; [|discriminate]. intros _. split; [reflexivity|].
    intros marketData ->. now split.
  - split; [reflexivity|]. split; [reflexivity|].
    split; [discriminate|]. intros _. now repeat split.
Qed.

Lemma home_submission_settled_witness :
  drain (byMethod (status true (JSON.Str "payload"))
                  (status true (JSON.Str "movers")))
        4 (Home.submit Hosts.utc Home.initial)
    = ({| Home.formData := Home.formData Home.initial;
          Home.prediction := JSON.Str "payload";
          Home.marketMovers := JSON.Str "movers";
          Home.newsSentiment := JSON.Null;
          Home.loading := false;
          Home.marketLoading := false;
          Home.newsLoading := false;
          Home.error := None |}, []).
Proof.
  apply (proj1 (home_submission_settled Hosts.utc
                  (byMethod (status true (JSON.Str "payload"))
                            (status true (JSON.Str "movers")))
                  Home.initial (JSON.Str "payload") 0 eq_refl)).
Defined.

Lemma requested_idle {S : Type} network fuel (s : S) :
  requested network fuel (s, []) = [].
Proof. destruct fuel; reflexivity. Qed.

Ltac trace := repeat (execute; rewrite ?requested_idle).

(** The requests of a submission, all of them and in their order.  The
    prediction dashboard sends the prediction request and nothing else.
    The combined dashboard sends the market-movers request after it only
    when the prediction arrived and the key of the form is not empty.
    The Yahoo dashboard goes on to the market movers only when the
    prediction arrived, and from there to the news, for the symbol of the
    form as it was submitted, unless the market-movers request ended in
    an exception. *)
Theorem requests_sent (host : Host) (network : Fetch.Network) (fuel : nat) :
  (forall s,
      requested network (2 + fuel) (Basic.submit host s) =
        [Form.predictRequest (Basic.formData s)]) /\
  (forall s,
      requested network (4 + fuel) (Home.submit host s) =
        Form.predictRequest (Home.formData s) ::
        match outcome network (Form.predictRequest (Home.formData s)) with
        | Parsed _ =>
            if JSString.truthy (Form.api_key (Home.formData s))
            then [Home.marketMoversRequest (Form.api_key (Home.formData s))]
            else []
        | _ => []
        end) /\
  (forall s,
      requested network (6 + fuel) (Yahoo.submit host s) =
        Yahoo.predictRequest (Yahoo.formData s) ::
        match outcome network (Yahoo.predictRequest (Yahoo.formData s)) with
        | Parsed _ =>
            Yahoo.marketMoversRequest ::
            match raised (outcome network Yahoo.marketMoversRequest) with
            | None => [Yahoo.newsRequest (Yahoo.formData s)]
            | Some _ => []
            end
        | _ => []
        end).
Proof.
  split; [|split]; intros s.
  - unfold Basic.submit, Basic.handleSubmit.
    outcomes network (Form.predictRequest (Basic.formData s));
      try (destruct body as [errorData|e];
           [destruct (JSON.member host errorData "detail")
              as [detail|e] eqn:Em|]);
      trace; reflexivity.
  - unfold Home.submit, Home.handleSubmit.
    outcomes network (Form.predictRequest (Home.formData s));
      try (destruct body as [errorData|e];
           [destruct (JSON.member host errorData "detail")
              as [detail|e] eqn:Em|]);
      try (trace; reflexivity).
    destruct (JSString.truthy (Form.api_key (Home.formData s))) eqn:Hk;
      [|trace; reflexivity].
    unfold Home.fetchMarketMovers.
    outcomes network
      (Home.marketMoversRequest (Form.api_key (Home.formData s)));
      trace; reflexivity.
  - unfold Yahoo.submit, Yahoo.handleSubmit.
    outcomes network (Yahoo.predictRequest (Yahoo.formData s));
      try (destruct body as [errorData|e];
           [destruct (JSON.member host errorData "detail")
              as [detail|e] eqn:Em|]);
      try (trace; reflexivity).
    outcomes network Yahoo.marketMoversRequest;
      try (trace; reflexivity);
      outcomes network (Yahoo.newsRequest (Yahoo.formData s));
      trace; reflexivity.
Qed.

End SettledFacts.

(** *** A [detail] that is no string *)

Module DetailFacts.
Import Completion Async RequestSpec PageSpec HandlerFacts.

#[local] Arguments Form.predictRequest : simpl never.
#[local] Arguments Yahoo.predictRequest : simpl never.

Lemma member_of_detail host errorData v :
  detailOf errorData = Some v ->
  JSON.member host errorData "detail" = Normal (Some v).
Proof. destruct errorData; try discriminate. now intros <-. Qed.

Lemma thrown_message host detail :
  messageOf
    (JSON.newError host (JSON.orElse (Some detail) "Failed to fetch prediction"))
    = detailMessage host detail.
Proof.
  unfold JSON.orElse, detailMessage.
  destruct (JSON.truthy (Some detail)); [|reflexivity].
  cbn [JSON.newError]. now destruct (JSON.toString host detail).
Qed.

Lemma basic_detail host network s errorData detail fuel :
  errorBody network (Form.predictRequest (Basic.formData s))
    = Some errorData ->
  detailOf errorData = Some detail ->
  Basic.error (fst (drain network (2 + fuel) (Basic.submit host s)))
    = Some (detailMessage host detail).
Proof.
  intros H Hd. pose proof (member_of_detail host _ _ Hd) as Hm.
  rewrite <- thrown_message.
  unfold Basic.submit, Basic.handleSubmit.
  error_response network (Form.predictRequest (Basic.formData s)) H.
  execute. reflexivity.
Qed.

Lemma home_detail host network s errorData detail fuel :
  errorBody network (Form.predictRequest (Home.formData s))
    = Some errorData ->
  detailOf errorData = Some detail ->
  Home.error (fst (drain network (2 + fuel) (Home.submit host s)))
    = Some (detailMessage host detail).
Proof.
  intros H Hd. pose proof (member_of_detail host _ _ Hd) as Hm.
  rewrite <- thrown_message.
  unfold Home.submit, Home.handleSubmit.
  error_response network (Form.predictRequest (Home.formData s)) H.
  execute. reflexivity.
Qed.

Lemma yahoo_detail host network s errorData detail fuel :
  errorBody network (Yahoo.predictRequest (Yahoo.formData s))
    = Some errorData ->
  detailOf errorData = Some detail ->
  Yahoo.error (fst (drain network (2 + fuel) (Yahoo.submit host s)))
    = Some (detailMessage host detail).
Proof.
  intros H Hd. pose proof (member_of_detail host _ _ Hd) as Hm.
  rewrite <- thrown_message.
  unfold Yahoo.submit, Yahoo.handleSubmit.
  error_response network (Yahoo.predictRequest (Yahoo.formData s)) H.
  execute. reflexivity.
Qed.

(** The one exception [ToString] throws on a JSON value. *)
Lemma toString_throws host : forall v e,
  JSON.toString host v = Abrupt e ->
  e = ErrorObject (notPrimitiveMessage host).
Proof.
  intros v. induction v as [|b|x|s|items Hitems|members]
    using value_induction; intros e; cbn [JSON.toString]; try discriminate.
  - match goal with
    | |- match ?texts items with _ => _ end = _ -> _ =>
        assert (Hl : forall e', texts items = Abrupt e' ->
                                e' = ErrorObject (notPrimitiveMessage host))
    end.
    { induction Hitems as [|i rest Hi _ IHl]; intros e'; [discriminate|].
      destruct (match i with
                | JSON.Null => Normal ""
                | _ => JSON.toString host i
                end) as [s0|e0] eqn:Et.
      - match goal with
        | |- match ?r with _ => _ end = _ -> _ =>
            destruct r as [ss|e1] eqn:Er; [discriminate|];
            intros [= <-]; now apply IHl
        end.
      - intros [= <-]. apply Hi. destruct i; try exact Et. discriminate Et. }
    match goal with
    | |- match ?r with _ => _ end = _ -> _ =>
        destruct r as [ss|e0] eqn:Er; [discriminate|];
        intros [= <-]; now apply Hl
    end.
  - destruct (JSON.lookup "toString" members); [|discriminate].
    now intros [= <-].
Qed.

Lemma objects_to_string host items :
  Forall plainObject items ->
  JSON.toString host (JSON.Array items) =
    Normal (JSON.join "," (map (fun _ => "[object Object]") items)).
Proof.
  intros Hall. cbn [JSON.toString].
  match goal with
  | |- match ?texts items with _ => _ end = _ =>
      assert (Hl : texts items
                   = Normal (map (fun _ => "[object Object]") items))
  end.
  { induction Hall as [|item rest [members [-> Hm]] _ IH]; [reflexivity|].
    cbn [JSON.toString map]. rewrite Hm. cbv iota. now rewrite IH. }
  now rewrite Hl.
Qed.

Lemma array_throws host items :
  Exists (fun item => exists members member,
            item = JSON.Object members /\
            JSON.lookup "toString" members = Some member) items ->
  JSON.toString host (JSON.Array items)
    = Abrupt (ErrorObject (notPrimitiveMessage host)).
Proof.
  intros Hex.
  destruct (JSON.toString host (JSON.Array items)) as [text|e] eqn:Et.
  - exfalso. cbn [JSON.toString] in Et.
    match type of Et with
    | match ?texts items with _ => _ end = _ =>
        assert (Hl : forall parts, texts items <> Normal parts)
    end.
    { clear Et. induction Hex as [item rest [members [member [-> Hm]]]
                                 |item rest _ IH]; intros parts.
      - cbn [JSON.toString]. rewrite Hm. discriminate.
      - destruct (match item with
                  | JSON.Null => Normal ""
                  | _ => JSON.toString host item
                  end) as [s0|e0]; [|discriminate].
        match goal with
        | |- match ?r with _ => _ end <> _ =>
            destruct r as [ss|e1] eqn:Er; [|discriminate]
        end.
        now elim (IH ss). }
    match type of Et with
    | match ?r with _ => _ end = _ =>
        destruct r as [parts|e0] eqn:Er; [|discriminate]
    end.
    now elim (Hl parts).
  - now rewrite (toString_throws host _ _ Et).
Qed.

(** The [detail] of an error response, whatever JSON value it is.  A
    truthy one goes through [new Error] as its text: a string as it is,
    an object as "[object Object]", a list of objects, as a validation
    error has it, as "[object Object]" once for each, with commas
    between, and the empty list as the empty message.  An object with a
    member [toString] of its own has no text, alone or in a list: what is
    thrown, and stored, is the TypeError of the engine.  A falsy [detail]
    (null, false, zero, the empty string) leaves "Failed to fetch
    prediction".  In each of the three components. *)
Theorem error_detail_as_text (host : Host) (network : Fetch.Network)
    (errorData detail : JSON.value) (fuel : nat) :
  detailOf errorData = Some detail ->
  let message := detailMessage host detail in
  (forall s,
      errorBody network (Form.predictRequest (Basic.formData s))
        = Some errorData ->
      Basic.error (fst (drain network (2 + fuel) (Basic.submit host s)))
        = Some message) /\
  (forall s,
      errorBody network (Form.predictRequest (Home.formData s))
        = Some errorData ->
      Home.error (fst (drain network (2 + fuel) (Home.submit host s)))
        = Some message) /\
  (forall s,
      errorBody network (Yahoo.predictRequest (Yahoo.formData s))
        = Some errorData ->
      Yahoo.error (fst (drain network (2 + fuel) (Yahoo.submit host s)))
        = Some message) /\
  (forall text, detail = JSON.Str text -> JSString.truthy text = true ->
                message = text) /\
  (plainObject detail -> message = "[object Object]") /\
  (forall items,
      detail = JSON.Array items -> Forall plainObject items ->
      message = JSON.join "," (map (fun _ => "[object Object]") items)) /\
  (detail = JSON.Array [] -> message = "") /\
  (forall members member,
      detail = JSON.Object members ->
      JSON.lookup "toString" members = Some member ->
      message = notPrimitiveMessage host) /\
  (forall items,
      detail = JSON.Array items ->
      Exists (fun item => exists members member,
                item = JSON.Object members /\
                JSON.lookup "toString" members = Some member) items ->
      message = notPrimitiveMessage host) /\
  (JSON.truthy (Some detail) = false ->
   message = "Failed to fetch prediction").
Proof.
  intros Hd. cbn zeta.
  repeat match goal with |- _ /\ _ => split end.
  - intros s H. exact (basic_detail host network s errorData detail fuel H Hd).
  - intros s H. exact (home_detail host network s errorData detail fuel H Hd).
  - intros s H. exact (yahoo_detail host network s errorData detail fuel H Hd).
  - intros text -> Ht. unfold detailMessage. cbn [JSON.truthy JSON.toString].
    now rewrite Ht.
  - intros [members [-> Hm]]. unfold detailMessage.
    cbn [JSON.truthy JSON.toString]. now rewrite Hm.
  - intros items -> Hall. unfold detailMessage. cbn [JSON.truthy].
    now rewrite objects_to_string.
  - intros ->. reflexivity.
  - intros members member -> Hm. unfold detailMessage.
    cbn [JSON.truthy JSON.toString]. now rewrite Hm.
  - intros items -> Hex. unfold detailMessage. cbn [JSON.truthy].
    now rewrite array_throws.
  - intros Hf. unfold detailMessage. now rewrite Hf.
Qed.

Lemma error_detail_as_text_witness :
  Home.error
    (fst (drain (always (status false
                           (JSON.Object
                              [("detail",
                                JSON.Array
                                  [JSON.Object [("loc", JSON.Str "body")];
                                   JSON.Object []])])))
                2 (Home.submit Hosts.utc Home.initial)))
    = Some "[object Object],[object Object]" /\
  Basic.error
    (fst (drain (always (status false
                           (JSON.Object
                              [("detail",
                                JSON.Object
                                  [("toString", JSON.Number 1)])])))
                2 (Basic.submit Hosts.utc Basic.initial)))
    = Some "Cannot convert object to primitive value".
Proof.
  split.
  - apply (proj1 (proj2
             (error_detail_as_text Hosts.utc
                (always (status false
                           (JSON.Object
                              [("detail",
                                JSON.Array
                                  [JSON.Object [("loc", JSON.Str "body")];
                                   JSON.Object []])])))
                (JSON.Object
                   [("detail",
                     JSON.Array
                       [JSON.Object [("loc", JSON.Str "body")];
                        JSON.Object []])])
                (JSON.Array
                   [JSON.Object [("loc", JSON.Str "body")]; JSON.Object []])
                0 eq_refl))
             Home.initial eq_refl).
  - apply (proj1
             (error_detail_as_text Hosts.utc
                (always (status false
                           (JSON.Object
                              [("detail",
                                JSON.Object
                                  [("toString", JSON.Number 1)])])))
                (JSON.Object
                   [("detail",
                     JSON.Object [("toString", JSON.Number 1)])])
                (JSON.Object [("toString", JSON.Number 1)])
                0 eq_refl)
             Basic.initial eq_refl).
Defined.

End DetailFacts.


(** *** One submission at a time *)

Module PageFacts.
Import Completion Async RequestSpec PageSpec HandlerFacts Page.

#[local] Arguments Form.predictRequest : simpl never.
#[local] Arguments Yahoo.predictRequest : simpl never.
#[local] Arguments Yahoo.marketMoversRequest : simpl never.
#[local] Arguments Yahoo.newsRequest : simpl never.

Section Invariant.
Context {S FD : Type}.
Variable loading : S -> bool.
Variable formData : S -> FD.
Variable setFormData : FD -> S -> S.
Variable handleSubmit : FD -> Async.t S unit.
Variable network : Fetch.Network.

Hypothesis edit_keeps_loading :
  forall v s, loading (setFormData v s) = loading s.

Hypothesis submit_busy :
  forall fd s, loading s = false ->
    exists s' m n,
      start (handleSubmit fd) s = (s', [m]) /\ loading s' = true /\
      Busy loading network n m.

Lemma dispatch_one_in_flight event c c' :
  OneInFlight loading network c ->
  dispatch loading formData setFormData handleSubmit network event c
    = Some c' ->
  OneInFlight loading network c'.
Proof.
  destruct c as [s waiting]. unfold OneInFlight. cbn [fst snd].
  destruct event as [|v|i]; cbn [dispatch fst snd].
  - destruct (loading s) eqn:Hl; [discriminate|].
    destruct waiting as [|m [|m' rest]]; intros H;
      [|destruct H; discriminate | contradiction].
    destruct (submit_busy (formData s) s Hl) as [s' [m [n [-> [Hl' Hb]]]]].
    intros [= <-]. cbn [fst snd app]. split; [assumption|]. now exists n.
  - intros H [= <-]. cbn [fst snd]. now rewrite edit_keeps_loading.
  - destruct waiting as [|m [|m' rest]]; intros H; [|  | contradiction].
    + now destruct i.
    + destruct H as [Hl [n Hb]].
      destruct i as [|i]; [|now destruct i].
      cbn [settle nth_error].
      destruct n as [|n]; [contradiction|]. cbn [Busy] in Hb.
      specialize (Hb s Hl).
      destruct (start (resume network m) s) as [s' again].
      intros [= <-]. cbn [fst snd firstn skipn app].
      rewrite app_nil_r.
      destruct again as [|m1 [|m2 rest]]; [assumption | | contradiction].
      destruct Hb as [Hl' Hb]. split; [assumption|]. now exists n.
Qed.

Lemma run_one_in_flight events : forall c c',
  OneInFlight loading network c ->
  run loading formData setFormData handleSubmit network events c = Some c' ->
  OneInFlight loading network c'.
Proof.
  induction events as [|event rest IH]; intros c c' Hc; cbn [run].
  - now intros [= <-].
  - destruct (dispatch _ _ _ _ _ event c) as [c1|] eqn:Hd; [|discriminate].
    apply IH. eapply dispatch_one_in_flight; eassumption.
Qed.

Lemma one_in_flight_count c :
  OneInFlight loading network c ->
  (List.length (snd c) <= 1)%nat /\
  (loading (fst c) = true <-> snd c <> []).
Proof.
  unfold OneInFlight. destruct (snd c) as [|m [|m' rest]].
  - intros H. split; [cbn; lia|]. rewrite H. split; [discriminate | now intros []].
  - intros [H _]. split; [cbn; lia|]. rewrite H. split; [discriminate | reflexivity].
  - contradiction.
Qed.

End Invariant.

Lemma basic_busy host network fd s :
  Basic.loading s = false ->
  exists s' m n,
    start (Basic.handleSubmit host fd) s = (s', [m]) /\
    Basic.loading s' = true /\ Busy Basic.loading network n m.
Proof.
  intros _. eexists. eexists. exists 2%nat.
  split; [reflexivity|]. split; [reflexivity|].
  cbn [Busy]. intros s1 Hl1. unfold resume.
  outcomes network (Form.predictRequest fd).
  - execute. split; [reflexivity|]. intros s2 Hl2. execute. reflexivity.
  - execute. split; [reflexivity|]. intros s2 Hl2. execute. reflexivity.
  - execute. split; [reflexivity|]. intros s2 Hl2.
    destruct body as [errorData|e];
      [destruct (JSON.member host errorData "detail") as [detail|e] eqn:Em|];
      execute; reflexivity.
  - execute. reflexivity.
Qed.

Ltac waiting_step :=
  execute;
  match goal with
  | |- _ /\ _ => split; [first [assumption | reflexivity]|]; intros ? ?
  | |- _ = false => reflexivity
  end.

Lemma yahoo_busy host network fd s :
  Yahoo.loading s = false ->
  exists s' m n,
    start (Yahoo.handleSubmit host fd) s = (s', [m]) /\
    Yahoo.loading s' = true /\ Busy Yahoo.loading network n m.
Proof.
  intros _. eexists. eexists. exists 6%nat.
  split; [reflexivity|]. split; [reflexivity|].
  cbn [Busy]. intros s1 Hl1. unfold resume.
  outcomes network (Yahoo.predictRequest fd).
  - waiting_step. waiting_step.
    outcomes network Yahoo.marketMoversRequest.
    + waiting_step. waiting_step.
      outcomes network (Yahoo.newsRequest fd); repeat waiting_step.
    + waiting_step. waiting_step.
    + waiting_step.
      outcomes network (Yahoo.newsRequest fd); repeat waiting_step.
    + waiting_step.
  - waiting_step. waiting_step.
  - waiting_step.
    destruct body as [errorData|e];
      [destruct (JSON.member host errorData "detail") as [detail|e] eqn:Em|];
      waiting_step.
  - waiting_step.
Qed.

(** In the prediction dashboard and in the Yahoo dashboard, whatever the
    user and the network do from a page that is not loading (submissions
    while the button is enabled, edits of the form, promises settling in
    any order), at most one call of [handleSubmit] is waiting, and the
    loading flag is up exactly while one is.  So no response of an
    earlier submission can arrive after a later one has started. *)
Theorem one_submission_in_flight (host : Host) (network : Fetch.Network) :
  (forall events s c,
      Basic.loading s = false ->
      Page.basic host network events (s, []) = Some c ->
      (List.length (snd c) <= 1)%nat /\
      (Basic.loading (fst c) = true <-> snd c <> [])) /\
  (forall events s c,
      Yahoo.loading s = false ->
      Page.yahoo host network events (s, []) = Some c ->
      (List.length (snd c) <= 1)%nat /\
      (Yahoo.loading (fst c) = true <-> snd c <> [])).
Proof.
  split; intros events s c Hl Hrun.
  - apply (one_in_flight_count Basic.loading network).
    refine (run_one_in_flight Basic.loading Basic.formData Basic.setFormData
              (Basic.handleSubmit host) network _ _ events (s, []) c _ Hrun).
    + reflexivity.
    + intros fd s0. apply basic_busy.
    + exact Hl.
  - apply (one_in_flight_count Yahoo.loading network).
    refine (run_one_in_flight Yahoo.loading Yahoo.formData Yahoo.setFormData
              (Yahoo.handleSubmit host) network _ _ events (s, []) c _ Hrun).
    + reflexivity.
    + intros fd s0. apply yahoo_busy.
    + exact Hl.
Qed.

Lemma one_submission_in_flight_witness :
  exists c,
    Page.basic Hosts.utc (always (status true (JSON.Str "payload")))
      [Submit; Edit (Basic.formData Basic.initial); Settle 0]
      (Basic.initial, []) = Some c /\
    (List.length (snd c) <= 1)%nat /\
    (Basic.loading (fst c) = true <-> snd c <> []).
Proof.
  eexists. split; [reflexivity|].
  apply (proj1 (one_submission_in_flight Hosts.utc
                  (always (status true (JSON.Str "payload"))))
           [Submit; Edit (Basic.formData Basic.initial); Settle 0]
           Basic.initial _ eq_refl eq_refl).
Defined.

End PageFacts.


